(** * Booking-and-payment backend (server.js and its three mongoose models)

    A shallow embedding of the request handlers of [server.js] and of the
    schemas under [models/].  The handlers are written in a small
    state-and-exception monad: a run starts from a document store and
    yields the store it leaves, the effects it had in order (data-store
    call, payment-gateway call, calendar call, mail, console line) and its
    completion: a response, or a JavaScript exception that escapes.

    The external collaborators (payment gateway, calendar API, SMTP, JWT
    library, the clock, the date parser, data-store failures) are the fields
    of an environment record [Env]: each is an oracle that answers a call
    with a value or with an exception.

    Numbers are IEEE 754 doubles with their correctly rounded operations,
    and a [Date] is a time value within the range of dates or an Invalid
    Date, so that [Math.round(price * 100)] and the end time of a meeting
    are computed as the program computes them.

    The three mongoose models are finite maps from ids to documents:
    [findById] returns the document or [null], [findByIdAndUpdate] sets the
    listed fields of the document if there is one, [create] inserts under an
    unused id, and any call may be rejected by the environment. *)

From Stdlib Require Import ZArith SpecFloat String Ascii List Bool Lia.
From stdpp Require Import gmap strings list fin_maps sorting.

Local Open Scope string_scope.
Local Open Scope list_scope.
Local Open Scope Z_scope.

(** ** Data model (models/Service.js, models/Slot.js, models/Reservation.js) *)

(** ObjectIds travel as strings (request bodies, session metadata). *)
Abbreviation Id := string.

(** [status: { enum: ['free','booked'] }] *)
Inductive SlotStatus := free | booked.

(** [status: { enum: ['pending','paid','cancelled'] }] *)
Inductive ReservationStatus := pending | paid | cancelled.

#[global] Instance SlotStatus_eq_dec : EqDecision SlotStatus.
Proof. solve_decision. Defined.

#[global] Instance ReservationStatus_eq_dec : EqDecision ReservationStatus.
Proof. solve_decision. Defined.

(** A JavaScript Number is an IEEE 754 double: a [spec_float] in the
    binary64 format (53 bits of precision, exponents below 1024), with the
    correctly rounded operations of the standard. *)
Abbreviation Number := spec_float.

Definition NaN : Number := S754_nan.

(** The Number nearest to an integer; exact up to 2^53. *)
Definition Number_of_Z (z : Z) : Number := binary_normalize 53 1024 z 0 false.

(** [x * y] and [x + y] on Numbers. *)
Definition Number_mul (x y : Number) : Number := SFmul 53 1024 x y.

Definition Number_add (x y : Number) : Number := SFadd 53 1024 x y.

(** A path of type [Number] that the schema does not require: the document
    may lack it, hold [null], or hold a double. *)
Inductive NumberField :=
| Absent
| Null
| Num (x : Number).

(** [ToNumber], as the arithmetic operators apply it: [undefined] is NaN and
    [null] is +0. *)
Definition ToNumber (v : NumberField) : Number :=
  match v with
  | Absent => NaN
  | Null => S754_zero false
  | Num x => x
  end.

(** ServiceSchema: [duration] and [price] are [Number] paths without
    [required]. *)
Record ServiceDoc := {
  title       : string;
  description : string;
  duration    : NumberField;
  price       : NumberField;
  mentorEmail : string
}.

(** SlotSchema.  A stored date is its number of milliseconds since the
    epoch. *)
Record SlotDoc := {
  slot_serviceId : option Id;
  start          : Z;
  end_           : option Z;
  slot_status    : SlotStatus
}.

(** ReservationSchema. *)
Record ReservationDoc := {
  serviceId       : Id;
  slotId          : Id;
  meetingLink     : option string;
  firstName       : string;
  lastName        : string;
  phone           : string;
  customerEmail   : string;
  status          : ReservationStatus;
  stripeSessionId : option string;
  createdAt       : Z
}.

(** The three collections. *)
Record Store := {
  services     : gmap string ServiceDoc;
  slots        : gmap string SlotDoc;
  reservations : gmap string ReservationDoc
}.

(** A reservation after [.populate('serviceId').populate('slotId')]: a
    reference whose target is gone is populated with [null]. *)
Record PopulatedReservation := {
  pr_id      : Id;
  pr_doc     : ReservationDoc;
  pr_service : option ServiceDoc;
  pr_slot    : option SlotDoc
}.

(** ** Exceptions and completions *)

Inductive Exn :=
| Error (msg : string)
| TypeError (msg : string)
| RangeError (msg : string)
| CastError (msg : string).

Definition message (e : Exn) : string :=
  match e with Error m | TypeError m | RangeError m | CastError m => m end.

(** How an evaluation ends: normally with a value, or by throwing. *)
Inductive Completion (A : Type) :=
| Normal (a : A)
| Throw (e : Exn).
Arguments Normal {A} a.
Arguments Throw {A} e.

(** ** Values exchanged with the collaborators *)

(** The update documents handed to [findByIdAndUpdate]: only the listed
    fields are set. *)
Record ReservationUpdate := {
  set_status          : option ReservationStatus;
  set_stripeSessionId : option string;
  set_meetingLink     : option string
}.

Record SlotUpdate := {
  set_slot_serviceId : option Id;
  set_start          : option Z;
  set_end            : option Z;
  set_slot_status    : option SlotStatus
}.

(** A checkout session as far as the handlers read it.  The sessions of this
    backend are created at POST /api/reservations, which always sets both
    metadata entries. *)
Record Session := {
  session_id             : string;
  metadata_reservationId : Id;
  metadata_slotId        : Id;
  url                    : string;
  payment_status         : string
}.

(** A verified webhook event: [event.id], [event.type], [event.data.object]. *)
Record StripeEvent := {
  event_id    : string;
  event_type  : string;
  data_object : Session
}.

(** The argument of [stripe.checkout.sessions.create]; the constant entries
    (payment method, currency, mode, quantity) are left out. *)
Record CheckoutParams := {
  customer_email           : string;
  unit_amount              : Number;
  product_name             : string;
  params_reservationId     : Id;
  params_slotId            : Id
}.

(** The [event] resource of [calendar.events.insert]: [ev_start] and
    [ev_end] are the time values that the two [toISOString()] render, and
    [requestId] is the clock reading of [`meet-${Date.now()}`]. *)
Record CalendarEvent := {
  summary   : string;
  ev_start  : Z;
  ev_end    : Z;
  requestId : Z;
  attendees : list string
}.

(** [mailOptions]: the values interpolated into the subject and the html
    template ([to], [name], [title], the slot's start, [link]). *)
Record MailOptions := {
  mail_to    : string;
  mail_name  : string;
  mail_title : string;
  mail_date  : Z;
  mail_link  : option string
}.

Record JwtPayload := { role : string }.

(** Every call the handlers make on the data store. *)
Inductive DbOp :=
| Reservation_findByIdAndUpdate (id : Id) (u : ReservationUpdate)
| Reservation_findById_populate (id : Id)
| Reservation_find_populate
| Reservation_findByIdAndDelete (id : Id)
| Reservation_create (doc : ReservationDoc)
| Slot_findByIdAndUpdate (id : Id) (u : SlotUpdate)
| Slot_findById (id : Id)
| Slot_find
| Slot_find_free_sorted (lo hi : option Z)
| Slot_aggregate
| Slot_create (start_ : string) (status_ : SlotStatus)
| Slot_findByIdAndDelete (id : Id)
| Service_findById (id : Id).

(** Every awaited call on a collaborator. *)
Inductive Call :=
| Db (op : DbOp)
| StripeSessionsCreate (p : CheckoutParams)
| StripeSessionsRetrieve (sessionId_ : string)
| CalendarInsert (ev : CalendarEvent)
| SendMail (m : MailOptions).

(** What a handler does to the outside world: a call, with the exception it
    was rejected with if it failed, or a console line. *)
Inductive Effect :=
| ECall (c : Call) (rejected : option Exn)
| EConsoleLog (label : string)
| EConsoleError (label : string) (e : Exn).

(** ** The environment: configuration and external collaborators *)

Record Env := {
  (* process.env *)
  STRIPE_WEBHOOK_SECRET : option string;
  ADMIN_USER            : option string;
  ADMIN_PASS            : option string;
  JWT_SECRET            : option string;
  (* stripe *)
  stripe_webhooks_constructEvent :
    string -> option string -> option string -> Completion StripeEvent;
  stripe_checkout_sessions_create   : CheckoutParams -> Completion Session;
  stripe_checkout_sessions_retrieve : string -> Completion Session;
  (* googleapis: the hangoutLink of the inserted event *)
  calendar_events_insert : CalendarEvent -> Completion string;
  (* nodemailer *)
  mailTransporter_sendMail : MailOptions -> Completion unit;
  (* jsonwebtoken *)
  jwt_sign   : option string -> Completion string;
  jwt_verify : string -> option string -> Completion JwtPayload;
  (* Date: the clock, and the parse of a date string (None: Invalid Date) *)
  Date_now   : Z;
  Date_parse : string -> option Z;
  (* a data-store call that fails (connection lost, malformed id, ...) *)
  db_fault : DbOp -> option Exn
}.

(** ** The handler monad *)

(** One run of a piece of handler code from a given store: how it completed,
    the store it left, and the effects it had, in order. *)
Record Run (A : Type) := {
  result  : Completion A;
  final   : Store;
  effects : list Effect
}.
Arguments result {A} r.
Arguments final {A} r.
Arguments effects {A} r.

Definition M (A : Type) : Type := Store -> Run A.

Definition ret {A} (a : A) : M A :=
  fun st => {| result := Normal a; final := st; effects := [] |}.

Definition throw {A} (e : Exn) : M A :=
  fun st => {| result := Throw e; final := st; effects := [] |}.

Definition bind {A B} (m : M A) (k : A -> M B) : M B :=
  fun st =>
    let r := m st in
    match result r with
    | Normal a =>
        let r' := k a (final r) in
        {| result := result r'; final := final r';
           effects := effects r ++ effects r' |}
    | Throw e =>
        {| result := Throw e; final := final r; effects := effects r |}
    end.

(** [try { m } catch (err) { h err }] *)
Definition try_catch {A} (m : M A) (h : Exn -> M A) : M A :=
  fun st =>
    let r := m st in
    match result r with
    | Normal a => r
    | Throw e =>
        let r' := h e (final r) in
        {| result := result r'; final := final r';
           effects := effects r ++ effects r' |}
    end.

Notation "'let*' x ':=' m 'in' k" := (bind m (fun x => k))
  (at level 10, x pattern, m at level 100, k at level 200).

Notation "m ';;;' k" := (bind m (fun _ => k))
  (at level 100, k at level 200, right associativity).

Definition emit (ev : Effect) : M unit :=
  fun st => {| result := Normal tt; final := st; effects := [ev] |}.

Definition console_log (label : string) : M unit := emit (EConsoleLog label).

Definition console_error (label : string) (e : Exn) : M unit :=
  emit (EConsoleError label e).

(** A synchronous library function that may throw. *)
Definition eval {A} (c : Completion A) : M A :=
  fun st => {| result := c; final := st; effects := [] |}.

Definition rejection {A} (c : Completion A) : option Exn :=
  match c with
  | Normal _ => None
  | Throw e => Some e
  end.

(** Awaiting a call on a collaborator that answers with [c]. *)
Definition await {A} (call : Call) (c : Completion A) : M A :=
  fun st =>
    {| result := c; final := st; effects := [ECall call (rejection c)] |}.

(** Reading a property of a value that may be [null]. *)
Definition deref {A} (o : option A) (prop : string) : M A :=
  match o with
  | Some a => ret a
  | None =>
      throw (TypeError
               ("Cannot read properties of null (reading '" +:+ prop +:+ "')"))
  end.

(** JavaScript truthiness of a string-valued body field: [undefined] and the
    empty string are falsy. *)
Definition truthy (o : option string) : bool :=
  match o with
  | Some s => negb (String.eqb s "")
  | None => false
  end.

(** ** The mongoose models *)

Section DataStore.

Variable env : Env.

(** A call on the data store: it fails if the environment says so, and
    otherwise runs on the store. *)
Definition db_call {A} (op : DbOp) (run : Store -> A * Store) : M A :=
  fun st =>
    match db_fault env op with
    | Some e =>
        {| result := Throw e; final := st;
           effects := [ECall (Db op) (Some e)] |}
    | None =>
        let '(a, st') := run st in
        {| result := Normal a; final := st';
           effects := [ECall (Db op) None] |}
    end.

(** A call on the data store that mongoose rejects while casting its
    arguments. *)
Definition db_reject {A} (op : DbOp) (e : Exn) : M A :=
  await (Db op) (Throw e).

Definition set_slots (st : Store) (m : gmap string SlotDoc) : Store :=
  {| services := services st; slots := m; reservations := reservations st |}.

Definition set_reservations (st : Store) (m : gmap string ReservationDoc)
  : Store :=
  {| services := services st; slots := slots st; reservations := m |}.

Definition apply_reservation_update (u : ReservationUpdate) (r : ReservationDoc)
  : ReservationDoc :=
  {| serviceId := serviceId r;
     slotId := slotId r;
     meetingLink :=
       match set_meetingLink u with
       | Some l => Some l
       | None => meetingLink r
       end;
     firstName := firstName r;
     lastName := lastName r;
     phone := phone r;
     customerEmail := customerEmail r;
     status := default (status r) (set_status u);
     stripeSessionId :=
       match set_stripeSessionId u with
       | Some s => Some s
       | None => stripeSessionId r
       end;
     createdAt := createdAt r |}.

Definition apply_slot_update (u : SlotUpdate) (s : SlotDoc) : SlotDoc :=
  {| slot_serviceId :=
       match set_slot_serviceId u with
       | Some i => Some i
       | None => slot_serviceId s
       end;
     start := default (start s) (set_start u);
     end_ := match set_end u with Some e => Some e | None => end_ s end;
     slot_status := default (slot_status s) (set_slot_status u) |}.

Definition populate (st : Store) (id : Id) (r : ReservationDoc)
  : PopulatedReservation :=
  {| pr_id := id;
     pr_doc := r;
     pr_service := services st !! serviceId r;
     pr_slot := slots st !! slotId r |}.

End DataStore.

Module Service.
Section Model.
Variable env : Env.

Definition findById (id : Id) : M (option ServiceDoc) :=
  db_call env (Service_findById id) (fun st => (services st !! id, st)).

End Model.
End Service.

Module Slot.
Section Model.
Variable env : Env.

Definition findById (id : Id) : M (option SlotDoc) :=
  db_call env (Slot_findById id) (fun st => (slots st !! id, st)).

(** Without [{ new: true }] the document as it was is returned; with it,
    the updated one.  Both are [null] when no document has that id. *)
Definition findByIdAndUpdate (id : Id) (u : SlotUpdate) (new : bool)
  : M (option SlotDoc) :=
  db_call env (Slot_findByIdAndUpdate id u)
    (fun st =>
       match slots st !! id with
       | Some s =>
           let s' := apply_slot_update u s in
           (Some (if new then s' else s),
            set_slots st (<[id := s']> (slots st)))
       | None => (None, st)
       end).

Definition find : M (list (Id * SlotDoc)) :=
  db_call env Slot_find (fun st => (map_to_list (slots st), st)).

(** [Slot.find({ start: { $gte: lo, $lte: hi }, status: 'free' })
      .sort('start')] *)
Definition matches_free_between (lo hi : Z) (d : Id * SlotDoc) : bool :=
  (lo <=? start d.2) && (start d.2 <=? hi)
  && bool_decide (slot_status d.2 = free).

Definition by_start (a b : Id * SlotDoc) : Prop := start a.2 <= start b.2.

#[global] Instance by_start_dec a b : Decision (by_start a b).
Proof. unfold by_start. apply _. Defined.

Definition find_free_sorted (lo hi : option Z) : M (list (Id * SlotDoc)) :=
  match lo, hi with
  | Some lo_, Some hi_ =>
      db_call env (Slot_find_free_sorted lo hi)
        (fun st =>
           (merge_sort by_start
              (List.filter (matches_free_between lo_ hi_)
                 (map_to_list (slots st))),
            st))
  | _, _ =>
      db_reject (Slot_find_free_sorted lo hi)
        (CastError "Cast to date failed for value Invalid Date")
  end.

(** The [$match]/[$group]/[$project] pipeline: free slots counted per day.
    A day is named by its number since the epoch, which
    [$dateToString '%Y-%m-%d'] renders one-to-one. *)
Definition count_day (acc : gmap Z nat) (d : Id * SlotDoc) : gmap Z nat :=
  let day := start d.2 `div` 86400000 in
  <[day := S (default 0%nat (acc !! day))]> acc.

Definition aggregate : M (list (Z * nat)) :=
  db_call env Slot_aggregate
    (fun st =>
       (map_to_list
          (fold_left count_day
             (List.filter (fun d => bool_decide (slot_status d.2 = free))
                (map_to_list (slots st)))
             ∅),
        st)).

(** [Slot.create({ start, status: 'free' })]: the start is cast to a Date,
    the other paths take their schema defaults, the store assigns an
    unused id. *)
Definition create (start_ : string) (status_ : SlotStatus)
  : M (Id * SlotDoc) :=
  match Date_parse env start_ with
  | None =>
      db_reject (Slot_create start_ status_) (CastError "Cast to date failed")
  | Some t =>
      let doc := {| slot_serviceId := None; start := t; end_ := None;
                    slot_status := status_ |} in
      db_call env (Slot_create start_ status_)
        (fun st =>
           let id := fresh (dom (slots st)) in
           ((id, doc), set_slots st (<[id := doc]> (slots st))))
  end.

Definition findByIdAndDelete (id : Id) : M (option SlotDoc) :=
  db_call env (Slot_findByIdAndDelete id)
    (fun st => (slots st !! id, set_slots st (delete id (slots st)))).

End Model.
End Slot.

Module Reservation.
Section Model.
Variable env : Env.

Definition findByIdAndUpdate (id : Id) (u : ReservationUpdate) (new : bool)
  : M (option ReservationDoc) :=
  db_call env (Reservation_findByIdAndUpdate id u)
    (fun st =>
       match reservations st !! id with
       | Some r =>
           let r' := apply_reservation_update u r in
           (Some (if new then r' else r),
            set_reservations st (<[id := r']> (reservations st)))
       | None => (None, st)
       end).

(** [Reservation.findById(id).populate('serviceId').populate('slotId')] *)
Definition findById_populate (id : Id) : M (option PopulatedReservation) :=
  db_call env (Reservation_findById_populate id)
    (fun st => (populate st id <$> reservations st !! id, st)).

(** [Reservation.find().populate('slotId').populate('serviceId')] *)
Definition find_populate : M (list PopulatedReservation) :=
  db_call env Reservation_find_populate
    (fun st =>
       (List.map (fun d => populate st d.1 d.2)
          (map_to_list (reservations st)),
        st)).

Definition findByIdAndDelete (id : Id) : M (option ReservationDoc) :=
  db_call env (Reservation_findByIdAndDelete id)
    (fun st =>
       (reservations st !! id,
        set_reservations st (delete id (reservations st)))).

(** [Reservation.create({ ..., status: 'pending' })]: [meetingLink] and
    [stripeSessionId] default to [null], [createdAt] to [Date.now]. *)
Definition create (serviceId_ slotId_ customerEmail_ firstName_ lastName_
                   phone_ : string) (status_ : ReservationStatus)
  : M (Id * ReservationDoc) :=
  let doc := {| serviceId := serviceId_; slotId := slotId_;
                meetingLink := None; firstName := firstName_;
                lastName := lastName_; phone := phone_;
                customerEmail := customerEmail_; status := status_;
                stripeSessionId := None; createdAt := Date_now env |} in
  db_call env (Reservation_create doc)
    (fun st =>
       let id := fresh (dom (reservations st)) in
       ((id, doc), set_reservations st (<[id := doc]> (reservations st)))).

End Model.
End Reservation.

(** ** Requests and responses *)

(** What [res.send] / [res.json] is given. *)
Inductive Body :=
| Text (s : string)
| JsonError (error : string)
| JsonMessage (msg : string)
| JsonReceived
| JsonStatusPaid
| JsonToken (token : string)
| JsonCheckoutUrl (checkoutUrl : string)
| JsonReservations (l : list PopulatedReservation)
| JsonSlots (l : list (Id * SlotDoc))
| JsonSlot (s : option (Id * SlotDoc))
| JsonSummary (l : list (Z * nat)).

Record Response := {
  code : Z;
  body : Body
}.

(** [res.json(b)] answers with status 200. *)
Definition res_json (b : Body) : M Response :=
  ret {| code := 200; body := b |}.

Definition res_status_json (c : Z) (b : Body) : M Response :=
  ret {| code := c; body := b |}.

Definition res_status_send (c : Z) (s : string) : M Response :=
  ret {| code := c; body := Text s |}.

(** The raw body and the [stripe-signature] header of a webhook request. *)
Record WebhookRequest := {
  raw_body         : string;
  stripe_signature : option string
}.

Record VerifyBody := { sessionId : option string }.

Record LoginBody := {
  username : option string;
  password : option string
}.

(** The body of POST /api/admin/slots: only [start] is read. *)
Record NewSlotBody := {
  new_start     : option string;
  new_status    : option string;
  new_serviceId : option string;
  new_end       : option string
}.

Record ReservationBody := {
  body_serviceId     : option string;
  body_slotId        : option string;
  body_customerEmail : option string;
  body_firstName     : option string;
  body_lastName      : option string;
  body_phone         : option string
}.

Inductive AdminRequest :=
| GET_admin_reservations
| DELETE_admin_reservation (reservationId : Id)
| GET_admin_slots
| POST_admin_slots (b : NewSlotBody)
| PUT_admin_slots (slotId_ : Id) (b : SlotUpdate)
| DELETE_admin_slots (slotId_ : Id).

Inductive Request :=
| POST_stripe_webhook (r : WebhookRequest)
| POST_stripe_verify (b : VerifyBody)
| POST_login (b : LoginBody)
| Admin (authorization : option string) (r : AdminRequest)
| GET_slots_summary
| GET_slots (date : option string)
| POST_reservations (b : ReservationBody).

(** [s.split(c)] *)
Fixpoint split_acc (c : ascii) (acc : string) (s : string) : list string :=
  match s with
  | EmptyString => [acc]
  | String a s' =>
      if Ascii.eqb a c then acc :: split_acc c EmptyString s'
      else split_acc c (acc +:+ String a EmptyString) s'
  end.

Definition split (c : ascii) (s : string) : list string :=
  split_acc c EmptyString s.

(** [Math.round(x)]: NaN, the infinities, the zeros and the integral
    Numbers are returned as they are; any other [x] gives the integral
    Number nearest to it, a half going towards plus infinity, and a result
    of zero keeps the sign of [x].  A double with a negative exponent [-k]
    is [m / 2^k], so the integer is the floor of [(2 m + 2^k) / 2^(k+1)]. *)
Definition Math_round (x : Number) : Number :=
  match x with
  | S754_finite s m (Zneg k) =>
      let n := (2 * cond_Zopp s (Zpos m) + 2 ^ Zpos k) `div` 2 ^ (Zpos k + 1) in
      if n =? 0 then S754_zero s else Number_of_Z n
  | _ => x
  end.

(** ** Dates *)

(** A [Date] object holds a time value, a whole number of milliseconds at
    most 8.64e15 away from the epoch, or is an Invalid Date ([None]). *)
Definition max_time : Z := 8640000000000000.

(** [new Date(value)] for a Number: the time value is [TimeClip(value)],
    which truncates towards zero and gives an Invalid Date for NaN, the
    infinities and what lies beyond [max_time]. *)
Definition new_Date (value : Number) : option Z :=
  match value with
  | S754_zero _ => Some 0
  | S754_finite s m (Zneg k) =>
      if max_time * 2 ^ Zpos k <? Zpos m then None
      else Some (cond_Zopp s (Zpos m) `quot` 2 ^ Zpos k)
  | S754_finite s m e =>
      if max_time <? Zpos m * 2 ^ e then None
      else Some (cond_Zopp s (Zpos m) * 2 ^ e)
  | _ => None
  end.

(** The [Date] a stored date is read as: one beyond the range of time values
    is an Invalid Date. *)
Definition Date_read (t : Z) : option Z :=
  if Z.abs t <=? max_time then Some t else None.

(** [date.getTime()] *)
Definition Date_getTime (date : option Z) : Number :=
  match date with
  | Some t => Number_of_Z t
  | None => NaN
  end.

(** [date.toISOString()], which throws on an Invalid Date; the string of a
    valid date names its time value one-to-one. *)
Definition Date_toISOString (date : option Z) : Completion Z :=
  match date with
  | Some t => Normal t
  | None => Throw (RangeError "Invalid time value")
  end.

Definition paid_update (session : Session) : ReservationUpdate :=
  {| set_status := Some paid;
     set_stripeSessionId := Some (session_id session);
     set_meetingLink := None |}.

Definition booked_update : SlotUpdate :=
  {| set_slot_serviceId := None; set_start := None; set_end := None;
     set_slot_status := Some booked |}.

Definition meetingLink_update (meetLink : string) : ReservationUpdate :=
  {| set_status := None; set_stripeSessionId := None;
     set_meetingLink := Some meetLink |}.

(** The string value of a body field that was checked to be truthy. *)
Definition str (o : option string) : string := default "" o.

(** [Promise.all([p1, p2])]: both calls are issued; the result is rejected
    if one of them is. *)
Definition Promise_all2 {A B} (m1 : M A) (m2 : M B) : M (A * B) :=
  fun st =>
    let r1 := m1 st in
    let r2 := m2 (final r1) in
    {| result :=
         match result r1, result r2 with
         | Normal a, Normal b => Normal (a, b)
         | Throw e, _ => Throw e
         | _, Throw e => Throw e
         end;
       final := final r2;
       effects := effects r1 ++ effects r2 |}.

(** ** server.js *)

Section Handlers.

Variable env : Env.

(** [createGoogleMeet(startDate, durationMinutes, summary, attendees)].
    Attendees are a list here, so the [Array.isArray] guard never fires.
    The event is built before the calendar is called, and each of the two
    [toISOString()] throws a RangeError on an Invalid Date. *)
Definition createGoogleMeet (startDate : option Z)
    (durationMinutes : NumberField) (summary_ : string)
    (attendees_ : list string) : M string :=
  let endDate :=
    new_Date (Number_add (Date_getTime startDate)
                (Number_mul (ToNumber durationMinutes) (Number_of_Z 60000))) in
  let* start_dateTime := eval (Date_toISOString startDate) in
  let* end_dateTime := eval (Date_toISOString endDate) in
  let event := {| summary := summary_;
                  ev_start := start_dateTime;
                  ev_end := end_dateTime;
                  requestId := Date_now env;
                  attendees := attendees_ |} in
  await (CalendarInsert event) (calendar_events_insert env event).

(** The body of [if (event.type === 'checkout.session.completed') { ... }]. *)
Definition checkout_session_completed (session : Session) : M unit :=
  let reservationId := metadata_reservationId session in
  let slotId_ := metadata_slotId session in
  (* Actualizo reserva y slot *)
  let* reservation :=
    Reservation.findByIdAndUpdate env reservationId (paid_update session)
      true in
  Slot.findByIdAndUpdate env slotId_ booked_update false ;;;
  (* Obtengo datos de slot y servicio *)
  let* slot := Slot.findById env slotId_ in
  let* reservation := deref reservation "serviceId" in
  let* service := Service.findById env (serviceId reservation) in
  (* Creo Google Meet *)
  let* slot := deref slot "start" in
  let* service := deref service "duration" in
  let* meetLink :=
    createGoogleMeet (Date_read (start slot)) (duration service)
      ("Reserva: " +:+ title service)
      [customerEmail reservation; mentorEmail service] in
  Reservation.findByIdAndUpdate env reservationId (meetingLink_update meetLink)
    false ;;;
  (* Envío correo de confirmación *)
  let* fullRes := Reservation.findById_populate env reservationId in
  let* fullRes := deref fullRes "customerEmail" in
  let to := customerEmail (pr_doc fullRes) in
  let name := firstName (pr_doc fullRes) in
  let* fullRes_serviceId := deref (pr_service fullRes) "title" in
  let title_ := title fullRes_serviceId in
  let* fullRes_slotId := deref (pr_slot fullRes) "start" in
  let dateStr := start fullRes_slotId in
  let link := meetingLink (pr_doc fullRes) in
  console_log "📧 Preparando para enviar mail a" ;;;
  let mailOptions := {| mail_to := to; mail_name := name;
                        mail_title := title_; mail_date := dateStr;
                        mail_link := link |} in
  try_catch
    (await (SendMail mailOptions) (mailTransporter_sendMail env mailOptions) ;;;
     console_log "✉️ Email de confirmación enviado a")
    (fun err => console_error "Error enviando mail:" err).

(** POST /api/stripe/webhook *)
Definition stripe_webhook (req : WebhookRequest) : M Response :=
  let* verified :=
    try_catch
      (let* event :=
         eval (stripe_webhooks_constructEvent env (raw_body req)
                  (stripe_signature req) (STRIPE_WEBHOOK_SECRET env)) in
       console_log "✔️ Recibí webhook:" ;;;
       ret (inl event))
      (fun err =>
         console_error "Error firma webhook:" err ;;;
         let* r := res_status_send 400 ("Webhook Error: " +:+ message err) in
         ret (inr r)) in
  match verified with
  | inr response => ret response
  | inl event =>
      (if String.eqb (event_type event) "checkout.session.completed"
       then checkout_session_completed (data_object event)
       else ret tt) ;;;
      res_json JsonReceived
  end.

(** POST /api/stripe/verify *)
Definition stripe_verify (b : VerifyBody) : M Response :=
  try_catch
    (if negb (truthy (sessionId b)) then
       res_status_json 400 (JsonError "Falta sessionId.")
     else
       let* session :=
         await (StripeSessionsRetrieve (str (sessionId b)))
           (stripe_checkout_sessions_retrieve env (str (sessionId b))) in
       if negb (String.eqb (payment_status session) "paid") then
         res_status_json 400 (JsonError "Pago no completado.")
       else res_json JsonStatusPaid)
    (fun err =>
       console_error "Error en /api/stripe/verify:" err ;;;
       res_status_json 500 (JsonError "Error interno.")).

(** POST /api/login *)
Definition login (b : LoginBody) : M Response :=
  console_log "Login request body:" ;;;
  if negb (truthy (username b)) || negb (truthy (password b)) then
    console_log "Faltan campos username/password" ;;;
    res_status_json 400 (JsonError "Faltan campos.")
  else if bool_decide (username b = ADMIN_USER env)
          && bool_decide (password b = ADMIN_PASS env) then
    let* token := eval (jwt_sign env (JWT_SECRET env)) in
    console_log "Login exitoso, token:" ;;;
    res_json (JsonToken token)
  else
    console_log "Credenciales inválidas" ;;;
    res_status_json 401 (JsonError "Credenciales inválidas.").

(** [authAdmin(req, res, next)], mounted on /api/admin. *)
Definition authAdmin (authorization : option string) (next : M Response)
  : M Response :=
  match authorization with
  | Some auth =>
      if String.prefix "Bearer " auth then
        let* ok :=
          try_catch
            (let* payload :=
               eval (jwt_verify env (nth 1 (split " "%char auth) "")
                        (JWT_SECRET env)) in
             if negb (String.eqb (role payload) "admin") then throw (Error "")
             else ret true)
            (fun _ => ret false) in
        if (ok : bool) then next
        else res_status_json 401 (JsonError "Token inválido o expirado.")
      else res_status_json 401 (JsonError "No autorizado.")
  | None => res_status_json 401 (JsonError "No autorizado.")
  end.

(** GET /api/admin/reservations *)
Definition get_admin_reservations : M Response :=
  try_catch
    (let* reservations_ := Reservation.find_populate env in
     res_json (JsonReservations reservations_))
    (fun err =>
       console_error "" err ;;;
       res_status_json 500 (JsonError "Error fetching reservations.")).

(** DELETE /api/admin/reservation/:reservationId *)
Definition delete_admin_reservation (reservationId : Id) : M Response :=
  try_catch
    (Reservation.findByIdAndDelete env reservationId ;;;
     res_json (JsonMessage "Reserva eliminada."))
    (fun err =>
       console_error "Error eliminando reserva (singular):" err ;;;
       res_status_json 400 (JsonError "No se pudo eliminar la reserva.")).

(** GET /api/admin/slots *)
Definition get_admin_slots : M Response :=
  try_catch
    (let* slots_ := Slot.find env in
     res_json (JsonSlots slots_))
    (fun err =>
       console_error "" err ;;;
       res_status_json 500 (JsonError "Error fetching slots.")).

(** POST /api/admin/slots *)
Definition post_admin_slots (b : NewSlotBody) : M Response :=
  try_catch
    (if negb (truthy (new_start b)) then
       res_status_json 400 (JsonError "Falta start.")
     else
       let* slot := Slot.create env (str (new_start b)) free in
       res_status_json 201 (JsonSlot (Some slot)))
    (fun err =>
       console_error "" err ;;;
       res_status_json 400 (JsonError "Invalid slot data.")).

(** PUT /api/admin/slots/:slotId *)
Definition put_admin_slots (slotId_ : Id) (b : SlotUpdate) : M Response :=
  try_catch
    (let* slot := Slot.findByIdAndUpdate env slotId_ b true in
     res_json (JsonSlot (pair slotId_ <$> slot)))
    (fun err =>
       console_error "" err ;;;
       res_status_json 400 (JsonError "Could not update slot.")).

(** DELETE /api/admin/slots/:slotId *)
Definition delete_admin_slots (slotId_ : Id) : M Response :=
  try_catch
    (Slot.findByIdAndDelete env slotId_ ;;;
     res_json (JsonMessage "Slot deleted."))
    (fun err =>
       console_error "" err ;;;
       res_status_json 400 (JsonError "Could not delete slot.")).

(** GET /api/slots/summary *)
Definition get_slots_summary : M Response :=
  try_catch
    (let* summary_ := Slot.aggregate env in
     res_json (JsonSummary summary_))
    (fun err =>
       console_error "" err ;;;
       res_status_json 500 (JsonError "Error interno.")).

(** GET /api/slots *)
Definition get_slots (date : option string) : M Response :=
  if negb (truthy date) then
    res_status_json 400 (JsonError "Falta parámetro date")
  else
    try_catch
      (let start_ := Date_parse env (str date +:+ "T00:00:00") in
       let end__ := Date_parse env (str date +:+ "T23:59:59") in
       let* slots_ := Slot.find_free_sorted env start_ end__ in
       res_json (JsonSlots slots_))
      (fun err =>
         console_error "" err ;;;
         res_status_json 500 (JsonError "Error interno.")).

(** POST /api/reservations *)
Definition post_reservations (b : ReservationBody) : M Response :=
  try_catch
    (if negb (truthy (body_serviceId b)) || negb (truthy (body_slotId b))
        || negb (truthy (body_customerEmail b))
        || negb (truthy (body_firstName b))
        || negb (truthy (body_lastName b)) || negb (truthy (body_phone b))
     then res_status_json 400 (JsonError "Faltan campos obligatorios.")
     else
       let serviceId_ := str (body_serviceId b) in
       let slotId_ := str (body_slotId b) in
       let customerEmail_ := str (body_customerEmail b) in
       let* (service, slot) :=
         Promise_all2 (Service.findById env serviceId_)
           (Slot.findById env slotId_) in
       match service, slot with
       | Some service, Some slot =>
           if bool_decide (slot_status slot <> free) then
             res_status_json 400 (JsonError "Servicio o slot no disponible.")
           else
             Slot.findByIdAndUpdate env slotId_ booked_update false ;;;
             let* reservation :=
               Reservation.create env serviceId_ slotId_ customerEmail_
                 (str (body_firstName b)) (str (body_lastName b))
                 (str (body_phone b)) pending in
             let params :=
               {| customer_email := customerEmail_;
                  unit_amount :=
                    Math_round
                      (Number_mul (ToNumber (price service))
                         (Number_of_Z 100));
                  product_name := title service;
                  params_reservationId := reservation.1;
                  params_slotId := slotId_ |} in
             let* session :=
               await (StripeSessionsCreate params)
                 (stripe_checkout_sessions_create env params) in
             res_json (JsonCheckoutUrl (url session))
       | _, _ =>
           res_status_json 400 (JsonError "Servicio o slot no disponible.")
       end)
    (fun err =>
       console_error "" err ;;;
       res_status_json 500 (JsonError "Error interno.")).

(** The routes under /api/admin, behind [authAdmin]. *)
Definition admin_route (r : AdminRequest) : M Response :=
  match r with
  | GET_admin_reservations => get_admin_reservations
  | DELETE_admin_reservation id => delete_admin_reservation id
  | GET_admin_slots => get_admin_slots
  | POST_admin_slots b => post_admin_slots b
  | PUT_admin_slots id b => put_admin_slots id b
  | DELETE_admin_slots id => delete_admin_slots id
  end.

(** The application: one request, dispatched to its route. *)
Definition app (req : Request) : M Response :=
  match req with
  | POST_stripe_webhook r => stripe_webhook r
  | POST_stripe_verify b => stripe_verify b
  | POST_login b => login b
  | Admin authorization r => authAdmin authorization (admin_route r)
  | GET_slots_summary => get_slots_summary
  | GET_slots date => get_slots date
  | POST_reservations b => post_reservations b
  end.

End Handlers.

Definition is_admin (req : Request) : bool :=
  match req with
  | Admin _ _ => true
  | _ => false
  end.

(** ** Reading a run *)

(** The calls of a trace, without their outcomes and without the console
    lines. *)
Definition calls (tr : list Effect) : list Call :=
  omap (fun e => match e with ECall c _ => Some c | _ => None end) tr.

(** Some call of the trace was rejected. *)
Definition some_call_failed (tr : list Effect) : bool :=
  existsb (fun e => match e with ECall _ (Some _) => true | _ => false end) tr.

(** No data-store call fails. *)
Definition db_reliable (env : Env) : Prop :=
  forall op, db_fault env op = None.

(** ** A concrete deployment, used to run the handlers *)

Definition a_session : Session :=
  {| session_id := "cs_test_1";
     metadata_reservationId := "r1";
     metadata_slotId := "s1";
     url := "https://checkout.example/cs_test_1";
     payment_status := "paid" |}.

(** A toy gateway: the signature header [good] verifies, and the verified
    event has the raw body as its type. *)
Definition toy_constructEvent (payload : string) (sig secret : option string)
  : Completion StripeEvent :=
  if bool_decide (sig = Some "good") then
    Normal {| event_id := "evt_1"; event_type := payload;
              data_object := a_session |}
  else Throw (Error "No signatures found matching the expected signature").

Definition toy_Date_parse (s : string) : option Z :=
  if String.eqb s "2024-01-01T00:00:00" then Some 1704067200000
  else if String.eqb s "2024-01-01T23:59:59" then Some 1704153599000
  else if String.eqb s "2024-01-01T10:00:00" then Some 1704103200000
  else None.

(** Every collaborator answers. *)
Definition env_ok : Env :=
  {| STRIPE_WEBHOOK_SECRET := Some "whsec";
     ADMIN_USER := Some "admin";
     ADMIN_PASS := Some "secret";
     JWT_SECRET := Some "jwt-key";
     stripe_webhooks_constructEvent := toy_constructEvent;
     stripe_checkout_sessions_create := fun _ => Normal a_session;
     stripe_checkout_sessions_retrieve := fun _ => Normal a_session;
     calendar_events_insert := fun _ => Normal "https://meet.example/abc";
     mailTransporter_sendMail := fun _ => Normal tt;
     jwt_sign := fun _ => Normal "token";
     jwt_verify := fun t _ =>
       if String.eqb t "token" then Normal {| role := "admin" |}
       else Throw (Error "jwt malformed");
     Date_now := 1700000000000;
     Date_parse := toy_Date_parse;
     db_fault := fun _ => None |}.

(** The calendar API is down. *)
Definition env_calendar_down : Env :=
  {| STRIPE_WEBHOOK_SECRET := STRIPE_WEBHOOK_SECRET env_ok;
     ADMIN_USER := ADMIN_USER env_ok;
     ADMIN_PASS := ADMIN_PASS env_ok;
     JWT_SECRET := JWT_SECRET env_ok;
     stripe_webhooks_constructEvent := toy_constructEvent;
     stripe_checkout_sessions_create := stripe_checkout_sessions_create env_ok;
     stripe_checkout_sessions_retrieve :=
       stripe_checkout_sessions_retrieve env_ok;
     calendar_events_insert := fun _ => Throw (Error "calendar unavailable");
     mailTransporter_sendMail := mailTransporter_sendMail env_ok;
     jwt_sign := jwt_sign env_ok;
     jwt_verify := jwt_verify env_ok;
     Date_now := Date_now env_ok;
     Date_parse := toy_Date_parse;
     db_fault := fun _ => None |}.

(** The SMTP server is down. *)
Definition env_smtp_down : Env :=
  {| STRIPE_WEBHOOK_SECRET := STRIPE_WEBHOOK_SECRET env_ok;
     ADMIN_USER := ADMIN_USER env_ok;
     ADMIN_PASS := ADMIN_PASS env_ok;
     JWT_SECRET := JWT_SECRET env_ok;
     stripe_webhooks_constructEvent := toy_constructEvent;
     stripe_checkout_sessions_create := stripe_checkout_sessions_create env_ok;
     stripe_checkout_sessions_retrieve :=
       stripe_checkout_sessions_retrieve env_ok;
     calendar_events_insert := calendar_events_insert env_ok;
     mailTransporter_sendMail := fun _ => Throw (Error "smtp unavailable");
     jwt_sign := jwt_sign env_ok;
     jwt_verify := jwt_verify env_ok;
     Date_now := Date_now env_ok;
     Date_parse := toy_Date_parse;
     db_fault := fun _ => None |}.

(** The connection to the data store is lost. *)
Definition env_db_down : Env :=
  {| STRIPE_WEBHOOK_SECRET := STRIPE_WEBHOOK_SECRET env_ok;
     ADMIN_USER := ADMIN_USER env_ok;
     ADMIN_PASS := ADMIN_PASS env_ok;
     JWT_SECRET := JWT_SECRET env_ok;
     stripe_webhooks_constructEvent := toy_constructEvent;
     stripe_checkout_sessions_create := stripe_checkout_sessions_create env_ok;
     stripe_checkout_sessions_retrieve :=
       stripe_checkout_sessions_retrieve env_ok;
     calendar_events_insert := calendar_events_insert env_ok;
     mailTransporter_sendMail := mailTransporter_sendMail env_ok;
     jwt_sign := jwt_sign env_ok;
     jwt_verify := jwt_verify env_ok;
     Date_now := Date_now env_ok;
     Date_parse := toy_Date_parse;
     db_fault := fun _ => Some (Error "connection lost") |}.

Definition a_service : ServiceDoc :=
  {| title := "Mentoring"; description := "One hour";
     duration := Num (Number_of_Z 60); price := Num (Number_of_Z 50);
     mentorEmail := "mentor@example.com" |}.

(** 2024-01-01T10:00:00Z *)
Definition a_free_slot : SlotDoc :=
  {| slot_serviceId := None; start := 1704103200000; end_ := None;
     slot_status := free |}.

Definition a_booked_slot : SlotDoc :=
  {| slot_serviceId := None; start := 1704103200000; end_ := None;
     slot_status := booked |}.

(** 2024-01-01T23:59:59.500Z *)
Definition a_late_slot : SlotDoc :=
  {| slot_serviceId := None; start := 1704153599500; end_ := None;
     slot_status := free |}.

Definition a_pending_reservation : ReservationDoc :=
  {| serviceId := "v1"; slotId := "s1"; meetingLink := None;
     firstName := "Ana"; lastName := "Perez"; phone := "099123456";
     customerEmail := "ana@example.com"; status := pending;
     stripeSessionId := None; createdAt := 1699999000000 |}.

Definition st_empty : Store :=
  {| services := ∅; slots := ∅; reservations := ∅ |}.

(** One service and one free slot. *)
Definition st_open : Store :=
  {| services := {["v1" := a_service]};
     slots := {["s1" := a_free_slot]};
     reservations := ∅ |}.

(** The slot is held by a pending reservation. *)
Definition st_pending : Store :=
  {| services := {["v1" := a_service]};
     slots := {["s1" := a_booked_slot]};
     reservations := {["r1" := a_pending_reservation]} |}.

(** The same after an admin deleted the reservation. *)
Definition st_reservation_deleted : Store :=
  {| services := {["v1" := a_service]};
     slots := {["s1" := a_booked_slot]};
     reservations := ∅ |}.

(** A free slot in the last second of 2024-01-01. *)
Definition st_late : Store :=
  {| services := {["v1" := a_service]};
     slots := {["s9" := a_late_slot]};
     reservations := ∅ |}.

Definition signed (payload : string) : WebhookRequest :=
  {| raw_body := payload; stripe_signature := Some "good" |}.

Definition unsigned (payload : string) : WebhookRequest :=
  {| raw_body := payload; stripe_signature := Some "forged" |}.

Definition a_booking : ReservationBody :=
  {| body_serviceId := Some "v1"; body_slotId := Some "s1";
     body_customerEmail := Some "ana@example.com";
     body_firstName := Some "Ana"; body_lastName := Some "Perez";
     body_phone := Some "099123456" |}.

(** The same request with a [serviceId] that is no ObjectId. *)
Definition a_malformed_booking : ReservationBody :=
  {| body_serviceId := Some "not-an-id"; body_slotId := Some "s1";
     body_customerEmail := Some "ana@example.com";
     body_firstName := Some "Ana"; body_lastName := Some "Perez";
     body_phone := Some "099123456" |}.

(** Every collaborator answers, and the data store rejects the lookup of a
    service under an id that it cannot cast to an ObjectId. *)
Definition env_strict_ids : Env :=
  {| STRIPE_WEBHOOK_SECRET := STRIPE_WEBHOOK_SECRET env_ok;
     ADMIN_USER := ADMIN_USER env_ok;
     ADMIN_PASS := ADMIN_PASS env_ok;
     JWT_SECRET := JWT_SECRET env_ok;
     stripe_webhooks_constructEvent := toy_constructEvent;
     stripe_checkout_sessions_create := stripe_checkout_sessions_create env_ok;
     stripe_checkout_sessions_retrieve :=
       stripe_checkout_sessions_retrieve env_ok;
     calendar_events_insert := calendar_events_insert env_ok;
     mailTransporter_sendMail := mailTransporter_sendMail env_ok;
     jwt_sign := jwt_sign env_ok;
     jwt_verify := jwt_verify env_ok;
     Date_now := Date_now env_ok;
     Date_parse := toy_Date_parse;
     db_fault := fun op =>
       match op with
       | Service_findById id =>
           if String.eqb id "not-an-id" then
             Some (CastError "Cast to ObjectId failed for value not-an-id")
           else None
       | _ => None
       end |}.

(** ** Vocabulary of the statements *)

(** [m], started from [st], completes as [c], leaves [st'] and has the
    effects [tr]. *)
Definition runs {A} (m : M A) (st : Store) (c : Completion A) (st' : Store)
    (tr : list Effect) : Prop :=
  m st = {| result := c; final := st'; effects := tr |}.

(** The end of the meeting for a slot and a service: the slot's start plus
    the service's duration in minutes, when that is a valid date. *)
Definition meeting_end (slot : SlotDoc) (service : ServiceDoc) : option Z :=
  new_Date
    (Number_add (Date_getTime (Date_read (start slot)))
       (Number_mul (ToNumber (duration service)) (Number_of_Z 60000))).

(** The event resource [createGoogleMeet] builds for a slot, a service and a
    reservation: from the slot's start to [endDate], the customer and the
    mentor as attendees. *)
Definition meeting_event (env : Env) (slot : SlotDoc) (service : ServiceDoc)
    (reservation : ReservationDoc) (endDate : Z) : CalendarEvent :=
  {| summary := "Reserva: " +:+ title service;
     ev_start := start slot;
     ev_end := endDate;
     requestId := Date_now env;
     attendees := [customerEmail reservation; mentorEmail service] |}.

(** The confirmation mail for a reservation; [rslot] is the slot the
    reservation itself refers to. *)
Definition confirmation_mail (reservation : ReservationDoc)
    (service : ServiceDoc) (rslot : SlotDoc) (meetLink : string)
  : MailOptions :=
  {| mail_to := customerEmail reservation;
     mail_name := firstName reservation;
     mail_title := title service;
     mail_date := start rslot;
     mail_link := Some meetLink |}.

(** The steps of the reservation orchestrator, in order. *)
Definition checkout_calls (env : Env) (session : Session)
    (reservation : ReservationDoc) (slot : SlotDoc) (service : ServiceDoc)
    (rslot : SlotDoc) (endDate : Z) (meetLink : string) : list Call :=
  let rid := metadata_reservationId session in
  let sid := metadata_slotId session in
  [ Db (Reservation_findByIdAndUpdate rid (paid_update session));
    Db (Slot_findByIdAndUpdate sid booked_update);
    Db (Slot_findById sid);
    Db (Service_findById (serviceId reservation));
    CalendarInsert (meeting_event env slot service reservation endDate);
    Db (Reservation_findByIdAndUpdate rid (meetingLink_update meetLink));
    Db (Reservation_findById_populate rid);
    SendMail (confirmation_mail reservation service rslot meetLink) ].

(** The console line that follows the attempt to send the mail. *)
Definition mail_outcome (c : Completion unit) : Effect :=
  match c with
  | Normal _ => EConsoleLog "✉️ Email de confirmación enviado a"
  | Throw e => EConsoleError "Error enviando mail:" e
  end.

(** The orchestrator property as the specification words it: every verified
    'checkout.session.completed' request makes the handler go through all
    the steps, for some reservation, slot, service and link. *)
Definition webhook_performs_checkout_steps (env : Env) (req : WebhookRequest)
    (st : Store) : Prop :=
  forall event,
    stripe_webhooks_constructEvent env (raw_body req) (stripe_signature req)
      (STRIPE_WEBHOOK_SECRET env) = Normal event ->
    event_type event = "checkout.session.completed" ->
    exists reservation slot service rslot endDate meetLink,
      calls (effects (app env (POST_stripe_webhook req) st))
      = checkout_calls env (data_object event) reservation slot service rslot
          endDate meetLink.

(** All six fields of a reservation request are there (and not empty). *)
Definition fields_present (b : ReservationBody) : bool :=
  truthy (body_serviceId b) && truthy (body_slotId b)
  && truthy (body_customerEmail b) && truthy (body_firstName b)
  && truthy (body_lastName b) && truthy (body_phone b).

(** The reservation document POST /api/reservations creates. *)
Definition pending_reservation (env : Env) (b : ReservationBody)
  : ReservationDoc :=
  {| serviceId := str (body_serviceId b);
     slotId := str (body_slotId b);
     meetingLink := None;
     firstName := str (body_firstName b);
     lastName := str (body_lastName b);
     phone := str (body_phone b);
     customerEmail := str (body_customerEmail b);
     status := pending;
     stripeSessionId := None;
     createdAt := Date_now env |}.

(** The checkout request for a reservation stored under [rid]. *)
Definition checkout_params (b : ReservationBody) (service : ServiceDoc)
    (rid : Id) : CheckoutParams :=
  {| customer_email := str (body_customerEmail b);
     unit_amount :=
       Math_round (Number_mul (ToNumber (price service)) (Number_of_Z 100));
     product_name := title service;
     params_reservationId := rid;
     params_slotId := str (body_slotId b) |}.

(** An instant falls on the day [date] when it lies between that day's
    00:00:00 and the end of its last second, 23:59:59. *)
Definition falls_on_date (env : Env) (date : string) (t : Z) : Prop :=
  exists lo hi,
    Date_parse env (date +:+ "T00:00:00") = Some lo /\
    Date_parse env (date +:+ "T23:59:59") = Some hi /\
    lo <= t < hi + 1000.

(** No slot that is booked before is missing or free after. *)
Definition keeps_booked (st st' : Store) : Prop :=
  forall id s,
    slots st !! id = Some s -> slot_status s = booked ->
    exists s', slots st' !! id = Some s' /\ slot_status s' = booked.

Definition never_frees {A} (m : M A) : Prop :=
  forall st, keeps_booked st (final (m st)).

(** The response carries a message: [{ error: ... }] or a text. *)
Definition error_body (r : Response) : Prop :=
  match body r with
  | JsonError _ | Text _ => True
  | _ => False
  end.

(** A success, or a rejection of the request with a message. *)
Definition ok_or_4xx (r : Response) : Prop :=
  code r = 200 \/ code r = 201 \/
  ((code r = 400 \/ code r = 401) /\ error_body r).

Definition is_webhook (req : Request) : bool :=
  match req with
  | POST_stripe_webhook _ => true
  | _ => false
  end.

(** The admin routes that change the store. *)
Definition is_admin_write (req : Request) : bool :=
  match req with
  | Admin _ (DELETE_admin_reservation _) => true
  | Admin _ (POST_admin_slots _) => true
  | Admin _ (PUT_admin_slots _ _) => true
  | Admin _ (DELETE_admin_slots _) => true
  | _ => false
  end.

(** The status a route's [catch] block answers with. *)
Definition catch_code (req : Request) : Z :=
  if is_admin_write req then 400 else 500.

(** The error-handling property as the specification words it, for the
    unexpected failures: when a call of the handler fails, the request is
    answered with a 5xx status. *)
Definition failure_answered_5xx (env : Env) (req : Request) (st : Store)
  : Prop :=
  some_call_failed (effects (app env req st)) = true ->
  exists r, result (app env req st) = Normal r /\ 500 <= code r < 600.

(** [m] throws exactly when one of its calls failed, and otherwise returns a
    value in [Q]. *)
Definition call_driven {A} (Q : A -> Prop) (m : M A) : Prop :=
  forall st,
    match result (m st) with
    | Normal a => some_call_failed (effects (m st)) = false /\ Q a
    | Throw _ => some_call_failed (effects (m st)) = true
    end.

(** A handler that answers a failed call with status [c] and a message, and
    otherwise succeeds or rejects the request. *)
Definition answers (c : Z) (m : M Response) : Prop :=
  forall st r,
    result (m st) = Normal r ->
    if some_call_failed (effects (m st)) then code r = c /\ error_body r
    else ok_or_4xx r.

(** A handler that always writes a response. *)
Definition always_answers (m : M Response) : Prop :=
  forall st, exists r, result (m st) = Normal r.

Definition is_login (req : Request) : bool :=
  match req with
  | POST_login _ => true
  | _ => false
  end.

(** What [authAdmin] accepts: a header [Bearer <token> ...] whose token
    verifies with the role admin. *)
Definition authorized (env : Env) (authorization : option string) : bool :=
  match authorization with
  | Some auth =>
      String.prefix "Bearer " auth
      && match jwt_verify env (nth 1 (split " "%char auth) "")
                 (JWT_SECRET env) with
         | Normal payload => String.eqb (role payload) "admin"
         | Throw _ => false
         end
  | None => false
  end.

(** The service of a reservation request is missing, or its slot is missing
    or not free. *)
Definition unavailable (b : ReservationBody) (st : Store) : Prop :=
  services st !! str (body_serviceId b) = None \/
  slots st !! str (body_slotId b) = None \/
  (exists slot, slots st !! str (body_slotId b) = Some slot /\
                slot_status slot <> free).

(** The rejection property of POST /api/reservations as the specification
    words it: a request with a missing field, or for a service or a slot
    that does not exist, or for a slot that is not free, is answered 400
    with a message, and no slot is changed and no reservation created. *)
Definition bad_reservation_answered_400 (env : Env) (b : ReservationBody)
    (st : Store) : Prop :=
  fields_present b = false \/ unavailable b st ->
  exists msg,
    result (app env (POST_reservations b) st)
    = Normal {| code := 400; body := JsonError msg |} /\
    slots (final (app env (POST_reservations b) st)) = slots st /\
    reservations (final (app env (POST_reservations b) st))
    = reservations st.

(** The two lookups of POST /api/reservations are answered by the data
    store. *)
Definition lookups_answered (env : Env) (b : ReservationBody) : Prop :=
  db_fault env (Service_findById (str (body_serviceId b))) = None /\
  db_fault env (Slot_findById (str (body_slotId b))) = None.

(** The request fails the validation of its handler: what each route checks
    of the request, of the configuration and of the documents it looked up
    before it acts.
    - webhook: the signature does not verify;
    - verify: no [sessionId], or the session retrieved is not paid;
    - login: a field is missing, or the credentials are not the admin's;
    - /api/admin: [authAdmin] does not accept the header, or the body of
      POST /api/admin/slots has no [start];
    - GET /api/slots: no [date];
    - POST /api/reservations: a field is missing, or the lookups find the
      service or the slot missing, or the slot not free. *)
Definition fails_validation (env : Env) (req : Request) (st : Store) : Prop :=
  match req with
  | POST_stripe_webhook r =>
      exists err,
        stripe_webhooks_constructEvent env (raw_body r) (stripe_signature r)
          (STRIPE_WEBHOOK_SECRET env) = Throw err
  | POST_stripe_verify b =>
      truthy (sessionId b) = false \/
      (exists session,
         stripe_checkout_sessions_retrieve env (str (sessionId b))
         = Normal session /\
         payment_status session <> "paid")
  | POST_login b =>
      truthy (username b) = false \/ truthy (password b) = false \/
      username b <> ADMIN_USER env \/ password b <> ADMIN_PASS env
  | Admin authorization r =>
      authorized env authorization = false \/
      match r with
      | POST_admin_slots b => truthy (new_start b) = false
      | _ => False
      end
  | GET_slots_summary => False
  | GET_slots date => truthy date = false
  | POST_reservations b =>
      fields_present b = false \/
      (lookups_answered env b /\ unavailable b st)
  end.

(** ** Vocabulary of the further properties *)

(** [m] relates every store it starts from to the store it leaves. *)
Definition preserves {A} (R : relation Store) (m : M A) : Prop :=
  forall st, R st (final (m st)).

(** The services are as they were. *)
Definition services_kept (st st' : Store) : Prop :=
  services st' = services st.

(** The store is as it was. *)
Definition store_kept (st st' : Store) : Prop := st' = st.

(** A slot differs from what it was at most by having become booked. *)
Definition slot_only_booked (s s' : SlotDoc) : Prop :=
  slot_serviceId s' = slot_serviceId s /\ start s' = start s /\
  end_ s' = end_ s /\
  (slot_status s' = slot_status s \/ slot_status s' = booked).

(** Same slot ids, and every slot differs at most by having become
    booked. *)
Definition slots_only_booked (st st' : Store) : Prop :=
  forall id,
    match slots st !! id, slots st' !! id with
    | Some s, Some s' => slot_only_booked s s'
    | None, None => True
    | _, _ => False
    end.

(** A reservation differs from what it was at most by its meeting link, its
    payment-session id and by having become paid. *)
Definition reservation_only_paid (r r' : ReservationDoc) : Prop :=
  serviceId r' = serviceId r /\ slotId r' = slotId r /\
  firstName r' = firstName r /\ lastName r' = lastName r /\
  phone r' = phone r /\ customerEmail r' = customerEmail r /\
  createdAt r' = createdAt r /\
  (status r' = status r \/ status r' = paid).

(** Every reservation is still there, changed at most as above. *)
Definition reservations_survive (st st' : Store) : Prop :=
  forall id r,
    reservations st !! id = Some r ->
    exists r', reservations st' !! id = Some r' /\ reservation_only_paid r r'.

(** A cancelled reservation was cancelled before. *)
Definition none_newly_cancelled (st st' : Store) : Prop :=
  forall id r',
    reservations st' !! id = Some r' -> status r' = cancelled ->
    exists r, reservations st !! id = Some r /\ status r = cancelled.

(** The routes that only read. *)
Definition is_read_only (req : Request) : bool :=
  match req with
  | POST_stripe_verify _ | POST_login _ | GET_slots_summary | GET_slots _
  | Admin _ GET_admin_reservations | Admin _ GET_admin_slots => true
  | _ => false
  end.

Definition is_delete_reservation (req : Request) : bool :=
  match req with
  | Admin _ (DELETE_admin_reservation _) => true
  | _ => false
  end.


(** The character [c] does not occur in [s]. *)
Fixpoint free_of (c : ascii) (s : string) : bool :=
  match s with
  | EmptyString => true
  | String a s' => negb (Ascii.eqb a c) && free_of c s'
  end.


(** The day of an instant, as a number of days since the epoch (UTC). *)
Definition day_of (t : Z) : Z := t `div` 86400000.

(** The free slots of the store that start on [day]. *)
Definition free_on_day (st : Store) (day : Z) : list (Id * SlotDoc) :=
  List.filter
    (fun d => bool_decide (slot_status d.2 = free)
              && bool_decide (day_of (start d.2) = day))
    (map_to_list (slots st)).


(** A slot with its status set to booked. *)
Definition booked_slot (s : SlotDoc) : SlotDoc :=
  {| slot_serviceId := slot_serviceId s; start := start s; end_ := end_ s;
     slot_status := booked |}.

(** A reservation marked paid under a payment session. *)
Definition paid_reservation (session : Session) (r : ReservationDoc)
  : ReservationDoc :=
  {| serviceId := serviceId r; slotId := slotId r;
     meetingLink := meetingLink r;
     firstName := firstName r; lastName := lastName r; phone := phone r;
     customerEmail := customerEmail r; status := paid;
     stripeSessionId := Some (session_id session);
     createdAt := createdAt r |}.

(** The same with its meeting link. *)
Definition confirmed_reservation (session : Session) (meetLink : string)
    (r : ReservationDoc) : ReservationDoc :=
  {| serviceId := serviceId r; slotId := slotId r;
     meetingLink := Some meetLink;
     firstName := firstName r; lastName := lastName r; phone := phone r;
     customerEmail := customerEmail r; status := paid;
     stripeSessionId := Some (session_id session);
     createdAt := createdAt r |}.


(** The payment gateway is down. *)
Definition env_gateway_down : Env :=
  {| STRIPE_WEBHOOK_SECRET := STRIPE_WEBHOOK_SECRET env_ok;
     ADMIN_USER := ADMIN_USER env_ok;
     ADMIN_PASS := ADMIN_PASS env_ok;
     JWT_SECRET := JWT_SECRET env_ok;
     stripe_webhooks_constructEvent := toy_constructEvent;
     stripe_checkout_sessions_create :=
       fun _ => Throw (Error "gateway unavailable");
     stripe_checkout_sessions_retrieve :=
       fun _ => Throw (Error "gateway unavailable");
     calendar_events_insert := calendar_events_insert env_ok;
     mailTransporter_sendMail := mailTransporter_sendMail env_ok;
     jwt_sign := jwt_sign env_ok;
     jwt_verify := jwt_verify env_ok;
     Date_now := Date_now env_ok;
     Date_parse := toy_Date_parse;
     db_fault := fun _ => None |}.

(** A gateway that gives the session the metadata it was asked for. *)
Definition echo_session (p : CheckoutParams) : Session :=
  {| session_id := "cs_test_2";
     metadata_reservationId := params_reservationId p;
     metadata_slotId := params_slotId p;
     url := "https://checkout.example/cs_test_2";
     payment_status := "unpaid" |}.

(** The session of [a_booking] made on [st_open]: the reservation is stored
    under the first unused id. *)
Definition the_booking_session : Session :=
  echo_session (checkout_params a_booking a_service "0").

Definition env_shop : Env :=
  {| STRIPE_WEBHOOK_SECRET := STRIPE_WEBHOOK_SECRET env_ok;
     ADMIN_USER := ADMIN_USER env_ok;
     ADMIN_PASS := ADMIN_PASS env_ok;
     JWT_SECRET := JWT_SECRET env_ok;
     stripe_webhooks_constructEvent :=
       fun payload sig _ =>
         if bool_decide (sig = Some "good") then
           Normal {| event_id := "evt_2"; event_type := payload;
                     data_object := the_booking_session |}
         else Throw (Error "No signatures found");
     stripe_checkout_sessions_create := fun p => Normal (echo_session p);
     stripe_checkout_sessions_retrieve :=
       stripe_checkout_sessions_retrieve env_ok;
     calendar_events_insert := calendar_events_insert env_ok;
     mailTransporter_sendMail := mailTransporter_sendMail env_ok;
     jwt_sign := jwt_sign env_ok;
     jwt_verify := jwt_verify env_ok;
     Date_now := Date_now env_ok;
     Date_parse := toy_Date_parse;
     db_fault := fun _ => None |}.

(** A later moment: another clock reading, another meeting link. *)
Definition env_later : Env :=
  {| STRIPE_WEBHOOK_SECRET := STRIPE_WEBHOOK_SECRET env_ok;
     ADMIN_USER := ADMIN_USER env_ok;
     ADMIN_PASS := ADMIN_PASS env_ok;
     JWT_SECRET := JWT_SECRET env_ok;
     stripe_webhooks_constructEvent := toy_constructEvent;
     stripe_checkout_sessions_create := stripe_checkout_sessions_create env_ok;
     stripe_checkout_sessions_retrieve :=
       stripe_checkout_sessions_retrieve env_ok;
     calendar_events_insert := fun _ => Normal "https://meet.example/xyz";
     mailTransporter_sendMail := mailTransporter_sendMail env_ok;
     jwt_sign := jwt_sign env_ok;
     jwt_verify := jwt_verify env_ok;
     Date_now := 1700000060000;
     Date_parse := toy_Date_parse;
     db_fault := fun _ => None |}.

(** A service whose document has no [duration]. *)
Definition a_service_without_duration : ServiceDoc :=
  {| title := "Mentoring"; description := "Open end"; duration := Absent;
     price := Num (Number_of_Z 50); mentorEmail := "mentor@example.com" |}.

(** The pending reservation of [st_pending], for that service. *)
Definition st_no_duration : Store :=
  {| services := {["v1" := a_service_without_duration]};
     slots := {["s1" := a_booked_slot]};
     reservations := {["r1" := a_pending_reservation]} |}.

(** The pending reservation after an admin deleted its slot. *)
Definition st_slot_deleted : Store :=
  {| services := {["v1" := a_service]};
     slots := ∅;
     reservations := {["r1" := a_pending_reservation]} |}.

Definition a_cancelled_reservation : ReservationDoc :=
  {| serviceId := "v1"; slotId := "s1"; meetingLink := None;
     firstName := "Ana"; lastName := "Perez"; phone := "099123456";
     customerEmail := "ana@example.com"; status := cancelled;
     stripeSessionId := None; createdAt := 1699999000000 |}.

Definition st_cancelled : Store :=
  {| services := {["v1" := a_service]};
     slots := {["s1" := a_booked_slot]};
     reservations := {["r1" := a_cancelled_reservation]} |}.

(** Two free slots and a booked one, all on 2024-01-01 (day 19723). *)
Definition st_day : Store :=
  {| services := {["v1" := a_service]};
     slots := <["s9" := a_late_slot]>
                (<["s2" := a_booked_slot]> {["s1" := a_free_slot]});
     reservations := ∅ |}.

(** * Properties *)

(** ** Rules for running handler code *)

Section RunRules.
Context {A B : Type}.

Lemma runs_ret (a : A) st : runs (ret a) st (Normal a) st [].
Proof. reflexivity. Qed.

Lemma runs_throw (e : Exn) st : runs (throw (A:=A) e) st (Throw e) st [].
Proof. reflexivity. Qed.

Lemma runs_eval (c : Completion A) st : runs (eval c) st c st [].
Proof. reflexivity. Qed.

Lemma runs_await call (c : Completion A) st :
  runs (await call c) st c st [ECall call (rejection c)].
Proof. reflexivity. Qed.

Lemma runs_bind_normal (m : M A) (k : A -> M B) st a st1 t1 c st2 t2 :
  runs m st (Normal a) st1 t1 ->
  runs (k a) st1 c st2 t2 ->
  runs (bind m k) st c st2 (t1 ++ t2).
Proof. unfold runs, bind. intros -> Hk. cbn. by rewrite Hk. Qed.

Lemma runs_bind_throw (m : M A) (k : A -> M B) st e st1 t1 :
  runs m st (Throw e) st1 t1 ->
  runs (bind m k) st (Throw e) st1 t1.
Proof. unfold runs, bind. by intros ->. Qed.

Lemma runs_try_normal (m : M A) (h : Exn -> M A) st a st1 t1 :
  runs m st (Normal a) st1 t1 ->
  runs (try_catch m h) st (Normal a) st1 t1.
Proof. unfold runs, try_catch. by intros ->. Qed.

Lemma runs_try_throw (m : M A) (h : Exn -> M A) st e st1 t1 c st2 t2 :
  runs m st (Throw e) st1 t1 ->
  runs (h e) st1 c st2 t2 ->
  runs (try_catch m h) st c st2 (t1 ++ t2).
Proof. unfold runs, try_catch. intros -> Hh. cbn. by rewrite Hh. Qed.

Lemma runs_db_call env (op : DbOp) (run : Store -> A * Store) st :
  db_fault env op = None ->
  runs (db_call env op run) st (Normal (run st).1) (run st).2
    [ECall (Db op) None].
Proof. intros H. unfold runs, db_call. rewrite H. by destruct (run st). Qed.

Lemma runs_db_fault env (op : DbOp) (run : Store -> A * Store) st e :
  db_fault env op = Some e ->
  runs (db_call env op run) st (Throw e) st [ECall (Db op) (Some e)].
Proof. intros H. unfold runs, db_call. by rewrite H. Qed.

Lemma runs_all2 (m1 : M A) (m2 : M B) st a st1 t1 b st2 t2 :
  runs m1 st (Normal a) st1 t1 ->
  runs m2 st1 (Normal b) st2 t2 ->
  runs (Promise_all2 m1 m2) st (Normal (a, b)) st2 (t1 ++ t2).
Proof. unfold runs, Promise_all2. intros -> H2. cbn. by rewrite H2. Qed.

End RunRules.

Lemma runs_emit ev st : runs (emit ev) st (Normal tt) st [ev].
Proof. reflexivity. Qed.

(** ** The model calls on a reliable data store *)

Section ModelRules.
Context (env : Env) (Hdb : db_reliable env).

Lemma Reservation_findByIdAndUpdate_found id u new st r :
  reservations st !! id = Some r ->
  runs (Reservation.findByIdAndUpdate env id u new) st
    (Normal (Some (if new then apply_reservation_update u r else r)))
    (set_reservations st
       (<[id := apply_reservation_update u r]> (reservations st)))
    [ECall (Db (Reservation_findByIdAndUpdate id u)) None].
Proof.
  intros H. unfold Reservation.findByIdAndUpdate.
  pose proof (runs_db_call env (Reservation_findByIdAndUpdate id u)
    (fun st => match reservations st !! id with
       | Some r =>
           let r' := apply_reservation_update u r in
           (Some (if new then r' else r),
            set_reservations st (<[id := r']> (reservations st)))
       | None => (None, st)
       end) st (Hdb _)) as Hrun.
  cbn beta in Hrun. rewrite H in Hrun. exact Hrun.
Qed.

Lemma Slot_findByIdAndUpdate_found id u new st s :
  slots st !! id = Some s ->
  runs (Slot.findByIdAndUpdate env id u new) st
    (Normal (Some (if new then apply_slot_update u s else s)))
    (set_slots st (<[id := apply_slot_update u s]> (slots st)))
    [ECall (Db (Slot_findByIdAndUpdate id u)) None].
Proof.
  intros H. unfold Slot.findByIdAndUpdate.
  pose proof (runs_db_call env (Slot_findByIdAndUpdate id u)
    (fun st => match slots st !! id with
       | Some s =>
           let s' := apply_slot_update u s in
           (Some (if new then s' else s),
            set_slots st (<[id := s']> (slots st)))
       | None => (None, st)
       end) st (Hdb _)) as Hrun.
  cbn beta in Hrun. rewrite H in Hrun. exact Hrun.
Qed.

Lemma Slot_findById_runs id st :
  runs (Slot.findById env id) st (Normal (slots st !! id)) st
    [ECall (Db (Slot_findById id)) None].
Proof. apply (runs_db_call env (Slot_findById id)), Hdb. Qed.

Lemma Service_findById_runs id st :
  runs (Service.findById env id) st (Normal (services st !! id)) st
    [ECall (Db (Service_findById id)) None].
Proof. apply (runs_db_call env (Service_findById id)), Hdb. Qed.

Lemma Reservation_findById_populate_runs id st :
  runs (Reservation.findById_populate env id) st
    (Normal (populate st id <$> reservations st !! id)) st
    [ECall (Db (Reservation_findById_populate id)) None].
Proof. apply (runs_db_call env (Reservation_findById_populate id)), Hdb. Qed.

Lemma Reservation_create_runs sv sl em fn ln ph stat st :
  let doc := {| serviceId := sv; slotId := sl; meetingLink := None;
                firstName := fn; lastName := ln; phone := ph;
                customerEmail := em; status := stat;
                stripeSessionId := None; createdAt := Date_now env |} in
  let id := fresh (dom (reservations st)) in
  runs (Reservation.create env sv sl em fn ln ph stat) st
    (Normal (id, doc))
    (set_reservations st (<[id := doc]> (reservations st)))
    [ECall (Db (Reservation_create doc)) None].
Proof.
  intros doc id.
  apply (runs_db_call env (Reservation_create doc)
           (fun st => let id := fresh (dom (reservations st)) in
              ((id, doc),
               set_reservations st (<[id := doc]> (reservations st))))), Hdb.
Qed.

Lemma Slot_create_runs s stat t st :
  Date_parse env s = Some t ->
  let doc := {| slot_serviceId := None; start := t; end_ := None;
                slot_status := stat |} in
  let id := fresh (dom (slots st)) in
  runs (Slot.create env s stat) st (Normal (id, doc))
    (set_slots st (<[id := doc]> (slots st)))
    [ECall (Db (Slot_create s stat)) None].
Proof.
  intros Ht doc id. unfold Slot.create. rewrite Ht.
  apply (runs_db_call env (Slot_create s stat)
           (fun st => let id := fresh (dom (slots st)) in
              ((id, doc), set_slots st (<[id := doc]> (slots st))))), Hdb.
Qed.

End ModelRules.

(** An end of the meeting that is a valid date needs a valid start. *)
Lemma meeting_end_start slot service endDate :
  meeting_end slot service = Some endDate ->
  Date_read (start slot) = Some (start slot).
Proof.
  unfold meeting_end, Date_read.
  destruct (Z.abs (start slot) <=? max_time); [done|].
  cbn [Date_getTime]. unfold Number_add, SFadd, NaN.
  by destruct (Number_mul (ToNumber (duration service)) (Number_of_Z 60000)).
Qed.

(** With valid dates, [createGoogleMeet] builds the event and calls the
    calendar. *)
Lemma createGoogleMeet_meeting env slot service reservation endDate st s1 r1 :
  start s1 = start slot ->
  customerEmail r1 = customerEmail reservation ->
  meeting_end slot service = Some endDate ->
  runs (createGoogleMeet env (Date_read (start s1)) (duration service)
          ("Reserva: " +:+ title service)
          [customerEmail r1; mentorEmail service]) st
    (calendar_events_insert env
       (meeting_event env slot service reservation endDate))
    st
    [ECall (CalendarInsert
              (meeting_event env slot service reservation endDate))
       (rejection
          (calendar_events_insert env
             (meeting_event env slot service reservation endDate)))].
Proof.
  intros Hs Hr Hend. pose proof (meeting_end_start _ _ _ Hend) as Hstart.
  unfold createGoogleMeet, meeting_event. rewrite Hs, Hr.
  unfold meeting_end in Hend. rewrite Hend, Hstart.
  cbn [Date_toISOString].
  match goal with
  | |- runs _ _ _ _ ?t => change t with ([] ++ [] ++ t)
  end.
  eapply runs_bind_normal; [apply runs_eval|].
  eapply runs_bind_normal; [apply runs_eval|]. apply runs_await.
Qed.

(** With an invalid start or end, [createGoogleMeet] throws before it calls
    the calendar. *)
Lemma createGoogleMeet_invalid env slot service summary_ attendees_ st :
  meeting_end slot service = None ->
  runs (createGoogleMeet env (Date_read (start slot)) (duration service)
          summary_ attendees_) st
    (Throw (RangeError "Invalid time value")) st [].
Proof.
  intros Hend. unfold createGoogleMeet. unfold meeting_end in Hend.
  rewrite Hend. destruct (Date_read (start slot)) as [t|].
  - change (@nil Effect) with (@nil Effect ++ []).
    eapply runs_bind_normal; [apply runs_eval|].
    apply runs_bind_throw, runs_eval.
  - apply runs_bind_throw, runs_eval.
Qed.

Lemma send_confirmation_runs env mail st :
  runs (try_catch
          (await (SendMail mail) (mailTransporter_sendMail env mail) ;;;
           console_log "✉️ Email de confirmación enviado a")
          (fun err => console_error "Error enviando mail:" err)) st
    (Normal tt) st
    [ECall (SendMail mail) (rejection (mailTransporter_sendMail env mail));
     mail_outcome (mailTransporter_sendMail env mail)].
Proof.
  destruct (mailTransporter_sendMail env mail) as [[]|e].
  - apply runs_try_normal.
    apply (runs_bind_normal _ _ _ _ _ _ _ _ _ (runs_await _ _ _)), runs_emit.
  - apply (runs_try_throw _ _ _ _ _ _ _ _ _
             (runs_bind_throw _ _ _ _ _ _ (runs_await _ _ _))), runs_emit.
Qed.

(** ** Numbers and dates at concrete values *)

(** [Math.round(price * 100)] rounds the double product: the prices 1.115,
    0.495 and 1.005 give 112, 50 and 100, since the products are the doubles
    111.5, 49.5 and 100.49999999999999.  A decimal literal is the double
    nearest to it, here the correctly rounded quotient of two integers. *)
Lemma Math_round_of_double_products :
  let decimal n d := SFdiv 53 1024 (Number_of_Z n) (Number_of_Z d) in
  let cents p := Math_round (Number_mul p (Number_of_Z 100)) in
  cents (decimal 1115 1000) = Number_of_Z 112 /\
  cents (decimal 495 1000) = Number_of_Z 50 /\
  cents (decimal 1005 1000) = Number_of_Z 100 /\
  cents (Number_of_Z 50) = Number_of_Z 5000 /\
  Math_round (decimal (-25) 10) = Number_of_Z (-2) /\
  Math_round (decimal (-3) 10) = S754_zero true /\
  cents (ToNumber Absent) = NaN /\
  cents (ToNumber Null) = S754_zero false.
Proof. vm_compute. by split_and!. Qed.

(** The end of a meeting: one hour after the start for a duration of 60;
    thirty and a half minutes later for 30.5; the start itself when the
    duration is [null]; an Invalid Date when the service has no duration,
    when the duration is 2e11 minutes, and when the start itself is out of
    range. *)
Lemma meeting_end_at_concrete_values :
  let service_of d :=
    {| title := "Mentoring"; description := ""; duration := d;
       price := Null; mentorEmail := "mentor@example.com" |} in
  let slot_at t :=
    {| slot_serviceId := None; start := t; end_ := None;
       slot_status := booked |} in
  meeting_end a_booked_slot a_service = Some 1704106800000 /\
  meeting_end a_booked_slot
    (service_of (Num (SFdiv 53 1024 (Number_of_Z 61) (Number_of_Z 2))))
  = Some 1704105030000 /\
  meeting_end a_booked_slot (service_of Null) = Some 1704103200000 /\
  meeting_end a_booked_slot (service_of Absent) = None /\
  meeting_end a_booked_slot (service_of (Num (Number_of_Z 200000000000)))
  = None /\
  meeting_end (slot_at 8640000000000001) a_service = None /\
  meeting_end (slot_at 8640000000000000) (service_of Null)
  = Some 8640000000000000.
Proof. vm_compute. by split_and!. Qed.

(** ** The webhook *)

(** The whole run of the orchestrator when the records exist and the data
    store and the calendar answer. *)
Lemma webhook_checkout_run (env : Env) (req : WebhookRequest) (st : Store)
    (event : StripeEvent) (reservation : ReservationDoc)
    (slot rslot : SlotDoc) (service : ServiceDoc) (endDate : Z)
    (meetLink : string) :
  let session := data_object event in
  let rid := metadata_reservationId session in
  let sid := metadata_slotId session in
  let mail := confirmation_mail reservation service rslot meetLink in
  stripe_webhooks_constructEvent env (raw_body req) (stripe_signature req)
    (STRIPE_WEBHOOK_SECRET env) = Normal event ->
  event_type event = "checkout.session.completed" ->
  db_reliable env ->
  reservations st !! rid = Some reservation ->
  slots st !! sid = Some slot ->
  services st !! serviceId reservation = Some service ->
  slots st !! slotId reservation = Some rslot ->
  meeting_end slot service = Some endDate ->
  calendar_events_insert env
    (meeting_event env slot service reservation endDate) = Normal meetLink ->
  runs (stripe_webhook env req) st
    (Normal {| code := 200; body := JsonReceived |})
    {| services := services st;
       slots := <[sid := apply_slot_update booked_update slot]> (slots st);
       reservations :=
         <[rid := apply_reservation_update (meetingLink_update meetLink)
                    (apply_reservation_update (paid_update session)
                       reservation)]> (reservations st) |}
    [ EConsoleLog "✔️ Recibí webhook:";
      ECall (Db (Reservation_findByIdAndUpdate rid (paid_update session)))
        None;
      ECall (Db (Slot_findByIdAndUpdate sid booked_update)) None;
      ECall (Db (Slot_findById sid)) None;
      ECall (Db (Service_findById (serviceId reservation))) None;
      ECall (CalendarInsert
               (meeting_event env slot service reservation endDate)) None;
      ECall (Db (Reservation_findByIdAndUpdate rid
                   (meetingLink_update meetLink))) None;
      ECall (Db (Reservation_findById_populate rid)) None;
      EConsoleLog "📧 Preparando para enviar mail a";
      ECall (SendMail mail) (rejection (mailTransporter_sendMail env mail));
      mail_outcome (mailTransporter_sendMail env mail) ].
Proof.
  intros session rid sid mail Hev Hty Hdb Hr Hs Hsvc Hrs Hend Hcal.
  set (r1 := apply_reservation_update (paid_update session) reservation).
  set (s1 := apply_slot_update booked_update slot).
  set (r2 := apply_reservation_update (meetingLink_update meetLink) r1).
  set (st1 := set_reservations st (<[rid := r1]> (reservations st))).
  set (st2 := set_slots st1 (<[sid := s1]> (slots st1))).
  set (st3 := set_reservations st2 (<[rid := r2]> (reservations st2))).
  assert (Hpop : populate st3 rid <$> reservations st3 !! rid
                 = Some {| pr_id := rid; pr_doc := r2;
                           pr_service := Some service;
                           pr_slot :=
                             Some (if decide (sid = slotId reservation)
                                   then s1 else rslot) |}).
  { cbn. rewrite lookup_insert_eq. cbn. unfold populate. cbn.
    rewrite Hsvc, lookup_insert, Hrs.
    by destruct (decide (sid = slotId reservation)). }
  assert (Hdate :
    start (if decide (sid = slotId reservation) then s1 else rslot)
    = start rslot).
  { destruct (decide (sid = slotId reservation)) as [E|]; [|done].
    rewrite <- E, Hs in Hrs. injection Hrs as Hq. by rewrite <- Hq. }
  eassert (Hrun : runs (stripe_webhook env req) st _ _ _).
  { unfold stripe_webhook.
    eapply runs_bind_normal.
    { apply runs_try_normal. rewrite Hev.
      eapply runs_bind_normal; [apply runs_eval|].
      eapply runs_bind_normal; [apply runs_emit|apply runs_ret]. }
    cbn iota. rewrite Hty. cbn [String.eqb Ascii.eqb Bool.eqb].
    eapply runs_bind_normal; [|apply runs_ret].
    unfold checkout_session_completed. fold session rid sid.
    eapply runs_bind_normal;
      [apply (Reservation_findByIdAndUpdate_found env Hdb _ _ _ _ _ Hr)|].
    fold r1 st1.
    eapply runs_bind_normal;
      [apply (Slot_findByIdAndUpdate_found env Hdb _ _ _ st1 _ Hs)|].
    fold s1 st2.
    eapply runs_bind_normal; [apply (Slot_findById_runs env Hdb)|].
    eapply runs_bind_normal; [apply runs_ret|].
    eapply runs_bind_normal; [apply (Service_findById_runs env Hdb)|].
    replace (slots st2 !! sid) with (Some s1)
      by (symmetry; apply lookup_insert_eq).
    replace (services st2 !! serviceId r1) with (Some service) by done.
    eapply runs_bind_normal; [apply runs_ret|].
    eapply runs_bind_normal; [apply runs_ret|].
    eapply runs_bind_normal.
    { pose proof (createGoogleMeet_meeting env slot service reservation
                    endDate st2 s1 r1 eq_refl eq_refl Hend) as Hm.
      rewrite Hcal in Hm. apply Hm. }
    eapply runs_bind_normal.
    { apply (Reservation_findByIdAndUpdate_found env Hdb _ _ _ st2 r1).
      apply lookup_insert_eq. }
    fold r2 st3.
    eapply runs_bind_normal;
      [apply (Reservation_findById_populate_runs env Hdb)|].
    rewrite Hpop.
    eapply runs_bind_normal; [apply runs_ret|].
    eapply runs_bind_normal; [apply runs_ret|].
    eapply runs_bind_normal; [apply runs_ret|].
    eapply runs_bind_normal; [apply runs_emit|].
    cbn [pr_doc pr_slot pr_service]. rewrite Hdate.
    change {| mail_to := customerEmail r2; mail_name := firstName r2;
              mail_title := title service; mail_date := start rslot;
              mail_link := meetingLink r2 |} with mail.
    apply send_confirmation_runs. }
  unfold runs in *. rewrite Hrun. f_equal.
  subst st3 st2 st1. unfold set_reservations, set_slots.
  cbn [services slots reservations]. by rewrite insert_insert_eq.
Qed.

(** C1 (as amended).  A webhook request whose signature verifies, whose
    event type is 'checkout.session.completed' and whose metadata ids name a
    reservation and a slot that are in the store, together with the
    reservation's service and the reservation's own slot, and for which the
    slot's start plus the service's duration is a valid date, is handled as
    follows when the data store and the calendar answer: the handler sets
    the reservation to paid with the session id, sets the slot to booked,
    fetches the slot and the service, requests a meeting for the slot's
    start and the service's duration with the customer and the mentor as
    attendees, stores the link on the reservation, fetches the populated
    reservation, sends the confirmation mail, and answers
    [{ received: true }]. *)
Theorem webhook_checkout_completed (env : Env) (req : WebhookRequest)
    (st : Store) (event : StripeEvent) (reservation : ReservationDoc)
    (slot rslot : SlotDoc) (service : ServiceDoc) (endDate : Z)
    (meetLink : string) :
  let session := data_object event in
  let rid := metadata_reservationId session in
  let sid := metadata_slotId session in
  stripe_webhooks_constructEvent env (raw_body req) (stripe_signature req)
    (STRIPE_WEBHOOK_SECRET env) = Normal event ->
  event_type event = "checkout.session.completed" ->
  db_reliable env ->
  reservations st !! rid = Some reservation ->
  slots st !! sid = Some slot ->
  services st !! serviceId reservation = Some service ->
  slots st !! slotId reservation = Some rslot ->
  meeting_end slot service = Some endDate ->
  calendar_events_insert env
    (meeting_event env slot service reservation endDate) = Normal meetLink ->
  let run := app env (POST_stripe_webhook req) st in
  result run = Normal {| code := 200; body := JsonReceived |} /\
  calls (effects run)
    = checkout_calls env session reservation slot service rslot endDate
        meetLink /\
  (forall c e, In (ECall c (Some e)) (effects run) ->
     c = SendMail (confirmation_mail reservation service rslot meetLink)) /\
  services (final run) = services st /\
  slots (final run)
    = <[sid := {| slot_serviceId := slot_serviceId slot;
                  start := start slot; end_ := end_ slot;
                  slot_status := booked |}]> (slots st) /\
  reservations (final run)
    = <[rid := {| serviceId := serviceId reservation;
                  slotId := slotId reservation;
                  meetingLink := Some meetLink;
                  firstName := firstName reservation;
                  lastName := lastName reservation;
                  phone := phone reservation;
                  customerEmail := customerEmail reservation;
                  status := paid;
                  stripeSessionId := Some (session_id session);
                  createdAt := createdAt reservation |}]> (reservations st).
Proof.
  intros session rid sid Hev Hty Hdb Hr Hs Hsvc Hrs Hend Hcal run.
  pose proof (webhook_checkout_run env req st event reservation slot rslot
                service endDate meetLink Hev Hty Hdb Hr Hs Hsvc Hrs Hend Hcal)
    as Hrun.
  change (app env (POST_stripe_webhook req) st)
    with (stripe_webhook env req st) in run.
  unfold runs in Hrun. subst run. rewrite Hrun. cbn [result final effects].
  split; [reflexivity|].
  split.
  { by destruct (mailTransporter_sendMail env _) as [[]|?]. }
  split.
  { intros c e Hin. cbn in Hin.
    destruct (mailTransporter_sendMail env _) as [[]|?]; cbn in Hin;
      repeat (destruct Hin as [Hin|Hin]; [try discriminate|]);
      try contradiction.
    by injection Hin as <- _. }
  split; [reflexivity|].
  split; [by destruct slot|reflexivity].
Qed.

Lemma webhook_checkout_completed_witness :
  let req := signed "checkout.session.completed" in
  let run := app env_ok (POST_stripe_webhook req) st_pending in
  result run = Normal {| code := 200; body := JsonReceived |} /\
  reservations (final run) !! "r1"
  = Some {| serviceId := "v1"; slotId := "s1";
            meetingLink := Some "https://meet.example/abc";
            firstName := "Ana"; lastName := "Perez";
            phone := "099123456";
            customerEmail := "ana@example.com"; status := paid;
            stripeSessionId := Some "cs_test_1";
            createdAt := 1699999000000 |}.
Proof.
  intros req run.
  destruct (webhook_checkout_completed env_ok req st_pending
              {| event_id := "evt_1";
                 event_type := "checkout.session.completed";
                 data_object := a_session |}
              a_pending_reservation a_booked_slot a_booked_slot a_service
              1704106800000 "https://meet.example/abc")
    as (Hres & _ & _ & _ & _ & Hfin); try reflexivity.
  - intros op. reflexivity.
  - split; [exact Hres|]. fold run in Hfin. rewrite Hfin.
    vm_compute. reflexivity.
Defined.

(** C1 as worded fails: after an admin deleted the reservation, a verified
    'checkout.session.completed' event for it makes the handler stop at
    [reservation.serviceId]; no meeting is requested and no mail is sent. *)
Lemma webhook_after_reservation_deleted :
  ~ webhook_performs_checkout_steps env_ok
      (signed "checkout.session.completed") st_reservation_deleted.
Proof.
  intros H.
  destruct (H {| event_id := "evt_1";
                 event_type := "checkout.session.completed";
                 data_object := a_session |} eq_refl eq_refl)
    as (reservation & slot & service & rslot & endDate & meetLink & Hcalls).
  apply (f_equal length) in Hcalls. vm_compute in Hcalls. discriminate.
Qed.

(** What the handler does on that input: the three data-store calls, then
    the TypeError escapes. *)
Lemma webhook_after_reservation_deleted_run :
  app env_ok (POST_stripe_webhook (signed "checkout.session.completed"))
    st_reservation_deleted
  = {| result :=
         Throw (TypeError
                  "Cannot read properties of null (reading 'serviceId')");
       final := st_reservation_deleted;
       effects :=
         [ EConsoleLog "✔️ Recibí webhook:";
           ECall (Db (Reservation_findByIdAndUpdate "r1"
                        (paid_update a_session))) None;
           ECall (Db (Slot_findByIdAndUpdate "s1" booked_update)) None;
           ECall (Db (Slot_findById "s1")) None ] |}.
Proof. vm_compute. reflexivity. Qed.

(** C2.  A webhook request whose signature does not verify is answered with
    status 400 and leaves the store as it was; no call is made. *)
Theorem webhook_rejects_bad_signature (env : Env) (req : WebhookRequest)
    (st : Store) (err : Exn) :
  stripe_webhooks_constructEvent env (raw_body req) (stripe_signature req)
    (STRIPE_WEBHOOK_SECRET env) = Throw err ->
  app env (POST_stripe_webhook req) st =
    {| result :=
         Normal {| code := 400;
                   body := Text ("Webhook Error: " +:+ message err) |};
       final := st;
       effects := [EConsoleError "Error firma webhook:" err] |}.
Proof.
  intros H. change (runs (stripe_webhook env req) st
    (Normal {| code := 400;
               body := Text ("Webhook Error: " +:+ message err) |}) st
    (([] ++ [EConsoleError "Error firma webhook:" err] ++ [] ++ []) ++ [])).
  unfold stripe_webhook.
  eapply runs_bind_normal.
  { eapply runs_try_throw.
    - apply runs_bind_throw. rewrite H. apply runs_eval.
    - eapply runs_bind_normal; [apply runs_emit|].
      eapply runs_bind_normal; apply runs_ret. }
  cbn iota. apply runs_ret.
Qed.

Lemma webhook_rejects_bad_signature_witness :
  let req := unsigned "checkout.session.completed" in
  let err := Error "No signatures found matching the expected signature" in
  app env_ok (POST_stripe_webhook req) st_pending =
    {| result :=
         Normal {| code := 400;
                   body := Text ("Webhook Error: " +:+ message err) |};
       final := st_pending;
       effects := [EConsoleError "Error firma webhook:" err] |}.
Proof.
  intros req err.
  apply (webhook_rejects_bad_signature env_ok req st_pending err).
  reflexivity.
Defined.

(** C10.  A webhook request whose signature verifies but whose event type is
    not 'checkout.session.completed' is answered with [{ received: true }]
    and leaves the store as it was; no call is made. *)
Theorem webhook_ignores_other_events (env : Env) (req : WebhookRequest)
    (st : Store) (event : StripeEvent) :
  stripe_webhooks_constructEvent env (raw_body req) (stripe_signature req)
    (STRIPE_WEBHOOK_SECRET env) = Normal event ->
  event_type event <> "checkout.session.completed" ->
  app env (POST_stripe_webhook req) st =
    {| result := Normal {| code := 200; body := JsonReceived |};
       final := st;
       effects := [EConsoleLog "✔️ Recibí webhook:"] |}.
Proof.
  intros H Hty. change (runs (stripe_webhook env req) st
    (Normal {| code := 200; body := JsonReceived |}) st
    (([] ++ [EConsoleLog "✔️ Recibí webhook:"] ++ []) ++ [] ++ [])).
  unfold stripe_webhook.
  eapply runs_bind_normal.
  { apply runs_try_normal. rewrite H.
    eapply runs_bind_normal; [apply runs_eval|].
    eapply runs_bind_normal; [apply runs_emit|apply runs_ret]. }
  cbn iota. apply String.eqb_neq in Hty. rewrite Hty.
  eapply runs_bind_normal; apply runs_ret.
Qed.

Lemma webhook_ignores_other_events_witness :
  let req := signed "payment_intent.succeeded" in
  app env_ok (POST_stripe_webhook req) st_pending =
    {| result := Normal {| code := 200; body := JsonReceived |};
       final := st_pending;
       effects := [EConsoleLog "✔️ Recibí webhook:"] |}.
Proof.
  intros req.
  apply (webhook_ignores_other_events env_ok req st_pending
           {| event_id := "evt_1"; event_type := "payment_intent.succeeded";
              data_object := a_session |}).
  - reflexivity.
  - discriminate.
Defined.

(** C6 at its failing input.  With the calendar API down, a verified
    'checkout.session.completed' event for a pending reservation makes the
    handler throw: it writes no response and no console line for the
    failure, stores no link and sends no mail.  The reservation stays paid
    and the slot booked. *)
Theorem webhook_meeting_failure_escapes :
  app env_calendar_down
    (POST_stripe_webhook (signed "checkout.session.completed")) st_pending
  = {| result := Throw (Error "calendar unavailable");
       final :=
         {| services := {["v1" := a_service]};
            slots := {["s1" := a_booked_slot]};
            reservations :=
              {["r1" := {| serviceId := "v1"; slotId := "s1";
                           meetingLink := None;
                           firstName := "Ana"; lastName := "Perez";
                           phone := "099123456";
                           customerEmail := "ana@example.com";
                           status := paid;
                           stripeSessionId := Some "cs_test_1";
                           createdAt := 1699999000000 |}]} |};
       effects :=
         [ EConsoleLog "✔️ Recibí webhook:";
           ECall (Db (Reservation_findByIdAndUpdate "r1"
                        (paid_update a_session))) None;
           ECall (Db (Slot_findByIdAndUpdate "s1" booked_update)) None;
           ECall (Db (Slot_findById "s1")) None;
           ECall (Db (Service_findById "v1")) None;
           ECall (CalendarInsert
                    (meeting_event env_calendar_down a_booked_slot a_service
                       a_pending_reservation 1704106800000))
             (Some (Error "calendar unavailable")) ] |}.
Proof. vm_compute. reflexivity. Qed.

(** X2.  The sibling path, for a meeting whose end is a valid date: a
    failure of the mail is caught and logged, the handler answers
    [{ received: true }], and the reservation stays paid with its link. *)
Lemma webhook_mail_failure_logged (env : Env) (req : WebhookRequest)
    (st : Store) (event : StripeEvent) (reservation : ReservationDoc)
    (slot rslot : SlotDoc) (service : ServiceDoc) (endDate : Z)
    (meetLink : string) (err : Exn) :
  let session := data_object event in
  let rid := metadata_reservationId session in
  let sid := metadata_slotId session in
  stripe_webhooks_constructEvent env (raw_body req) (stripe_signature req)
    (STRIPE_WEBHOOK_SECRET env) = Normal event ->
  event_type event = "checkout.session.completed" ->
  db_reliable env ->
  reservations st !! rid = Some reservation ->
  slots st !! sid = Some slot ->
  services st !! serviceId reservation = Some service ->
  slots st !! slotId reservation = Some rslot ->
  meeting_end slot service = Some endDate ->
  calendar_events_insert env
    (meeting_event env slot service reservation endDate) = Normal meetLink ->
  mailTransporter_sendMail env
    (confirmation_mail reservation service rslot meetLink) = Throw err ->
  let run := app env (POST_stripe_webhook req) st in
  result run = Normal {| code := 200; body := JsonReceived |} /\
  last (effects run) = Some (EConsoleError "Error enviando mail:" err) /\
  (exists r, reservations (final run) !! rid = Some r /\ status r = paid
             /\ meetingLink r = Some meetLink) /\
  (exists s, slots (final run) !! sid = Some s /\ slot_status s = booked).
Proof.
  intros session rid sid Hev Hty Hdb Hr Hs Hsvc Hrs Hend Hcal Hmail run.
  pose proof (webhook_checkout_run env req st event reservation slot rslot
                service endDate meetLink Hev Hty Hdb Hr Hs Hsvc Hrs Hend Hcal)
    as Hrun.
  change (app env (POST_stripe_webhook req) st)
    with (stripe_webhook env req st) in run.
  unfold runs in Hrun. subst run. rewrite Hrun. cbn [result final effects].
  rewrite Hmail. cbn [services slots reservations].
  split; [reflexivity|]. split; [reflexivity|]. split.
  - eexists. rewrite lookup_insert_eq. by split.
  - eexists. rewrite lookup_insert_eq. by split.
Qed.

Lemma webhook_mail_failure_logged_witness :
  let run :=
    app env_smtp_down
      (POST_stripe_webhook (signed "checkout.session.completed"))
      st_pending in
  result run = Normal {| code := 200; body := JsonReceived |} /\
  last (effects run)
  = Some (EConsoleError "Error enviando mail:" (Error "smtp unavailable")).
Proof.
  intros run.
  destruct (webhook_mail_failure_logged env_smtp_down
              (signed "checkout.session.completed") st_pending
              {| event_id := "evt_1";
                 event_type := "checkout.session.completed";
                 data_object := a_session |}
              a_pending_reservation a_booked_slot a_booked_slot a_service
              1704106800000 "https://meet.example/abc"
              (Error "smtp unavailable"))
    as (Hres & Hlast & _); try reflexivity.
  - intros op. reflexivity.
  - split; [exact Hres | exact Hlast].
Defined.

(** ** POST /api/reservations *)

(** The guard of the handler is the negation of [fields_present]. *)
Lemma fields_missing_eq (b : ReservationBody) :
  negb (truthy (body_serviceId b)) || negb (truthy (body_slotId b))
  || negb (truthy (body_customerEmail b))
  || negb (truthy (body_firstName b))
  || negb (truthy (body_lastName b)) || negb (truthy (body_phone b))
  = negb (fields_present b).
Proof.
  unfold fields_present.
  by destruct (truthy (body_serviceId b)), (truthy (body_slotId b)),
    (truthy (body_customerEmail b)), (truthy (body_firstName b)),
    (truthy (body_lastName b)), (truthy (body_phone b)).
Qed.

(** C3.  When all six fields of the request are present, the service exists
    and the slot exists and is free, and the data store and the payment
    gateway answer, the handler sets the slot to booked, then creates a
    pending reservation for that service and slot under a new id, then
    requests a checkout session whose metadata carries that id and the
    slot's id, and answers with the session's checkout URL. *)
Theorem post_reservations_books (env : Env) (b : ReservationBody)
    (st : Store) (service : ServiceDoc) (slot : SlotDoc) (session : Session) :
  let vid := str (body_serviceId b) in
  let sid := str (body_slotId b) in
  let rid := fresh (dom (reservations st)) in
  fields_present b = true ->
  services st !! vid = Some service ->
  slots st !! sid = Some slot ->
  slot_status slot = free ->
  db_reliable env ->
  stripe_checkout_sessions_create env (checkout_params b service rid)
    = Normal session ->
  reservations st !! rid = None /\
  app env (POST_reservations b) st =
    {| result :=
         Normal {| code := 200; body := JsonCheckoutUrl (url session) |};
       final :=
         {| services := services st;
            slots := <[sid := {| slot_serviceId := slot_serviceId slot;
                                 start := start slot; end_ := end_ slot;
                                 slot_status := booked |}]> (slots st);
            reservations :=
              <[rid := pending_reservation env b]> (reservations st) |};
       effects :=
         [ ECall (Db (Service_findById vid)) None;
           ECall (Db (Slot_findById sid)) None;
           ECall (Db (Slot_findByIdAndUpdate sid booked_update)) None;
           ECall (Db (Reservation_create (pending_reservation env b))) None;
           ECall (StripeSessionsCreate (checkout_params b service rid))
             None ] |}.
Proof.
  intros vid sid rid Hf Hsvc Hs Hfree Hdb Hpay.
  split.
  { apply not_elem_of_dom, is_fresh. }
  eassert (Hrun : runs (post_reservations env b) st _ _ _).
  { unfold post_reservations. apply runs_try_normal.
    rewrite fields_missing_eq, Hf. cbn [negb].
    fold vid sid.
    eapply runs_bind_normal.
    { eapply runs_all2;
        [apply (Service_findById_runs env Hdb)
        |apply (Slot_findById_runs env Hdb)]. }
    rewrite Hsvc, Hs. cbn iota beta.
    rewrite Hfree. cbn [bool_decide decide_rel].
    rewrite bool_decide_eq_false_2 by (intros H; by apply H).
    eapply runs_bind_normal;
      [apply (Slot_findByIdAndUpdate_found env Hdb _ _ _ _ _ Hs)|].
    eapply runs_bind_normal;
      [apply (Reservation_create_runs env Hdb)|].
    cbn [fst snd set_slots set_reservations reservations slots services].
    fold rid.
    change {| customer_email := str (body_customerEmail b);
              unit_amount :=
                Math_round
                  (Number_mul (ToNumber (price service)) (Number_of_Z 100));
              product_name := title service;
              params_reservationId := rid;
              params_slotId := sid |} with (checkout_params b service rid).
    rewrite Hpay.
    eapply runs_bind_normal; [apply runs_await|apply runs_ret]. }
  change (app env (POST_reservations b) st) with (post_reservations env b st).
  unfold runs in Hrun. rewrite Hrun. f_equal.
Qed.

Lemma post_reservations_books_witness :
  result (app env_ok (POST_reservations a_booking) st_open)
  = Normal {| code := 200;
              body := JsonCheckoutUrl "https://checkout.example/cs_test_1" |}.
Proof.
  pose proof (post_reservations_books env_ok a_booking st_open a_service
                a_free_slot a_session eq_refl eq_refl eq_refl eq_refl
                (fun _ => eq_refl) eq_refl) as [_ Hrun].
  exact (f_equal result Hrun).
Defined.

(** A complete reservation request whose lookups are answered and find the
    service or the slot missing, or the slot not free. *)
Lemma post_reservations_not_available (env : Env) (b : ReservationBody)
    (st : Store) :
  fields_present b = true ->
  lookups_answered env b ->
  unavailable b st ->
  runs (post_reservations env b) st
    (Normal {| code := 400;
               body := JsonError "Servicio o slot no disponible." |})
    st
    [ ECall (Db (Service_findById (str (body_serviceId b)))) None;
      ECall (Db (Slot_findById (str (body_slotId b)))) None ].
Proof.
  intros Hf [Hv Hs] Hbad.
  change [ ECall (Db (Service_findById (str (body_serviceId b)))) None;
           ECall (Db (Slot_findById (str (body_slotId b)))) None ]
    with (([ECall (Db (Service_findById (str (body_serviceId b)))) None]
           ++ [ECall (Db (Slot_findById (str (body_slotId b)))) None])
          ++ []).
  unfold post_reservations. apply runs_try_normal.
  rewrite fields_missing_eq, Hf. cbn [negb].
  eapply runs_bind_normal.
  { eapply runs_all2.
    - apply (runs_db_call env (Service_findById _)), Hv.
    - apply (runs_db_call env (Slot_findById _)), Hs. }
  cbn [fst snd].
  destruct Hbad as [Hnv|[Hns|(slot & Hsl & Hst)]].
  - rewrite Hnv. apply runs_ret.
  - rewrite Hns. destruct (services st !! _); apply runs_ret.
  - rewrite Hsl. destruct (services st !! _); [|apply runs_ret].
    rewrite bool_decide_eq_true_2 by done. apply runs_ret.
Qed.

(** A reservation request that lacks a field. *)
Lemma post_reservations_fields_missing (env : Env) (b : ReservationBody)
    (st : Store) :
  fields_present b = false ->
  post_reservations env b st
  = {| result :=
         Normal {| code := 400;
                   body := JsonError "Faltan campos obligatorios." |};
       final := st; effects := [] |}.
Proof.
  intros Hf. unfold post_reservations, try_catch.
  rewrite fields_missing_eq, Hf. reflexivity.
Qed.

(** A complete reservation request one of whose two lookups the data store
    rejects (an id that it cannot cast to an ObjectId, a lost connection) is
    answered 500 from the catch block, and the store is left as it was. *)
Lemma post_reservations_lookup_rejected (env : Env) (b : ReservationBody)
    (st : Store) :
  let run := post_reservations env b st in
  fields_present b = true ->
  ~ lookups_answered env b ->
  result run = Normal {| code := 500; body := JsonError "Error interno." |} /\
  final run = st /\
  some_call_failed (effects run) = true /\
  calls (effects run)
  = [ Db (Service_findById (str (body_serviceId b)));
      Db (Slot_findById (str (body_slotId b))) ].
Proof.
  intros run Hf Hno. subst run.
  set (lookups :=
         Promise_all2 (Service.findById env (str (body_serviceId b)))
           (Slot.findById env (str (body_slotId b)))).
  assert (Hl : exists e o1 o2,
            runs lookups st (Throw e) st
              ([ECall (Db (Service_findById (str (body_serviceId b)))) o1]
               ++ [ECall (Db (Slot_findById (str (body_slotId b)))) o2]) /\
            (is_Some o1 \/ is_Some o2)).
  { subst lookups.
    unfold runs, Promise_all2, Service.findById, Slot.findById, db_call.
    destruct (db_fault env (Service_findById _)) as [e1|] eqn:E1;
      destruct (db_fault env (Slot_findById _)) as [e2|] eqn:E2; cbn;
      rewrite ?E2; cbn; eauto 10.
    exfalso. apply Hno. by split. }
  destruct Hl as (e & o1 & o2 & Hl & Hsome).
  eassert (Hrun : runs (post_reservations env b) st _ _ _).
  { unfold post_reservations. rewrite fields_missing_eq, Hf. cbn [negb].
    eapply runs_try_throw.
    - apply runs_bind_throw. exact Hl.
    - eapply runs_bind_normal; [apply runs_emit|apply runs_ret]. }
  unfold runs in Hrun. rewrite Hrun. cbn. split_and!; try done.
  destruct Hsome as [[? ->]|[? ->]]; [done|]. by destruct o1.
Qed.

(** C4 (as amended).  Take a request in which a required field is missing,
    or whose service is not in the store, or whose slot is not in the store
    or is not free.  The handler leaves the store as it was: no slot is
    changed and no reservation is created.  If a field is missing, or the
    data store answers the two lookups, the handler answers 400 with a
    message.  If all fields are there and the data store rejects one of the
    lookups, the handler answers 500 with a message. *)
Theorem post_reservations_rejects (env : Env) (b : ReservationBody)
    (st : Store) :
  fields_present b = false \/ unavailable b st ->
  let run := app env (POST_reservations b) st in
  final run = st /\
  (fields_present b = false \/ lookups_answered env b ->
   some_call_failed (effects run) = false /\
   exists msg, result run = Normal {| code := 400; body := JsonError msg |}) /\
  (fields_present b = true -> ~ lookups_answered env b ->
   some_call_failed (effects run) = true /\
   result run = Normal {| code := 500; body := JsonError "Error interno." |}).
Proof.
  intros Hbad run. subst run. cbn [app].
  destruct (fields_present b) eqn:Hf.
  - destruct Hbad as [?|Hun]; [done|].
    split_and!.
    + destruct (db_fault env (Service_findById (str (body_serviceId b))))
        as [e1|] eqn:E1;
        [|destruct (db_fault env (Slot_findById (str (body_slotId b))))
            as [e2|] eqn:E2].
      * apply (post_reservations_lookup_rejected env b st Hf).
        intros [H _]. by rewrite H in E1.
      * apply (post_reservations_lookup_rejected env b st Hf).
        intros [_ H]. by rewrite H in E2.
      * pose proof (post_reservations_not_available env b st Hf
                      (conj E1 E2) Hun) as Hrun.
        unfold runs in Hrun. by rewrite Hrun.
    + intros [?|Hans]; [done|].
      pose proof (post_reservations_not_available env b st Hf Hans Hun)
        as Hrun.
      unfold runs in Hrun. rewrite Hrun. eauto.
    + intros _ Hno.
      destruct (post_reservations_lookup_rejected env b st Hf Hno)
        as (Hres & _ & Hfail & _).
      by split.
  - rewrite (post_reservations_fields_missing env b st Hf).
    split_and!; [done| |done]. eauto.
Qed.

Lemma post_reservations_rejects_witness :
  let run := app env_ok (POST_reservations a_booking) st_pending in
  final run = st_pending /\
  exists msg, result run = Normal {| code := 400; body := JsonError msg |}.
Proof.
  intros run.
  destruct (post_reservations_rejects env_ok a_booking st_pending)
    as (Hfin & H400 & _).
  - right. right. right. exists a_booked_slot.
    split; [reflexivity|discriminate].
  - split; [exact Hfin|]. apply H400. right. by split.
Defined.

(** C4 as worded fails: a complete request whose [serviceId] cannot be cast
    to an ObjectId names no service, and the rejected lookup is answered
    from the catch block with 500, not 400. *)
Lemma post_reservations_malformed_id_answers_500 :
  ~ bad_reservation_answered_400 env_strict_ids a_malformed_booking st_open.
Proof.
  intros H. destruct H as (msg & Hr & _).
  - right. left. reflexivity.
  - vm_compute in Hr. discriminate.
Qed.

(** What the handler does on that input: both lookups are issued, the first
    is rejected, the error is logged and the answer is 500. *)
Lemma post_reservations_malformed_id_run :
  app env_strict_ids (POST_reservations a_malformed_booking) st_open
  = {| result := Normal {| code := 500; body := JsonError "Error interno." |};
       final := st_open;
       effects :=
         [ ECall (Db (Service_findById "not-an-id"))
             (Some (CastError
                      "Cast to ObjectId failed for value not-an-id"));
           ECall (Db (Slot_findById "s1")) None;
           EConsoleError ""
             (CastError "Cast to ObjectId failed for value not-an-id") ] |}.
Proof. vm_compute. reflexivity. Qed.

(** ** POST /api/admin/slots *)

(** C9.  Whatever the body carries besides [start], a slot that the handler
    adds to the store is free, has no service reference and no end time,
    and every other document is left as it was; without [start] the handler
    answers 400 and the store is unchanged; with a [start] that parses as a
    date, and the data store answering, the slot is created under a new id
    and returned with status 201. *)
Theorem post_admin_slots_creates_free_slot (env : Env) (b : NewSlotBody)
    (st : Store) :
  let run := post_admin_slots env b st in
  (forall id s,
     slots (final run) !! id = Some s ->
     slots st !! id = Some s \/
     (slots st !! id = None /\ slot_status s = free /\
      slot_serviceId s = None /\ end_ s = None)) /\
  services (final run) = services st /\
  reservations (final run) = reservations st /\
  (truthy (new_start b) = false ->
   result run = Normal {| code := 400; body := JsonError "Falta start." |} /\
   final run = st) /\
  (forall t,
     truthy (new_start b) = true ->
     Date_parse env (str (new_start b)) = Some t ->
     db_fault env (Slot_create (str (new_start b)) free) = None ->
     let id := fresh (dom (slots st)) in
     let doc := {| slot_serviceId := None; start := t; end_ := None;
                   slot_status := free |} in
     slots st !! id = None /\
     result run = Normal {| code := 201; body := JsonSlot (Some (id, doc)) |} /\
     slots (final run) = <[id := doc]> (slots st)).
Proof.
  intros run. subst run.
  unfold post_admin_slots, try_catch, bind, Slot.create, db_call, db_reject,
    await, res_status_json, console_error, emit, ret.
  assert (Hfresh : slots st !! fresh (dom (slots st)) = None)
    by apply not_elem_of_dom, is_fresh.
  destruct (truthy (new_start b)) eqn:Hst; cbn [negb];
    [destruct (Date_parse env (str (new_start b))) as [t|] eqn:Ht;
       [destruct (db_fault env (Slot_create (str (new_start b)) free))
          eqn:Hf|]|];
    cbn; split_and!; try done; auto.
  - intros id s. rewrite lookup_insert.
    destruct (decide (fresh (dom (slots st)) = id)) as [<-|]; [|auto].
    intros [= <-]. right. by split_and!.
  - intros t' _ [= <-] _. by split_and!.
Qed.

Lemma post_admin_slots_creates_free_slot_witness :
  let b := {| new_start := Some "2024-01-01T10:00:00";
              new_status := Some "booked"; new_serviceId := Some "v1";
              new_end := Some "2024-01-01T11:00:00" |} in
  let run := post_admin_slots env_ok b st_open in
  result run
  = Normal {| code := 201; body := JsonSlot (Some ("0", a_free_slot)) |} /\
  slots (final run) = <["0" := a_free_slot]> (slots st_open).
Proof.
  intros b run.
  destruct (post_admin_slots_creates_free_slot env_ok b st_open)
    as (_ & _ & _ & _ & H).
  destruct (H 1704103200000 eq_refl eq_refl eq_refl) as (_ & Hres & Hfin).
  split; [exact Hres | exact Hfin].
Defined.

(** The [status], [serviceId] and [end] of the body are not read: a body
    asking for a booked slot of service v1 gets a free slot without
    service. *)
Lemma post_admin_slots_ignores_other_fields :
  post_admin_slots env_ok
    {| new_start := Some "2024-01-01T10:00:00"; new_status := Some "booked";
       new_serviceId := Some "v1"; new_end := Some "2024-01-01T11:00:00" |}
    st_empty
  = {| result :=
         Normal {| code := 201; body := JsonSlot (Some ("0", a_free_slot)) |};
       final := {| services := ∅; slots := {["0" := a_free_slot]};
                   reservations := ∅ |};
       effects :=
         [ECall (Db (Slot_create "2024-01-01T10:00:00" free)) None] |}.
Proof. vm_compute. reflexivity. Qed.

(** ** GET /api/slots *)

Lemma by_start_total : Total Slot.by_start.
Proof. intros a b. unfold Slot.by_start. lia. Qed.

(** X1.  What GET /api/slots does answer: the free slots whose start lies
    between the parsed 00:00:00 and the parsed 23:59:59 of the date, both
    included, in ascending order of start. *)
Lemma get_slots_free_between (env : Env) (date : option string) (st : Store)
    (lo hi : Z) :
  truthy date = true ->
  Date_parse env (str date +:+ "T00:00:00") = Some lo ->
  Date_parse env (str date +:+ "T23:59:59") = Some hi ->
  db_fault env (Slot_find_free_sorted (Some lo) (Some hi)) = None ->
  exists l,
    app env (GET_slots date) st
    = {| result := Normal {| code := 200; body := JsonSlots l |};
         final := st;
         effects :=
           [ECall (Db (Slot_find_free_sorted (Some lo) (Some hi))) None] |} /\
    Sorted Slot.by_start l /\
    forall id s,
      (id, s) ∈ l <->
      slots st !! id = Some s /\ slot_status s = free /\
      lo <= start s <= hi.
Proof.
  intros Hd Hlo Hhi Hdb.
  exists (merge_sort Slot.by_start
            (List.filter (Slot.matches_free_between lo hi)
               (map_to_list (slots st)))).
  split; [|split].
  - cbn [app]. unfold get_slots. rewrite Hd. cbn [negb].
    unfold try_catch, bind, Slot.find_free_sorted.
    rewrite Hlo, Hhi. unfold db_call. rewrite Hdb. reflexivity.
  - apply Sorted_merge_sort, by_start_total.
  - intros id s. rewrite merge_sort_Permutation.
    rewrite list_elem_of_In, filter_In, <- list_elem_of_In.
    rewrite elem_of_map_to_list. unfold Slot.matches_free_between. cbn.
    rewrite !andb_true_iff, !Z.leb_le, bool_decide_eq_true. tauto.
Qed.

(** C5 at its failing input.  A free slot starting at 23:59:59.500 of
    2024-01-01 falls on that date, yet GET /api/slots?date=2024-01-01
    answers with an empty list: the upper bound of the query is
    23:59:59.000. *)
Theorem get_slots_misses_last_second :
  slots st_late !! "s9" = Some a_late_slot /\
  slot_status a_late_slot = free /\
  falls_on_date env_ok "2024-01-01" (start a_late_slot) /\
  app env_ok (GET_slots (Some "2024-01-01")) st_late
  = {| result := Normal {| code := 200; body := JsonSlots [] |};
       final := st_late;
       effects :=
         [ECall (Db (Slot_find_free_sorted (Some 1704067200000)
                       (Some 1704153599000))) None] |}.
Proof.
  split; [reflexivity|]. split; [reflexivity|]. split.
  - exists 1704067200000, 1704153599000.
    split; [reflexivity|]. split; [reflexivity|]. cbn. lia.
  - vm_compute. reflexivity.
Qed.

(** ** No automatic booked-to-free transition *)

Lemma keeps_booked_refl st : keeps_booked st st.
Proof. intros id s Hs Hb. eauto. Qed.

Lemma keeps_booked_trans st1 st2 st3 :
  keeps_booked st1 st2 -> keeps_booked st2 st3 -> keeps_booked st1 st3.
Proof.
  intros H12 H23 id s Hs Hb.
  destruct (H12 id s Hs Hb) as (s' & Hs' & Hb'). eauto.
Qed.

Lemma keeps_booked_same_slots st st' :
  slots st' = slots st -> keeps_booked st st'.
Proof. intros E id s Hs Hb. rewrite E. eauto. Qed.

(** Rules: what never frees a booked slot. *)

Create HintDb frees.

Section NeverFrees.
Context {A B : Type}.

Lemma never_frees_ret (a : A) : never_frees (ret a).
Proof. intros st. apply keeps_booked_refl. Qed.

Lemma never_frees_throw (e : Exn) : never_frees (throw (A:=A) e).
Proof. intros st. apply keeps_booked_refl. Qed.

Lemma never_frees_eval (c : Completion A) : never_frees (eval c).
Proof. intros st. apply keeps_booked_refl. Qed.

Lemma never_frees_await call (c : Completion A) : never_frees (await call c).
Proof. intros st. apply keeps_booked_refl. Qed.

Lemma never_frees_bind (m : M A) (k : A -> M B) :
  never_frees m -> (forall a, never_frees (k a)) -> never_frees (bind m k).
Proof.
  intros Hm Hk st. unfold bind. specialize (Hm st).
  destruct (result (m st)); [|exact Hm].
  eapply keeps_booked_trans; [exact Hm | apply Hk].
Qed.

Lemma never_frees_try_catch (m : M A) (h : Exn -> M A) :
  never_frees m -> (forall e, never_frees (h e)) ->
  never_frees (try_catch m h).
Proof.
  intros Hm Hh st. unfold try_catch. specialize (Hm st).
  destruct (result (m st)); [exact Hm|].
  eapply keeps_booked_trans; [exact Hm | apply Hh].
Qed.

Lemma never_frees_all2 (m1 : M A) (m2 : M B) :
  never_frees m1 -> never_frees m2 -> never_frees (Promise_all2 m1 m2).
Proof.
  intros H1 H2 st. unfold Promise_all2. cbn.
  eapply keeps_booked_trans; [apply H1 | apply H2].
Qed.

Lemma never_frees_db_call env op (run : Store -> A * Store) :
  (forall st, keeps_booked st (run st).2) ->
  never_frees (db_call env op run).
Proof.
  intros Hrun st. unfold db_call.
  destruct (db_fault env op); [apply keeps_booked_refl|].
  specialize (Hrun st). by destruct (run st).
Qed.

End NeverFrees.

Lemma never_frees_emit ev : never_frees (emit ev).
Proof. intros st. apply keeps_booked_refl. Qed.

Lemma never_frees_deref {A} (o : option A) prop : never_frees (deref o prop).
Proof. destruct o; [apply never_frees_ret | apply never_frees_throw]. Qed.

Section ModelNeverFrees.
Context (env : Env).

Lemma Service_findById_never_frees id : never_frees (Service.findById env id).
Proof. apply never_frees_db_call. intros st. apply keeps_booked_refl. Qed.

Lemma Slot_findById_never_frees id : never_frees (Slot.findById env id).
Proof. apply never_frees_db_call. intros st. apply keeps_booked_refl. Qed.

(** Setting a slot to booked frees none. *)
Lemma Slot_book_never_frees id new :
  never_frees (Slot.findByIdAndUpdate env id booked_update new).
Proof.
  apply never_frees_db_call. intros st.
  destruct (slots st !! id) as [s0|] eqn:H0; [|apply keeps_booked_refl].
  intros id' s Hs Hb. cbn.
  destruct (decide (id = id')) as [<-|Hne].
  - rewrite lookup_insert_eq. eauto.
  - rewrite lookup_insert_ne by done. eauto.
Qed.

Lemma Slot_find_free_sorted_never_frees lo hi :
  never_frees (Slot.find_free_sorted env lo hi).
Proof.
  unfold Slot.find_free_sorted.
  destruct lo, hi; try apply never_frees_await.
  apply never_frees_db_call. intros st. apply keeps_booked_refl.
Qed.

Lemma Slot_aggregate_never_frees : never_frees (Slot.aggregate env).
Proof. apply never_frees_db_call. intros st. apply keeps_booked_refl. Qed.

Lemma Reservation_findByIdAndUpdate_never_frees id u new :
  never_frees (Reservation.findByIdAndUpdate env id u new).
Proof.
  apply never_frees_db_call. intros st.
  destruct (reservations st !! id); by apply keeps_booked_same_slots.
Qed.

Lemma Reservation_findById_populate_never_frees id :
  never_frees (Reservation.findById_populate env id).
Proof. apply never_frees_db_call. intros st. apply keeps_booked_refl. Qed.

Lemma Reservation_create_never_frees sv sl em fn ln ph stat :
  never_frees (Reservation.create env sv sl em fn ln ph stat).
Proof.
  apply never_frees_db_call. intros st. by apply keeps_booked_same_slots.
Qed.

End ModelNeverFrees.

#[local] Hint Resolve never_frees_ret never_frees_throw never_frees_eval
  never_frees_await never_frees_emit never_frees_deref
  Service_findById_never_frees Slot_findById_never_frees
  Slot_book_never_frees Slot_find_free_sorted_never_frees
  Slot_aggregate_never_frees Reservation_findByIdAndUpdate_never_frees
  Reservation_findById_populate_never_frees Reservation_create_never_frees
  : frees.

Ltac never_frees_step :=
  first
    [ apply never_frees_bind; [|intros ?]
    | apply never_frees_try_catch; [|intros ?]
    | apply never_frees_all2
    | match goal with
      | |- never_frees (if ?c then _ else _) => destruct c
      | |- never_frees (match ?x with _ => _ end) => destruct x
      end
    | solve [unfold res_json, res_status_json, res_status_send, console_log,
               console_error, createGoogleMeet; auto with frees] ].

Lemma stripe_webhook_never_frees env req : never_frees (stripe_webhook env req).
Proof.
  unfold stripe_webhook, checkout_session_completed.
  repeat never_frees_step.
Qed.

Lemma stripe_verify_never_frees env b : never_frees (stripe_verify env b).
Proof. unfold stripe_verify. repeat never_frees_step. Qed.

Lemma login_never_frees env b : never_frees (login env b).
Proof. unfold login. repeat never_frees_step. Qed.

Lemma get_slots_summary_never_frees env : never_frees (get_slots_summary env).
Proof. unfold get_slots_summary. repeat never_frees_step. Qed.

Lemma get_slots_never_frees env date : never_frees (get_slots env date).
Proof. unfold get_slots. repeat never_frees_step. Qed.

Lemma post_reservations_never_frees env b :
  never_frees (post_reservations env b).
Proof. unfold post_reservations. repeat never_frees_step. Qed.

(** C7.  Whatever a non-admin request is (webhook, payment verification,
    login, slot summary, slot query, reservation creation) and however its
    run ends, a slot that was booked before the request is still there and
    still booked after it. *)
Theorem booked_slots_stay_booked (env : Env) (req : Request) (st : Store)
    (id : Id) (s : SlotDoc) :
  is_admin req = false ->
  slots st !! id = Some s ->
  slot_status s = booked ->
  exists s',
    slots (final (app env req st)) !! id = Some s' /\ slot_status s' = booked.
Proof.
  intros Hreq. revert id s.
  change (keeps_booked st (final (app env req st))).
  destruct req; try discriminate; cbn [app].
  - apply stripe_webhook_never_frees.
  - apply stripe_verify_never_frees.
  - apply login_never_frees.
  - apply get_slots_summary_never_frees.
  - apply get_slots_never_frees.
  - apply post_reservations_never_frees.
Qed.

Lemma booked_slots_stay_booked_witness :
  exists s',
    slots (final (app env_ok
                    (POST_stripe_webhook (signed "checkout.session.completed"))
                    st_pending)) !! "s1" = Some s' /\
    slot_status s' = booked.
Proof.
  apply (booked_slots_stay_booked env_ok
           (POST_stripe_webhook (signed "checkout.session.completed"))
           st_pending "s1" a_booked_slot); reflexivity.
Defined.

(** ** Error statuses *)

Lemma some_call_failed_app t1 t2 :
  some_call_failed (t1 ++ t2) = some_call_failed t1 || some_call_failed t2.
Proof. apply existsb_app. Qed.

Section CallDriven.
Context {A B : Type}.

Lemma call_driven_ret (Q : A -> Prop) (a : A) : Q a -> call_driven Q (ret a).
Proof. intros Ha st. by cbn. Qed.

Lemma call_driven_await call (c : Completion A) :
  call_driven (fun _ => True) (await call c).
Proof. intros st. by destruct c. Qed.

Lemma call_driven_db_call env op (run : Store -> A * Store) :
  call_driven (fun _ => True) (db_call env op run).
Proof.
  intros st. unfold db_call.
  destruct (db_fault env op); [done|]. by destruct (run st).
Qed.

Lemma call_driven_bind (Q1 : A -> Prop) (Q2 : B -> Prop) (m : M A)
    (k : A -> M B) :
  call_driven Q1 m -> (forall a, Q1 a -> call_driven Q2 (k a)) ->
  call_driven Q2 (bind m k).
Proof.
  intros Hm Hk st. unfold bind. specialize (Hm st).
  destruct (result (m st)) as [a|e]; [|exact Hm].
  destruct Hm as [Hm Ha]. specialize (Hk a Ha (final (m st))).
  cbn. rewrite some_call_failed_app, Hm. exact Hk.
Qed.

Lemma call_driven_all2 (m1 : M A) (m2 : M B) :
  call_driven (fun _ => True) m1 -> call_driven (fun _ => True) m2 ->
  call_driven (fun _ => True) (Promise_all2 m1 m2).
Proof.
  intros H1 H2 st. unfold Promise_all2. cbn.
  specialize (H1 st). specialize (H2 (final (m1 st))).
  rewrite some_call_failed_app.
  destruct (result (m1 st)), (result (m2 (final (m1 st)))); cbn.
  - destruct H1 as [-> _], H2 as [-> _]. done.
  - destruct H1 as [-> _]. by rewrite H2.
  - by rewrite H1.
  - by rewrite H1.
Qed.

Lemma call_driven_weaken (Q Q' : A -> Prop) (m : M A) :
  (forall a, Q a -> Q' a) -> call_driven Q m -> call_driven Q' m.
Proof.
  intros HQ Hm st. specialize (Hm st).
  destruct (result (m st)); [|done]. destruct Hm. auto.
Qed.

End CallDriven.

(** A route of the shape [try { body } catch (err) { log; answer c }]. *)
Lemma answers_try_catch (c : Z) (body_ : M Response) label msg :
  call_driven ok_or_4xx body_ ->
  answers c
    (try_catch body_
       (fun err =>
          console_error label err ;;; res_status_json c (JsonError msg))).
Proof.
  intros Hb st r. unfold try_catch. specialize (Hb st).
  destruct (result (body_ st)) as [a|e] eqn:Hres.
  - rewrite Hres. intros [= <-]. by destruct Hb as [-> ?].
  - cbn. intros [= <-]. rewrite some_call_failed_app, Hb. by cbn.
Qed.

Lemma answers_authAdmin env (c : Z) authorization (next : M Response) :
  answers c next -> answers c (authAdmin env authorization next).
Proof.
  intros Hn st r. unfold authAdmin.
  destruct authorization as [auth|]; cbn;
    [|intros [= <-]; right; right; by split; [right|]].
  destruct (String.prefix "Bearer " auth); cbn;
    [|intros [= <-]; right; right; by split; [right|]].
  unfold bind, try_catch, eval, throw, ret.
  destruct (jwt_verify env _ _) as [payload|e]; cbn.
  - destruct (String.eqb (role payload) "admin"); cbn.
    + specialize (Hn st r). by destruct (next st).
    + intros [= <-]. right; right; by split; [right|].
  - intros [= <-]. right; right; by split; [right|].
Qed.

Lemma ok_200 b : ok_or_4xx {| code := 200; body := b |}.
Proof. by left. Qed.

Lemma ok_201 b : ok_or_4xx {| code := 201; body := b |}.
Proof. right. by left. Qed.

Lemma ok_400 msg : ok_or_4xx {| code := 400; body := JsonError msg |}.
Proof. right. right. by split; [left|]. Qed.

Lemma ok_401 msg : ok_or_4xx {| code := 401; body := JsonError msg |}.
Proof. right. right. by split; [right|]. Qed.

Create HintDb driven.

#[local] Hint Resolve ok_200 ok_201 ok_400 ok_401 : driven.

Ltac call_driven_step :=
  first
    [ apply call_driven_ret; solve [auto with driven]
    | eapply call_driven_bind;
        [ first [ apply call_driven_db_call | apply call_driven_await
                | apply call_driven_all2; apply call_driven_db_call ]
        | intros ? _ ]
    | match goal with
      | |- call_driven _ (if ?c then _ else _) => destruct c
      | |- call_driven _ (match ?x with _ => _ end) => destruct x
      end ].

Section Routes.
Context (env : Env).

Lemma stripe_verify_answers b : answers 500 (stripe_verify env b).
Proof.
  apply answers_try_catch.
  unfold res_status_json, res_json. repeat call_driven_step.
Qed.

Lemma get_admin_reservations_answers : answers 500 (get_admin_reservations env).
Proof.
  apply answers_try_catch.
  unfold res_status_json, res_json, Reservation.find_populate.
  repeat call_driven_step.
Qed.

Lemma delete_admin_reservation_answers id :
  answers 400 (delete_admin_reservation env id).
Proof.
  apply answers_try_catch.
  unfold res_status_json, res_json, Reservation.findByIdAndDelete.
  repeat call_driven_step.
Qed.

Lemma get_admin_slots_answers : answers 500 (get_admin_slots env).
Proof.
  apply answers_try_catch.
  unfold res_status_json, res_json, Slot.find. repeat call_driven_step.
Qed.

Lemma post_admin_slots_answers b : answers 400 (post_admin_slots env b).
Proof.
  apply answers_try_catch.
  unfold res_status_json, res_json, Slot.create, db_reject.
  destruct (negb (truthy (new_start b))); [repeat call_driven_step|].
  destruct (Date_parse env _); repeat call_driven_step.
Qed.

Lemma put_admin_slots_answers id b : answers 400 (put_admin_slots env id b).
Proof.
  apply answers_try_catch.
  unfold res_status_json, res_json, Slot.findByIdAndUpdate.
  repeat call_driven_step.
Qed.

Lemma delete_admin_slots_answers id : answers 400 (delete_admin_slots env id).
Proof.
  apply answers_try_catch.
  unfold res_status_json, res_json, Slot.findByIdAndDelete.
  repeat call_driven_step.
Qed.

Lemma get_slots_summary_answers : answers 500 (get_slots_summary env).
Proof.
  apply answers_try_catch.
  unfold res_status_json, res_json, Slot.aggregate. repeat call_driven_step.
Qed.

Lemma get_slots_answers date : answers 500 (get_slots env date).
Proof.
  unfold get_slots. destruct (negb (truthy date)).
  - intros st r. unfold res_status_json, ret. cbn.
    intros [= <-]. auto with driven.
  - apply answers_try_catch.
    unfold res_status_json, res_json, Slot.find_free_sorted, db_reject.
    destruct (Date_parse env _), (Date_parse env _); repeat call_driven_step.
Qed.

Lemma post_reservations_answers b : answers 500 (post_reservations env b).
Proof.
  apply answers_try_catch.
  unfold res_status_json, res_json, Service.findById, Slot.findById,
    Slot.findByIdAndUpdate, Reservation.create.
  repeat call_driven_step.
Qed.

(** The login route makes no call. *)
Lemma login_answers c b : answers c (login env b).
Proof.
  intros st r. unfold login, bind, console_log, emit, eval, res_json,
    res_status_json, ret.
  destruct (negb (truthy (username b)) || negb (truthy (password b))); cbn;
    [intros [= <-]; auto with driven|].
  destruct (bool_decide _ && bool_decide _); cbn;
    [|intros [= <-]; auto with driven].
  destruct (jwt_sign env _); cbn; [|done].
  intros [= <-]. auto with driven.
Qed.

Lemma result_then_json {A} (m : M A) (b : Body) (r : Response) st :
  result ((m ;;; res_json b) st) = Normal r ->
  r = {| code := 200; body := b |}.
Proof.
  unfold bind. destruct (result (m st)); cbn; [|done]. by intros [= <-].
Qed.

(** Whatever happens inside, a response of the webhook is
    [{ received: true }] or the 400 for a bad signature. *)
Lemma stripe_webhook_response req st r :
  result (stripe_webhook env req st) = Normal r -> ok_or_4xx r.
Proof.
  unfold stripe_webhook.
  unfold bind at 1. unfold try_catch, bind at 1, eval.
  destruct (stripe_webhooks_constructEvent env _ _ _) as [event|err]; cbn.
  - intros Hr. apply result_then_json in Hr as ->. auto with driven.
  - intros [= <-]. right. right. by split; [left|].
Qed.

End Routes.

Lemma always_answers_try_catch (c : Z) (body_ : M Response) label msg :
  always_answers
    (try_catch body_
       (fun err =>
          console_error label err ;;; res_status_json c (JsonError msg))).
Proof.
  intros st. unfold try_catch.
  destruct (result (body_ st)) as [a|e] eqn:Hres; cbn; eauto.
Qed.

Lemma always_answers_authAdmin env authorization (next : M Response) :
  always_answers next -> always_answers (authAdmin env authorization next).
Proof.
  intros Hn st. unfold authAdmin.
  destruct authorization as [auth|]; cbn; [|eauto].
  destruct (String.prefix "Bearer " auth); cbn; [|eauto].
  unfold bind, try_catch, eval, throw, ret.
  destruct (jwt_verify env _ _) as [payload|e]; cbn; [|eauto].
  destruct (String.eqb (role payload) "admin"); cbn; [|eauto].
  destruct (Hn st) as [r Hr]. exists r. by destruct (next st).
Qed.

Lemma admin_route_always_answers env a : always_answers (admin_route env a).
Proof. destruct a; apply always_answers_try_catch. Qed.

Lemma get_slots_always_answers env date : always_answers (get_slots env date).
Proof.
  unfold get_slots. destruct (negb (truthy date)).
  - intros st. cbn. eauto.
  - apply always_answers_try_catch.
Qed.

(** A header that [authAdmin] accepts lets the route run. *)
Lemma authAdmin_authorized env authorization (next : M Response) st :
  authorized env authorization = true ->
  authAdmin env authorization next st = next st.
Proof.
  unfold authorized, authAdmin.
  destruct authorization as [auth|]; [|done].
  destruct (String.prefix "Bearer " auth); [|done]. cbn [andb].
  unfold bind, try_catch, eval, throw, ret.
  destruct (jwt_verify env _ _) as [payload|e]; [|done]. cbn.
  intros ->. cbn. by destruct (next st).
Qed.

(** A header that it does not accept is answered 401. *)
Lemma authAdmin_unauthorized env authorization (next : M Response) st :
  authorized env authorization = false ->
  exists msg,
    authAdmin env authorization next st
    = {| result := Normal {| code := 401; body := JsonError msg |};
         final := st; effects := [] |}.
Proof.
  unfold authorized, authAdmin.
  destruct authorization as [auth|]; [|by eexists].
  destruct (String.prefix "Bearer " auth); cbn [andb]; [|by eexists].
  unfold bind, try_catch, eval, throw, ret, res_status_json.
  destruct (jwt_verify env _ _) as [payload|e]; cbn; [|by eexists].
  intros ->. cbn. by eexists.
Qed.

(** Every request that fails the validation of its handler is answered 400
    or 401 with a message, and the store is left as it was. *)
Lemma validation_failure_answered_4xx (env : Env) (req : Request)
    (st : Store) :
  fails_validation env req st ->
  exists r,
    result (app env req st) = Normal r /\
    (code r = 400 \/ code r = 401) /\ error_body r /\
    final (app env req st) = st.
Proof.
  destruct req as [w|b|b|auth a| |date|b]; cbn [fails_validation app].
  - (* webhook *)
    intros [err Herr]. unfold stripe_webhook.
    unfold bind at 1. unfold try_catch, bind at 1, eval. rewrite Herr. cbn.
    eexists. split; [reflexivity|]. cbn. auto.
  - (* verify *)
    unfold stripe_verify, try_catch, bind, await, res_status_json, res_json,
      console_error, emit, ret.
    intros [Hs|(session & Hret & Hpaid)].
    + rewrite Hs. cbn. eexists. split; [reflexivity|]. cbn. auto.
    + destruct (truthy (sessionId b)); cbn;
        [|eexists; split; [reflexivity|]; cbn; auto].
      rewrite Hret. cbn. apply String.eqb_neq in Hpaid. rewrite Hpaid. cbn.
      eexists. split; [reflexivity|]. cbn. auto.
  - (* login *)
    unfold login, bind, console_log, emit, eval, res_json, res_status_json,
      ret.
    intros Hbad.
    destruct (truthy (username b)), (truthy (password b)); cbn;
      try (eexists; split; [reflexivity|]; cbn; by auto).
    destruct Hbad as [?|[?|Hcred]]; [done..|].
    assert (Hno : bool_decide (username b = ADMIN_USER env)
                  && bool_decide (password b = ADMIN_PASS env) = false).
    { apply andb_false_iff.
      destruct Hcred; [left|right]; by apply bool_decide_eq_false. }
    rewrite Hno. cbn. eexists. split; [reflexivity|]. cbn. auto.
  - (* /api/admin *)
    intros Hbad. destruct (authorized env auth) eqn:Hauth.
    + destruct Hbad as [?|Hbody]; [done|].
      rewrite (authAdmin_authorized env auth _ st Hauth).
      destruct a as [ | | |nb| | ]; try done. cbn [admin_route].
      unfold post_admin_slots, try_catch. rewrite Hbody. cbn.
      eexists. split; [reflexivity|]. cbn. auto.
    + destruct (authAdmin_unauthorized env auth (admin_route env a) st Hauth)
        as [msg ->].
      eexists. split; [reflexivity|]. cbn. auto.
  - (* summary *)
    done.
  - (* slots *)
    intros Hd. unfold get_slots. rewrite Hd. cbn.
    eexists. split; [reflexivity|]. cbn. auto.
  - (* reservations *)
    intros [Hf|[Hans Hun]].
    + rewrite (post_reservations_fields_missing env b st Hf).
      eexists. split; [reflexivity|]. cbn. auto.
    + destruct (fields_present b) eqn:Hf.
      * pose proof (post_reservations_not_available env b st Hf Hans Hun)
          as Hrun.
        unfold runs in Hrun. rewrite Hrun.
        eexists. split; [reflexivity|]. cbn. auto.
      * rewrite (post_reservations_fields_missing env b st Hf).
        eexists. split; [reflexivity|]. cbn. auto.
Qed.

(** C8 (as amended).  A request that fails the validation of its handler is
    answered 400 or 401 with a message and leaves the store as it was.
    Every route other than the webhook and the login always answers.  Take
    any request that is answered.  If no call of its handler failed, the
    answer is a success (200, 201) or a rejection (400, 401) with a message.
    If a call failed (data store, payment gateway; a date that does not
    parse fails the data-store call), every route other than the webhook
    answers with a message and the status of its catch block: 400 for POST,
    PUT and DELETE /api/admin/slots and DELETE /api/admin/reservation, 500
    for the others. *)
Theorem app_error_statuses (env : Env) (req : Request) (st : Store) :
  (fails_validation env req st ->
   exists r,
     result (app env req st) = Normal r /\
     (code r = 400 \/ code r = 401) /\ error_body r /\
     final (app env req st) = st) /\
  (is_webhook req = false -> is_login req = false ->
   exists r, result (app env req st) = Normal r) /\
  (forall r,
     result (app env req st) = Normal r ->
     if some_call_failed (effects (app env req st))
     then is_webhook req = false -> code r = catch_code req /\ error_body r
     else ok_or_4xx r).
Proof.
  split; [apply validation_failure_answered_4xx|].
  split.
  - destruct req as [w|b|b|auth a| |date|b]; try discriminate;
      intros _ _; cbn [app].
    + apply always_answers_try_catch.
    + apply always_answers_authAdmin, admin_route_always_answers.
    + apply always_answers_try_catch.
    + apply get_slots_always_answers.
    + apply always_answers_try_catch.
  - intros r.
    assert (Hweb : forall (m : M Response) c,
              answers c m -> result (m st) = Normal r ->
              if some_call_failed (effects (m st))
              then false = false -> code r = c /\ error_body r
              else ok_or_4xx r).
    { intros m c Hm Hr. specialize (Hm st r Hr).
      by destruct (some_call_failed _). }
    destruct req as [w|b|b|auth a| |date|b]; cbn [app is_webhook].
    + intros Hr. destruct (some_call_failed _); [done|].
      by apply (stripe_webhook_response env w st).
    + apply (Hweb _ 500), stripe_verify_answers.
    + apply (Hweb _ 500), login_answers.
    + destruct a; cbn [admin_route]; unfold catch_code;
        cbn [is_admin_write]; apply Hweb, answers_authAdmin.
      * apply get_admin_reservations_answers.
      * apply delete_admin_reservation_answers.
      * apply get_admin_slots_answers.
      * apply post_admin_slots_answers.
      * apply put_admin_slots_answers.
      * apply delete_admin_slots_answers.
    + apply (Hweb _ 500), get_slots_summary_answers.
    + apply (Hweb _ 500), get_slots_answers.
    + apply (Hweb _ 500), post_reservations_answers.
Qed.

Lemma app_error_statuses_witness :
  let req := Admin (Some "Bearer token") (DELETE_admin_slots "s1") in
  let r := {| code := 400; body := JsonError "Could not delete slot." |} in
  result (app env_db_down req st_pending) = Normal r /\
  some_call_failed (effects (app env_db_down req st_pending)) = true /\
  code r = 400 /\ error_body r.
Proof.
  intros req r.
  split; [reflexivity|]. split; [reflexivity|].
  apply (proj2 (proj2 (app_error_statuses env_db_down req st_pending)) r
           eq_refl eq_refl).
Defined.

(** C8 as worded fails: with the data store down, an authorised DELETE
    /api/admin/slots/s1 is answered 400, not 5xx. *)
Lemma admin_delete_answers_400_when_store_is_down :
  ~ failure_answered_5xx env_db_down
      (Admin (Some "Bearer token") (DELETE_admin_slots "s1")) st_pending.
Proof.
  intros H. destruct (H eq_refl) as (r & Hr & Hcode).
  vm_compute in Hr. injection Hr as <-. cbn in Hcode. lia.
Qed.

(** * Further properties *)

(** ** What the routes leave alone *)

#[local] Instance services_kept_refl : Reflexive services_kept.
Proof. by intros st. Qed.

#[local] Instance services_kept_trans : Transitive services_kept.
Proof. unfold services_kept. intros a b c H1 H2. congruence. Qed.

#[local] Instance store_kept_refl : Reflexive store_kept.
Proof. by intros st. Qed.

#[local] Instance store_kept_trans : Transitive store_kept.
Proof. unfold store_kept. intros a b c H1 H2. congruence. Qed.

Lemma slot_only_booked_refl s : slot_only_booked s s.
Proof. unfold slot_only_booked. auto. Qed.

Lemma slot_only_booked_trans s1 s2 s3 :
  slot_only_booked s1 s2 -> slot_only_booked s2 s3 -> slot_only_booked s1 s3.
Proof.
  unfold slot_only_booked.
  intros (?&?&?&Hx) (?&?&?&Hy). split_and!; try congruence.
  destruct Hy as [Hy|Hy]; [rewrite Hy|]; auto.
Qed.

#[local] Instance slots_only_booked_refl : Reflexive slots_only_booked.
Proof.
  intros st id. destruct (slots st !! id); [apply slot_only_booked_refl|done].
Qed.

#[local] Instance slots_only_booked_trans : Transitive slots_only_booked.
Proof.
  intros a b c H1 H2 id. specialize (H1 id). specialize (H2 id).
  destruct (slots a !! id), (slots b !! id), (slots c !! id); try done.
  by eapply slot_only_booked_trans.
Qed.

Lemma reservation_only_paid_refl r : reservation_only_paid r r.
Proof. unfold reservation_only_paid. split_and!; auto. Qed.

Lemma reservation_only_paid_trans r1 r2 r3 :
  reservation_only_paid r1 r2 -> reservation_only_paid r2 r3 ->
  reservation_only_paid r1 r3.
Proof.
  unfold reservation_only_paid.
  intros (?&?&?&?&?&?&?&Hx) (?&?&?&?&?&?&?&Hy).
  split_and!; try congruence.
  destruct Hy as [Hy|Hy]; [rewrite Hy|]; auto.
Qed.

#[local] Instance reservations_survive_refl : Reflexive reservations_survive.
Proof. intros st id r Hr. eauto using reservation_only_paid_refl. Qed.

#[local] Instance reservations_survive_trans : Transitive reservations_survive.
Proof.
  intros a b c H1 H2 id r Hr.
  destruct (H1 id r Hr) as (r' & Hr' & Hp).
  destruct (H2 id r' Hr') as (r'' & Hr'' & Hp').
  eauto using reservation_only_paid_trans.
Qed.

#[local] Instance none_newly_cancelled_refl : Reflexive none_newly_cancelled.
Proof. intros st id r Hr Hc. eauto. Qed.

#[local] Instance none_newly_cancelled_trans : Transitive none_newly_cancelled.
Proof.
  intros a b c H1 H2 id r Hr Hc.
  destruct (H2 id r Hr Hc) as (r' & Hr' & Hc'). eauto.
Qed.

Section Preserves.
Context (R : relation Store) `{!Reflexive R} `{!Transitive R}.
Context {A B : Type}.

Lemma preserves_ret (a : A) : preserves R (ret a).
Proof. intros st. reflexivity. Qed.

Lemma preserves_throw (e : Exn) : preserves R (throw (A:=A) e).
Proof. intros st. reflexivity. Qed.

Lemma preserves_eval (c : Completion A) : preserves R (eval c).
Proof. intros st. reflexivity. Qed.

Lemma preserves_await call (c : Completion A) : preserves R (await call c).
Proof. intros st. reflexivity. Qed.

Lemma preserves_deref (o : option A) prop : preserves R (deref o prop).
Proof. destruct o; intros st; reflexivity. Qed.

Lemma preserves_bind (m : M A) (k : A -> M B) :
  preserves R m -> (forall a, preserves R (k a)) -> preserves R (bind m k).
Proof.
  intros Hm Hk st. unfold bind. specialize (Hm st).
  destruct (result (m st)); [|exact Hm].
  etransitivity; [exact Hm | apply Hk].
Qed.

Lemma preserves_try_catch (m : M A) (h : Exn -> M A) :
  preserves R m -> (forall e, preserves R (h e)) ->
  preserves R (try_catch m h).
Proof.
  intros Hm Hh st. unfold try_catch. specialize (Hm st).
  destruct (result (m st)); [exact Hm|].
  etransitivity; [exact Hm | apply Hh].
Qed.

Lemma preserves_all2 (m1 : M A) (m2 : M B) :
  preserves R m1 -> preserves R m2 -> preserves R (Promise_all2 m1 m2).
Proof.
  intros H1 H2 st. unfold Promise_all2. cbn.
  etransitivity; [apply H1 | apply H2].
Qed.

Lemma preserves_db_call env op (run : Store -> A * Store) :
  (forall st, R st (run st).2) -> preserves R (db_call env op run).
Proof.
  intros Hrun st. unfold db_call.
  destruct (db_fault env op); [reflexivity|].
  specialize (Hrun st). by destruct (run st).
Qed.

End Preserves.

Lemma preserves_emit (R : relation Store) `{!Reflexive R} ev :
  preserves R (emit ev).
Proof. intros st. reflexivity. Qed.

Lemma preserves_authAdmin (R : relation Store) `{!Reflexive R} env
    authorization (next : M Response) :
  preserves R next -> preserves R (authAdmin env authorization next).
Proof.
  intros Hn st. unfold authAdmin.
  destruct authorization as [auth|]; [|reflexivity].
  destruct (String.prefix "Bearer " auth); [|reflexivity].
  unfold bind, try_catch, eval, throw, ret.
  destruct (jwt_verify env _ _) as [payload|e]; cbn; [|reflexivity].
  destruct (String.eqb (role payload) "admin"); cbn; [|reflexivity].
  specialize (Hn st). by destruct (next st).
Qed.

(** One step through handler code; [db_tac] settles a data-store call. *)
Ltac preserves_step db_tac :=
  first
    [ apply preserves_bind; [try apply _ | |intros ?]
    | apply preserves_try_catch; [try apply _ | |intros ?]
    | apply preserves_all2; [try apply _ | |]
    | apply preserves_authAdmin; [try apply _ |]
    | match goal with
      | |- preserves _ (if ?c then _ else _) => destruct c
      | |- preserves _ (match ?x with _ => _ end) => destruct x
      end
    | solve [ first [ apply preserves_ret | apply preserves_throw
                    | apply preserves_eval | apply preserves_await
                    | apply preserves_deref | apply preserves_emit ];
              apply _ ]
    | apply preserves_db_call; [try apply _ | intros ?st; db_tac ] ].

Ltac unfold_routes :=
  unfold app, admin_route, stripe_webhook, checkout_session_completed,
    stripe_verify, login, get_admin_reservations, delete_admin_reservation,
    get_admin_slots, post_admin_slots, put_admin_slots, delete_admin_slots,
    get_slots_summary, get_slots, post_reservations, createGoogleMeet,
    res_json, res_status_json, res_status_send, console_log, console_error,
    db_reject,
    Service.findById, Slot.findById, Slot.findByIdAndUpdate, Slot.find,
    Slot.find_free_sorted, Slot.aggregate, Slot.create,
    Slot.findByIdAndDelete, Reservation.findByIdAndUpdate,
    Reservation.findById_populate, Reservation.find_populate,
    Reservation.findByIdAndDelete, Reservation.create.

Ltac services_db := cbn; repeat case_match; reflexivity.

Lemma app_preserves_services env req : preserves services_kept (app env req).
Proof.
  destruct req as [w|b|b|auth a| |date|b]; [| | |destruct a| | |];
    unfold_routes; repeat preserves_step services_db.
Qed.

(** X10.  No route writes a service: after any request, in any environment,
    the services are what they were. *)
Theorem services_never_change (env : Env) (req : Request) (st : Store) :
  services (final (app env req st)) = services st.
Proof. apply app_preserves_services. Qed.

Ltac kept_db := cbn; repeat case_match; reflexivity.

(** X11.  POST /api/stripe/verify, POST /api/login, GET /api/slots/summary,
    GET /api/slots, GET /api/admin/reservations and GET /api/admin/slots
    leave the whole store as it was, whatever the collaborators answer. *)
Theorem read_only_routes_keep_store (env : Env) (req : Request) (st : Store) :
  is_read_only req = true -> final (app env req st) = st.
Proof.
  intros Hro. revert st. change (preserves store_kept (app env req)).
  destruct req as [w|b|b|auth a| |date|b]; [| | |destruct a| | |];
    try discriminate;
    unfold_routes; repeat preserves_step kept_db.
Qed.

(** Writes and the slots. *)

Lemma book_only_books st id s :
  slots st !! id = Some s ->
  slots_only_booked st
    (set_slots st (<[id := apply_slot_update booked_update s]> (slots st))).
Proof.
  intros Hs id'. cbn. rewrite lookup_insert.
  destruct (decide (id = id')) as [<-|].
  - rewrite Hs. unfold slot_only_booked. cbn. auto.
  - destruct (slots st !! id'); [apply slot_only_booked_refl|done].
Qed.

Lemma set_reservations_only_booked st m :
  slots_only_booked st (set_reservations st m).
Proof.
  intros id. cbn.
  destruct (slots st !! id); [apply slot_only_booked_refl|done].
Qed.

Ltac slots_db :=
  cbn; repeat case_match; cbn;
  first [ reflexivity
        | apply set_reservations_only_booked
        | by apply book_only_books ].

Lemma public_routes_only_book env req :
  is_admin req = false -> preserves slots_only_booked (app env req).
Proof.
  intros Hreq.
  destruct req as [w|b|b|auth a| |date|b]; try discriminate;
    unfold_routes; repeat preserves_step slots_db.
Qed.

(** X12.  A request outside /api/admin neither creates nor deletes a slot,
    and changes no slot's start, end or service: a slot can only go from
    free to booked. *)
Theorem public_routes_only_book_slots (env : Env) (req : Request)
    (st : Store) :
  is_admin req = false ->
  dom (slots (final (app env req st))) = dom (slots st) /\
  forall id s,
    slots st !! id = Some s ->
    exists s',
      slots (final (app env req st)) !! id = Some s' /\
      slot_only_booked s s'.
Proof.
  intros Hreq. pose proof (public_routes_only_book env req Hreq st) as H.
  split.
  - apply set_eq. intros id. rewrite !elem_of_dom. specialize (H id).
    destruct (slots st !! id), (slots (final _) !! id); try done;
      split; intros [? ?]; eauto; done.
  - intros id s Hs. specialize (H id). rewrite Hs in H.
    destruct (slots (final _) !! id); [eauto|done].
Qed.

Lemma public_routes_only_book_slots_witness :
  exists s',
    slots (final (app env_ok (POST_reservations a_booking) st_open)) !! "s1"
      = Some s' /\
    slot_only_booked a_free_slot s'.
Proof.
  apply (proj2 (public_routes_only_book_slots env_ok
                  (POST_reservations a_booking) st_open eq_refl)).
  reflexivity.
Defined.

(** Writes and the reservations. *)

Lemma set_slots_survive st m : reservations_survive st (set_slots st m).
Proof. intros id r Hr. cbn. eauto using reservation_only_paid_refl. Qed.

Lemma update_survive st id r0 r1 :
  reservations st !! id = Some r0 ->
  reservation_only_paid r0 r1 ->
  reservations_survive st
    (set_reservations st (<[id := r1]> (reservations st))).
Proof.
  intros H0 Hp id' r Hr. cbn. rewrite lookup_insert.
  destruct (decide (id = id')) as [<-|].
  - rewrite H0 in Hr. injection Hr as <-. eauto.
  - eauto using reservation_only_paid_refl.
Qed.

Lemma create_survive st doc :
  reservations_survive st
    (set_reservations st
       (<[fresh (dom (reservations st)) := doc]> (reservations st))).
Proof.
  intros id r Hr. cbn. exists r. split; [|apply reservation_only_paid_refl].
  rewrite lookup_insert_ne; [done|]. intros <-.
  apply (is_fresh (dom (reservations st))), elem_of_dom. eauto.
Qed.

Ltac survive_db :=
  cbn; repeat case_match; cbn;
  first [ reflexivity
        | apply set_slots_survive
        | apply create_survive
        | eapply update_survive; [eassumption|];
          unfold reservation_only_paid; cbn; split_and!; auto ].

Lemma app_reservations_survive env req :
  is_delete_reservation req = false ->
  preserves reservations_survive (app env req).
Proof.
  intros Hreq.
  destruct req as [w|b|b|auth a| |date|b]; [| | |destruct a| | |];
    try discriminate;
    unfold_routes; repeat preserves_step survive_db.
Qed.

Lemma set_slots_none_cancelled st m :
  none_newly_cancelled st (set_slots st m).
Proof. intros id r Hr Hc. cbn in Hr. eauto. Qed.

Lemma update_none_cancelled st id r0 r1 :
  reservations st !! id = Some r0 ->
  (status r1 = cancelled -> status r0 = cancelled) ->
  none_newly_cancelled st
    (set_reservations st (<[id := r1]> (reservations st))).
Proof.
  intros H0 Hs id' r Hr Hc. cbn in Hr. rewrite lookup_insert in Hr.
  destruct (decide (id = id')) as [<-|]; [|eauto].
  injection Hr as <-. eauto.
Qed.

Lemma create_none_cancelled st id doc :
  status doc <> cancelled ->
  none_newly_cancelled st
    (set_reservations st (<[id := doc]> (reservations st))).
Proof.
  intros Hs id' r Hr Hc. cbn in Hr. rewrite lookup_insert in Hr.
  destruct (decide (id = id')) as [<-|]; [|eauto].
  injection Hr as <-. done.
Qed.

Lemma delete_none_cancelled st id :
  none_newly_cancelled st
    (set_reservations st (delete id (reservations st))).
Proof.
  intros id' r Hr Hc. cbn in Hr. apply lookup_delete_Some in Hr as [_ Hr].
  eauto.
Qed.

Ltac cancelled_db :=
  cbn; repeat case_match; cbn;
  first [ reflexivity
        | apply set_slots_none_cancelled
        | apply delete_none_cancelled
        | by apply create_none_cancelled
        | eapply update_none_cancelled; [eassumption|]; cbn; done ].

Lemma app_none_newly_cancelled env req :
  preserves none_newly_cancelled (app env req).
Proof.
  destruct req as [w|b|b|auth a| |date|b]; [| | |destruct a| | |];
    unfold_routes; repeat preserves_step cancelled_db.
Qed.

(** X13.  Except for DELETE /api/admin/reservation, no request removes a
    reservation or changes its service, slot, customer data or creation
    time: afterwards its status is what it was or paid. *)
Theorem reservations_outlive_requests (env : Env) (req : Request)
    (st : Store) (id : Id) (r : ReservationDoc) :
  is_delete_reservation req = false ->
  reservations st !! id = Some r ->
  exists r',
    reservations (final (app env req st)) !! id = Some r' /\
    reservation_only_paid r r'.
Proof. intros Hreq. by apply app_reservations_survive. Qed.

Lemma reservations_outlive_requests_witness :
  exists r',
    reservations
      (final (app env_ok
                (POST_stripe_webhook (signed "checkout.session.completed"))
                st_pending)) !! "r1" = Some r' /\
    reservation_only_paid a_pending_reservation r'.
Proof.
  apply (reservations_outlive_requests env_ok
           (POST_stripe_webhook (signed "checkout.session.completed"))
           st_pending "r1" a_pending_reservation); reflexivity.
Defined.

(** X14.  No route sets the status cancelled: a reservation that is
    cancelled after a request was cancelled before it. *)
Theorem no_route_cancels (env : Env) (req : Request) (st : Store) (id : Id)
    (r' : ReservationDoc) :
  reservations (final (app env req st)) !! id = Some r' ->
  status r' = cancelled ->
  exists r, reservations st !! id = Some r /\ status r = cancelled.
Proof. apply app_none_newly_cancelled. Qed.

(** ** authAdmin and login *)

Lemma append_cons x (a b : string) : String x a +:+ b = String x (a +:+ b).
Proof. reflexivity. Qed.

Lemma append_nil_r (a : string) : a +:+ "" = a.
Proof. induction a as [|x a IH]; [done|]. by rewrite append_cons, IH. Qed.

Lemma append_assoc (a b c : string) : (a +:+ b) +:+ c = a +:+ (b +:+ c).
Proof.
  induction a as [|x a IH]; [done|]. by rewrite !append_cons, IH.
Qed.

Lemma split_acc_free c acc s :
  free_of c s = true ->
  split_acc c acc s = [acc +:+ s].
Proof.
  revert acc. induction s as [|a s IH]; intros acc; cbn.
  - intros _. by rewrite append_nil_r.
  - intros [Ha Hs]%andb_true_iff. apply negb_true_iff in Ha. rewrite Ha.
    rewrite IH by done. by rewrite append_assoc.
Qed.

Lemma split_bearer tok :
  free_of " " tok = true ->
  nth 1 (split " " ("Bearer " +:+ tok)) "" = tok.
Proof.
  intros H. unfold split. rewrite !append_cons. cbn [split_acc Ascii.eqb Bool.eqb].
  change ("" +:+ tok) with tok. by rewrite split_acc_free.
Qed.

Lemma prefix_bearer tok : String.prefix "Bearer " ("Bearer " +:+ tok) = true.
Proof. rewrite !append_cons. cbn. by destruct tok. Qed.

(** X15.  An /api/admin request without a header [Bearer <token>] whose
    token verifies with the role admin is answered 401 with a message before
    the route runs: the store is untouched and no call is made. *)
Theorem authAdmin_rejects (env : Env) (authorization : option string)
    (r : AdminRequest) (st : Store) :
  authorized env authorization = false ->
  exists msg,
    app env (Admin authorization r) st
    = {| result := Normal {| code := 401; body := JsonError msg |};
         final := st; effects := [] |}.
Proof.
  unfold authorized. cbn [app]. unfold authAdmin.
  destruct authorization as [auth|]; [|by eexists].
  destruct (String.prefix "Bearer " auth); cbn [andb]; [|by eexists].
  unfold bind, try_catch, eval, throw, ret, res_status_json.
  destruct (jwt_verify env _ _) as [payload|e]; cbn; [|by eexists].
  intros ->. cbn. by eexists.
Qed.

Lemma authAdmin_rejects_witness :
  exists msg,
    app env_ok (Admin (Some "Bearer forged") (DELETE_admin_slots "s1"))
      st_pending
    = {| result := Normal {| code := 401; body := JsonError msg |};
         final := st_pending; effects := [] |}.
Proof.
  apply (authAdmin_rejects env_ok (Some "Bearer forged")
           (DELETE_admin_slots "s1") st_pending).
  reflexivity.
Defined.

(** X16.  With the header [Bearer <token>], the token free of spaces and
    verifying with the role admin, an /api/admin request is answered by its
    route. *)
Theorem authAdmin_passes (env : Env) (tok : string) (r : AdminRequest)
    (st : Store) :
  free_of " " tok = true ->
  jwt_verify env tok (JWT_SECRET env) = Normal {| role := "admin" |} ->
  app env (Admin (Some ("Bearer " +:+ tok)) r) st = admin_route env r st.
Proof.
  intros Hfree Hv. cbn [app]. unfold authAdmin.
  rewrite prefix_bearer, split_bearer, Hv by done.
  unfold bind, try_catch, eval, ret. cbn.
  by destruct (admin_route env r st).
Qed.

Lemma authAdmin_passes_witness :
  app env_ok (Admin (Some "Bearer token") GET_admin_slots) st_pending
  = admin_route env_ok GET_admin_slots st_pending.
Proof.
  apply (authAdmin_passes env_ok "token" GET_admin_slots st_pending);
    reflexivity.
Defined.

(** X17.  POST /api/login answers with a token exactly when both fields
    are given, equal the configured admin user and password, and the token
    is signed; it never touches the store and makes no call. *)
Theorem login_token_iff (env : Env) (b : LoginBody) (st : Store)
    (token : string) :
  let run := app env (POST_login b) st in
  final run = st /\
  calls (effects run) = [] /\
  (result run = Normal {| code := 200; body := JsonToken token |} <->
   truthy (username b) = true /\ truthy (password b) = true /\
   username b = ADMIN_USER env /\ password b = ADMIN_PASS env /\
   jwt_sign env (JWT_SECRET env) = Normal token).
Proof.
  cbn [app]. unfold login, bind, console_log, emit, eval, res_json,
    res_status_json, ret.
  destruct (truthy (username b)), (truthy (password b)); cbn;
    try (split_and!; [done..|split; [done|intros (?&?&_); done]]).
  destruct (bool_decide (username b = ADMIN_USER env)) eqn:Hu;
    destruct (bool_decide (password b = ADMIN_PASS env)) eqn:Hp; cbn;
    try apply bool_decide_eq_true in Hu; try apply bool_decide_eq_true in Hp;
    try apply bool_decide_eq_false in Hu;
    try apply bool_decide_eq_false in Hp;
    try (split_and!; [done..|split; [done|intros (_&_&?&?&_); done]]).
  destruct (jwt_sign env _) as [t|e]; cbn; split_and!; try done.
  - split; [intros [= <-]; by split_and!|]. by intros (_&_&_&_&[= <-]).
  - split; [done|]. by intros (_&_&_&_&?).
Qed.

(** ** Payment verification and the summary *)

(** X18.  POST /api/stripe/verify answers [{ status: 'paid' }] exactly
    when a session id is given and the gateway returns a session whose
    payment status is paid; it leaves the store as it was, and without a
    session id it does not call the gateway. *)
Theorem stripe_verify_paid_iff (env : Env) (b : VerifyBody) (st : Store) :
  let run := app env (POST_stripe_verify b) st in
  final run = st /\
  (result run = Normal {| code := 200; body := JsonStatusPaid |} <->
   truthy (sessionId b) = true /\
   exists session,
     stripe_checkout_sessions_retrieve env (str (sessionId b))
       = Normal session /\
     payment_status session = "paid") /\
  (truthy (sessionId b) = false -> effects run = []).
Proof.
  cbn [app]. unfold stripe_verify, try_catch, bind, await, res_status_json,
    res_json, console_error, emit, ret.
  destruct (truthy (sessionId b)); cbn.
  - destruct (stripe_checkout_sessions_retrieve env _) as [session|e]; cbn.
    + destruct (String.eqb (payment_status session) "paid") eqn:E; cbn.
      * apply String.eqb_eq in E. split_and!; try done.
        split; [eauto|done].
      * apply String.eqb_neq in E. split_and!; try done.
        split; [done|]. intros (_ & s & [= <-] & ?). done.
    + split_and!; try done. split; [done|]. intros (_ & s & ? & ?). done.
  - split_and!; try done. split; [done|]. intros [? _]. done.
Qed.

(** The summary. *)

Lemma count_day_other acc d day :
  day_of (start d.2) <> day ->
  Slot.count_day acc d !! day = acc !! day.
Proof. intros Hne. unfold Slot.count_day. by rewrite lookup_insert_ne. Qed.

Lemma count_day_same acc d :
  Slot.count_day acc d !! day_of (start d.2)
  = Some (S (default 0%nat (acc !! day_of (start d.2)))).
Proof. unfold Slot.count_day. by rewrite lookup_insert_eq. Qed.

Lemma fold_count_day (l : list (Id * SlotDoc)) (acc : gmap Z nat) (day : Z) :
  let n := length (List.filter
                     (fun d => bool_decide (day_of (start d.2) = day)) l) in
  fold_left Slot.count_day l acc !! day
  = if decide (n = 0%nat) then acc !! day
    else Some (default 0 (acc !! day) + n)%nat.
Proof.
  revert acc. induction l as [|d l IH]; intros acc; cbn [fold_left].
  - done.
  - cbn [List.filter]. rewrite IH.
    destruct (decide (day_of (start d.2) = day)) as [E|E].
    + rewrite bool_decide_eq_true_2 by done. cbn [length].
      rewrite <- E, count_day_same. rewrite E.
      destruct (decide (S _ = 0%nat)); [done|].
      destruct (decide (_ = 0%nat)) as [->|]; cbn; f_equal; lia.
    + rewrite bool_decide_eq_false_2 by done.
      by rewrite count_day_other.
Qed.

Lemma filter_filter_day (l : list (Id * SlotDoc)) day :
  List.filter (fun d => bool_decide (day_of (start d.2) = day))
    (List.filter (fun d => bool_decide (slot_status d.2 = free)) l)
  = List.filter
      (fun d => bool_decide (slot_status d.2 = free)
                && bool_decide (day_of (start d.2) = day)) l.
Proof.
  induction l as [|d l IH]; cbn; [done|].
  destruct (bool_decide (slot_status d.2 = free)); cbn; [|done].
  destruct (bool_decide (day_of (start d.2) = day)); by rewrite IH.
Qed.

(** X19.  GET /api/slots/summary lists each day at most once, and lists a
    day with the count n exactly when n is the number of free slots that
    start on that day and n is not zero. *)
Theorem get_slots_summary_counts (env : Env) (st : Store) :
  db_fault env Slot_aggregate = None ->
  exists l,
    app env GET_slots_summary st
    = {| result := Normal {| code := 200; body := JsonSummary l |};
         final := st; effects := [ECall (Db Slot_aggregate) None] |} /\
    NoDup l.*1 /\
    forall day n,
      (day, n) ∈ l <->
      n = length (free_on_day st day) /\ n <> 0%nat.
Proof.
  intros Hdb. eexists. split; [|split].
  - cbn [app]. unfold get_slots_summary, try_catch, bind, Slot.aggregate,
      db_call, res_json, ret.
    rewrite Hdb. cbn. reflexivity.
  - apply NoDup_fst_map_to_list.
  - intros day n. rewrite elem_of_map_to_list.
    pose proof (fold_count_day
      (List.filter (fun d => bool_decide (slot_status d.2 = free))
         (map_to_list (slots st))) ∅ day) as H.
    cbn zeta in H. unfold Slot.count_day in H |- *. unfold day_of in H.
    rewrite H. fold day_of. rewrite filter_filter_day. fold (free_on_day st day).
    rewrite lookup_empty. cbn.
    destruct (decide (length (free_on_day st day) = 0%nat)) as [E|E].
    + split; [done|]. intros [-> ?]. done.
    + split; [intros [= <-]; done|]. intros [-> _]. done.
Qed.

(** ** Booking and payment, step by step *)

(** The run of POST /api/reservations on an available slot, whatever the
    payment gateway answers. *)
Lemma post_reservations_run (env : Env) (b : ReservationBody) (st : Store)
    (service : ServiceDoc) (slot : SlotDoc) :
  let vid := str (body_serviceId b) in
  let sid := str (body_slotId b) in
  let rid := fresh (dom (reservations st)) in
  let answer :=
    stripe_checkout_sessions_create env (checkout_params b service rid) in
  fields_present b = true ->
  services st !! vid = Some service ->
  slots st !! sid = Some slot ->
  slot_status slot = free ->
  db_reliable env ->
  runs (post_reservations env b) st
    (Normal match answer with
            | Normal session =>
                {| code := 200; body := JsonCheckoutUrl (url session) |}
            | Throw _ => {| code := 500; body := JsonError "Error interno." |}
            end)
    {| services := services st;
       slots := <[sid := booked_slot slot]> (slots st);
       reservations :=
         <[rid := pending_reservation env b]> (reservations st) |}
    ([ ECall (Db (Service_findById vid)) None;
       ECall (Db (Slot_findById sid)) None;
       ECall (Db (Slot_findByIdAndUpdate sid booked_update)) None;
       ECall (Db (Reservation_create (pending_reservation env b))) None;
       ECall (StripeSessionsCreate (checkout_params b service rid))
         (rejection answer) ]
     ++ match answer with
        | Normal _ => []
        | Throw e => [EConsoleError "" e]
        end).
Proof.
  intros vid sid rid answer Hf Hsvc Hs Hfree Hdb.
  assert (Hguard :
    negb (truthy (body_serviceId b)) || negb (truthy (body_slotId b))
    || negb (truthy (body_customerEmail b))
    || negb (truthy (body_firstName b))
    || negb (truthy (body_lastName b)) || negb (truthy (body_phone b))
    = false) by (by rewrite fields_missing_eq, Hf).
  assert (Hprefix : forall k : ServiceDoc -> Id * ReservationDoc -> M Response,
    forall c st' tr,
      runs (k service (rid, pending_reservation env b))
        {| services := services st;
           slots := <[sid := booked_slot slot]> (slots st);
           reservations :=
             <[rid := pending_reservation env b]> (reservations st) |}
        c st' tr ->
      runs
        (let* (service, slot) :=
           Promise_all2 (Service.findById env vid) (Slot.findById env sid) in
         match service, slot with
         | Some service, Some slot =>
             if bool_decide (slot_status slot <> free) then
               res_status_json 400
                 (JsonError "Servicio o slot no disponible.")
             else
               Slot.findByIdAndUpdate env sid booked_update false ;;;
               let* reservation :=
                 Reservation.create env vid sid (str (body_customerEmail b))
                   (str (body_firstName b)) (str (body_lastName b))
                   (str (body_phone b)) pending in
               k service reservation
         | _, _ =>
             res_status_json 400 (JsonError "Servicio o slot no disponible.")
         end) st c st'
        (([ECall (Db (Service_findById vid)) None]
          ++ [ECall (Db (Slot_findById sid)) None])
         ++ [ECall (Db (Slot_findByIdAndUpdate sid booked_update)) None]
         ++ [ECall (Db (Reservation_create (pending_reservation env b)))
               None]
         ++ tr)).
  { intros k c st' tr Hk.
    eapply runs_bind_normal.
    { eapply runs_all2;
        [apply (Service_findById_runs env Hdb vid)
        |apply (Slot_findById_runs env Hdb sid)]. }
    rewrite Hsvc, Hs. cbn iota beta.
    rewrite bool_decide_eq_false_2 by (intros H; by apply H).
    eapply runs_bind_normal;
      [apply (Slot_findByIdAndUpdate_found env Hdb _ _ _ _ _ Hs)|].
    eapply runs_bind_normal;
      [apply (Reservation_create_runs env Hdb)|].
    exact Hk. }
  unfold post_reservations. rewrite Hguard. fold vid sid.
  subst answer.
  destruct (stripe_checkout_sessions_create env
              (checkout_params b service rid)) as [session|e] eqn:Hans.
  - apply runs_try_normal.
    apply (Hprefix (fun service reservation => _)). cbn [fst].
    change {| customer_email := str (body_customerEmail b);
              unit_amount :=
                Math_round
                  (Number_mul (ToNumber (price service)) (Number_of_Z 100));
              product_name := title service;
              params_reservationId := rid;
              params_slotId := sid |} with (checkout_params b service rid).
    rewrite Hans.
    apply (runs_bind_normal _ _ _ _ _ _ _ _ _ (runs_await _ _ _)), runs_ret.
  - eapply (runs_try_throw _ _ _ e).
    + apply (Hprefix (fun service reservation => _)). cbn [fst].
      change {| customer_email := str (body_customerEmail b);
                unit_amount :=
                  Math_round
                    (Number_mul (ToNumber (price service)) (Number_of_Z 100));
                product_name := title service;
                params_reservationId := rid;
                params_slotId := sid |} with (checkout_params b service rid).
      rewrite Hans. apply runs_bind_throw, runs_await.
    + apply (runs_bind_normal _ _ _ _ _ _ _ _ _ (runs_emit _ _)), runs_ret.
Qed.

(** X8.  When the checkout request fails, POST /api/reservations answers
    500 and logs the error, but the slot stays booked and the pending
    reservation stays in the store: the hold is not released. *)
Theorem post_reservations_gateway_failure_keeps_hold (env : Env)
    (b : ReservationBody) (st : Store) (service : ServiceDoc) (slot : SlotDoc)
    (e : Exn) :
  let sid := str (body_slotId b) in
  let rid := fresh (dom (reservations st)) in
  let run := app env (POST_reservations b) st in
  fields_present b = true ->
  services st !! str (body_serviceId b) = Some service ->
  slots st !! sid = Some slot ->
  slot_status slot = free ->
  db_reliable env ->
  stripe_checkout_sessions_create env (checkout_params b service rid)
    = Throw e ->
  result run = Normal {| code := 500; body := JsonError "Error interno." |} /\
  last (effects run) = Some (EConsoleError "" e) /\
  slots (final run) !! sid = Some (booked_slot slot) /\
  reservations st !! rid = None /\
  reservations (final run) !! rid = Some (pending_reservation env b).
Proof.
  intros sid rid run Hf Hsvc Hs Hfree Hdb Hpay.
  pose proof (post_reservations_run env b st service slot Hf Hsvc Hs Hfree
                Hdb) as Hrun.
  cbn zeta in Hrun. fold rid sid in Hrun. rewrite Hpay in Hrun.
  unfold runs in Hrun. subst run. cbn [app]. rewrite Hrun.
  cbn [result final effects slots reservations].
  split_and!; try done.
  - apply lookup_insert_eq.
  - apply not_elem_of_dom, is_fresh.
  - apply lookup_insert_eq.
Qed.

Lemma post_reservations_gateway_failure_keeps_hold_witness :
  let run := app env_gateway_down (POST_reservations a_booking) st_open in
  result run = Normal {| code := 500; body := JsonError "Error interno." |} /\
  slots (final run) !! "s1" = Some a_booked_slot /\
  reservations (final run) !! "0"
  = Some (pending_reservation env_gateway_down a_booking).
Proof.
  intros run.
  destruct (post_reservations_gateway_failure_keeps_hold env_gateway_down
              a_booking st_open a_service a_free_slot
              (Error "gateway unavailable")
              eq_refl eq_refl eq_refl eq_refl (fun _ => eq_refl) eq_refl)
    as (Hres & _ & Hslot & _ & Hr).
  split; [exact Hres|]. split; [exact Hslot | exact Hr].
Defined.

(** X7.  Booking a free slot and then receiving the payment webhook of the
    session that booking created, for a meeting whose end is a valid date,
    leaves the slot booked and the new reservation paid, with the session id
    and the meeting link, and changes nothing else in the three
    collections. *)
Theorem book_then_pay (env : Env) (b : ReservationBody) (st : Store)
    (service : ServiceDoc) (slot : SlotDoc) (session : Session)
    (req : WebhookRequest) (event : StripeEvent) (endDate : Z)
    (meetLink : string) :
  let sid := str (body_slotId b) in
  let rid := fresh (dom (reservations st)) in
  let booked_ := final (app env (POST_reservations b) st) in
  let run := app env (POST_stripe_webhook req) booked_ in
  fields_present b = true ->
  services st !! str (body_serviceId b) = Some service ->
  slots st !! sid = Some slot ->
  slot_status slot = free ->
  db_reliable env ->
  stripe_checkout_sessions_create env (checkout_params b service rid)
    = Normal session ->
  metadata_reservationId session = rid ->
  metadata_slotId session = sid ->
  stripe_webhooks_constructEvent env (raw_body req) (stripe_signature req)
    (STRIPE_WEBHOOK_SECRET env) = Normal event ->
  event_type event = "checkout.session.completed" ->
  data_object event = session ->
  meeting_end slot service = Some endDate ->
  calendar_events_insert env
    (meeting_event env slot service (pending_reservation env b) endDate)
    = Normal meetLink ->
  result run = Normal {| code := 200; body := JsonReceived |} /\
  slots (final run) = <[sid := booked_slot slot]> (slots st) /\
  reservations (final run)
  = <[rid := confirmed_reservation session meetLink
               (pending_reservation env b)]> (reservations st) /\
  services (final run) = services st.
Proof.
  intros sid rid booked_ run Hf Hsvc Hs Hfree Hdb Hpay Hmr Hms Hev Hty Hobj
    Hend Hcal.
  pose proof (post_reservations_run env b st service slot Hf Hsvc Hs Hfree
                Hdb) as Hrun1.
  cbn zeta in Hrun1. fold rid sid in Hrun1. unfold runs in Hrun1.
  assert (Hst1 : booked_ =
    {| services := services st;
       slots := <[sid := booked_slot slot]> (slots st);
       reservations :=
         <[rid := pending_reservation env b]> (reservations st) |}).
  { subst booked_. cbn [app]. by rewrite Hrun1. }
  clearbody booked_. subst booked_.
  pose proof (webhook_checkout_run env req
                {| services := services st;
                   slots := <[sid := booked_slot slot]> (slots st);
                   reservations :=
                     <[rid := pending_reservation env b]>
                       (reservations st) |} event
                (pending_reservation env b) (booked_slot slot)
                (booked_slot slot) service endDate meetLink Hev Hty Hdb)
    as Hrun2.
  cbn zeta in Hrun2. rewrite Hobj, Hmr, Hms in Hrun2.
  cbn [services slots reservations] in Hrun2.
  specialize (Hrun2 (lookup_insert_eq _ _ _) (lookup_insert_eq _ _ _) Hsvc
                (lookup_insert_eq _ _ _) Hend Hcal).
  unfold runs in Hrun2. subst run. cbn [app]. rewrite Hrun2.
  cbn [result final services slots reservations].
  split_and!; try done.
  - by rewrite insert_insert_eq.
  - by rewrite insert_insert_eq.
Qed.

Lemma Slot_findByIdAndUpdate_missing env (Hdb : db_reliable env) id u new st :
  slots st !! id = None ->
  runs (Slot.findByIdAndUpdate env id u new) st (Normal None) st
    [ECall (Db (Slot_findByIdAndUpdate id u)) None].
Proof.
  intros H. unfold Slot.findByIdAndUpdate.
  pose proof (runs_db_call env (Slot_findByIdAndUpdate id u)
    (fun st => match slots st !! id with
       | Some s =>
           let s' := apply_slot_update u s in
           (Some (if new then s' else s),
            set_slots st (<[id := s']> (slots st)))
       | None => (None, st)
       end) st (Hdb _)) as Hrun.
  cbn beta in Hrun. rewrite H in Hrun. exact Hrun.
Qed.

(** The first steps of the orchestrator: the event is verified and the
    reservation is marked paid. *)
Ltac webhook_verified Hev Hty :=
  unfold stripe_webhook;
  eapply runs_bind_normal;
    [ apply runs_try_normal; rewrite Hev;
      eapply runs_bind_normal; [apply runs_eval|];
      eapply runs_bind_normal; [apply runs_emit|apply runs_ret]
    | cbn iota; rewrite Hty; cbn [String.eqb Ascii.eqb Bool.eqb] ].

(** X5.  A verified 'checkout.session.completed' event for a reservation
    whose slot is gone marks the reservation paid and then throws at
    [slot.start]: no meeting, no mail, no response, no rollback. *)
Theorem webhook_missing_slot_marks_paid_then_throws (env : Env)
    (req : WebhookRequest) (st : Store) (event : StripeEvent)
    (reservation : ReservationDoc) :
  let session := data_object event in
  let rid := metadata_reservationId session in
  let sid := metadata_slotId session in
  stripe_webhooks_constructEvent env (raw_body req) (stripe_signature req)
    (STRIPE_WEBHOOK_SECRET env) = Normal event ->
  event_type event = "checkout.session.completed" ->
  db_reliable env ->
  reservations st !! rid = Some reservation ->
  slots st !! sid = None ->
  app env (POST_stripe_webhook req) st
  = {| result :=
         Throw (TypeError "Cannot read properties of null (reading 'start')");
       final :=
         {| services := services st; slots := slots st;
            reservations :=
              <[rid := paid_reservation session reservation]>
                (reservations st) |};
       effects :=
         [ EConsoleLog "✔️ Recibí webhook:";
           ECall (Db (Reservation_findByIdAndUpdate rid
                        (paid_update session))) None;
           ECall (Db (Slot_findByIdAndUpdate sid booked_update)) None;
           ECall (Db (Slot_findById sid)) None;
           ECall (Db (Service_findById (serviceId reservation))) None ] |}.
Proof.
  intros session rid sid Hev Hty Hdb Hr Hs.
  eassert (Hrun : runs (stripe_webhook env req) st _ _ _).
  { webhook_verified Hev Hty.
    apply runs_bind_throw.
    unfold checkout_session_completed. fold session rid sid.
    eapply runs_bind_normal;
      [apply (Reservation_findByIdAndUpdate_found env Hdb _ _ _ _ _ Hr)|].
    eapply runs_bind_normal.
    { apply (Slot_findByIdAndUpdate_missing env Hdb). exact Hs. }
    eapply runs_bind_normal; [apply (Slot_findById_runs env Hdb)|].
    eapply runs_bind_normal; [apply runs_ret|].
    eapply runs_bind_normal; [apply (Service_findById_runs env Hdb)|].
    replace (slots (set_reservations st _) !! sid) with (@None SlotDoc)
      by (symmetry; exact Hs).
    apply runs_bind_throw, runs_throw. }
  exact Hrun.
Qed.

(** X3.  When the calendar rejects the request for a meeting whose end is
    a valid date, the exception leaves the webhook handler: the reservation
    is paid without a link, the slot is booked, no console line is written
    for the failure and no mail is sent. *)
Theorem webhook_meeting_failure (env : Env) (req : WebhookRequest)
    (st : Store) (event : StripeEvent) (reservation : ReservationDoc)
    (slot : SlotDoc) (service : ServiceDoc) (endDate : Z) (e : Exn) :
  let session := data_object event in
  let rid := metadata_reservationId session in
  let sid := metadata_slotId session in
  stripe_webhooks_constructEvent env (raw_body req) (stripe_signature req)
    (STRIPE_WEBHOOK_SECRET env) = Normal event ->
  event_type event = "checkout.session.completed" ->
  db_reliable env ->
  reservations st !! rid = Some reservation ->
  slots st !! sid = Some slot ->
  services st !! serviceId reservation = Some service ->
  meeting_end slot service = Some endDate ->
  calendar_events_insert env
    (meeting_event env slot service reservation endDate) = Throw e ->
  app env (POST_stripe_webhook req) st
  = {| result := Throw e;
       final :=
         {| services := services st;
            slots := <[sid := booked_slot slot]> (slots st);
            reservations :=
              <[rid := paid_reservation session reservation]>
                (reservations st) |};
       effects :=
         [ EConsoleLog "✔️ Recibí webhook:";
           ECall (Db (Reservation_findByIdAndUpdate rid
                        (paid_update session))) None;
           ECall (Db (Slot_findByIdAndUpdate sid booked_update)) None;
           ECall (Db (Slot_findById sid)) None;
           ECall (Db (Service_findById (serviceId reservation))) None;
           ECall (CalendarInsert
                    (meeting_event env slot service reservation endDate))
             (Some e) ] |}.
Proof.
  intros session rid sid Hev Hty Hdb Hr Hs Hsvc Hend Hcal.
  eassert (Hrun : runs (stripe_webhook env req) st _ _ _).
  { webhook_verified Hev Hty.
    apply runs_bind_throw.
    unfold checkout_session_completed. fold session rid sid.
    eapply runs_bind_normal;
      [apply (Reservation_findByIdAndUpdate_found env Hdb _ _ _ _ _ Hr)|].
    eapply runs_bind_normal;
      [apply (Slot_findByIdAndUpdate_found env Hdb); exact Hs|].
    eapply runs_bind_normal; [apply (Slot_findById_runs env Hdb)|].
    eapply runs_bind_normal; [apply runs_ret|].
    eapply runs_bind_normal; [apply (Service_findById_runs env Hdb)|].
    match goal with
    | |- context [slots ?s !! sid] =>
        replace (slots s !! sid)
          with (Some (apply_slot_update booked_update slot))
          by (symmetry; apply lookup_insert_eq)
    end.
    match goal with
    | |- context [services ?s !! ?i] =>
        replace (services s !! i) with (Some service) by done
    end.
    eapply runs_bind_normal; [apply runs_ret|].
    eapply runs_bind_normal; [apply runs_ret|].
    apply runs_bind_throw.
    pose proof (createGoogleMeet_meeting env slot service reservation
                  endDate
                  (set_slots
                     (set_reservations st
                        (<[rid := apply_reservation_update
                                    (paid_update session) reservation]>
                           (reservations st)))
                     (<[sid := apply_slot_update booked_update slot]>
                        (slots st)))
                  (apply_slot_update booked_update slot)
                  (apply_reservation_update (paid_update session)
                     reservation) eq_refl eq_refl Hend) as Hm.
    rewrite Hcal in Hm. apply Hm. }
  exact Hrun.
Qed.

(** X26.  When the slot's start plus the service's duration is not a valid
    date (the service has no duration, or one that is not a number or leads
    beyond the range of dates, or the start itself is invalid),
    [createGoogleMeet] throws a RangeError while it builds the event: the
    exception leaves the webhook handler with the reservation paid and the
    slot booked, and the calendar is never called. *)
Theorem webhook_invalid_meeting_time (env : Env) (req : WebhookRequest)
    (st : Store) (event : StripeEvent) (reservation : ReservationDoc)
    (slot : SlotDoc) (service : ServiceDoc) :
  let session := data_object event in
  let rid := metadata_reservationId session in
  let sid := metadata_slotId session in
  stripe_webhooks_constructEvent env (raw_body req) (stripe_signature req)
    (STRIPE_WEBHOOK_SECRET env) = Normal event ->
  event_type event = "checkout.session.completed" ->
  db_reliable env ->
  reservations st !! rid = Some reservation ->
  slots st !! sid = Some slot ->
  services st !! serviceId reservation = Some service ->
  meeting_end slot service = None ->
  app env (POST_stripe_webhook req) st
  = {| result := Throw (RangeError "Invalid time value");
       final :=
         {| services := services st;
            slots := <[sid := booked_slot slot]> (slots st);
            reservations :=
              <[rid := paid_reservation session reservation]>
                (reservations st) |};
       effects :=
         [ EConsoleLog "✔️ Recibí webhook:";
           ECall (Db (Reservation_findByIdAndUpdate rid
                        (paid_update session))) None;
           ECall (Db (Slot_findByIdAndUpdate sid booked_update)) None;
           ECall (Db (Slot_findById sid)) None;
           ECall (Db (Service_findById (serviceId reservation))) None ] |}.
Proof.
  intros session rid sid Hev Hty Hdb Hr Hs Hsvc Hend.
  eassert (Hrun : runs (stripe_webhook env req) st _ _ _).
  { webhook_verified Hev Hty.
    apply runs_bind_throw.
    unfold checkout_session_completed. fold session rid sid.
    eapply runs_bind_normal;
      [apply (Reservation_findByIdAndUpdate_found env Hdb _ _ _ _ _ Hr)|].
    eapply runs_bind_normal;
      [apply (Slot_findByIdAndUpdate_found env Hdb); exact Hs|].
    eapply runs_bind_normal; [apply (Slot_findById_runs env Hdb)|].
    eapply runs_bind_normal; [apply runs_ret|].
    eapply runs_bind_normal; [apply (Service_findById_runs env Hdb)|].
    match goal with
    | |- context [slots ?s !! sid] =>
        replace (slots s !! sid)
          with (Some (apply_slot_update booked_update slot))
          by (symmetry; apply lookup_insert_eq)
    end.
    match goal with
    | |- context [services ?s !! ?i] =>
        replace (services s !! i) with (Some service) by done
    end.
    eapply runs_bind_normal; [apply runs_ret|].
    eapply runs_bind_normal; [apply runs_ret|].
    apply runs_bind_throw.
    apply (createGoogleMeet_invalid env
             (apply_slot_update booked_update slot) service).
    exact Hend. }
  exact Hrun.
Qed.

Lemma Reservation_findByIdAndUpdate_missing env (Hdb : db_reliable env) id u
    new st :
  reservations st !! id = None ->
  runs (Reservation.findByIdAndUpdate env id u new) st (Normal None) st
    [ECall (Db (Reservation_findByIdAndUpdate id u)) None].
Proof.
  intros H. unfold Reservation.findByIdAndUpdate.
  pose proof (runs_db_call env (Reservation_findByIdAndUpdate id u)
    (fun st => match reservations st !! id with
       | Some r =>
           let r' := apply_reservation_update u r in
           (Some (if new then r' else r),
            set_reservations st (<[id := r']> (reservations st)))
       | None => (None, st)
       end) st (Hdb _)) as Hrun.
  cbn beta in Hrun. rewrite H in Hrun. exact Hrun.
Qed.

(** X4.  A verified 'checkout.session.completed' event for a reservation
    that is gone still sets the slot to booked, and then throws at
    [reservation.serviceId]. *)
Theorem webhook_missing_reservation_books_slot_then_throws (env : Env)
    (req : WebhookRequest) (st : Store) (event : StripeEvent)
    (slot : SlotDoc) :
  let session := data_object event in
  let rid := metadata_reservationId session in
  let sid := metadata_slotId session in
  stripe_webhooks_constructEvent env (raw_body req) (stripe_signature req)
    (STRIPE_WEBHOOK_SECRET env) = Normal event ->
  event_type event = "checkout.session.completed" ->
  db_reliable env ->
  reservations st !! rid = None ->
  slots st !! sid = Some slot ->
  app env (POST_stripe_webhook req) st
  = {| result :=
         Throw (TypeError
                  "Cannot read properties of null (reading 'serviceId')");
       final :=
         {| services := services st;
            slots := <[sid := booked_slot slot]> (slots st);
            reservations := reservations st |};
       effects :=
         [ EConsoleLog "✔️ Recibí webhook:";
           ECall (Db (Reservation_findByIdAndUpdate rid
                        (paid_update session))) None;
           ECall (Db (Slot_findByIdAndUpdate sid booked_update)) None;
           ECall (Db (Slot_findById sid)) None ] |}.
Proof.
  intros session rid sid Hev Hty Hdb Hr Hs.
  eassert (Hrun : runs (stripe_webhook env req) st _ _ _).
  { webhook_verified Hev Hty.
    apply runs_bind_throw.
    unfold checkout_session_completed. fold session rid sid.
    eapply runs_bind_normal;
      [apply (Reservation_findByIdAndUpdate_missing env Hdb); exact Hr|].
    eapply runs_bind_normal;
      [apply (Slot_findByIdAndUpdate_found env Hdb); exact Hs|].
    eapply runs_bind_normal; [apply (Slot_findById_runs env Hdb)|].
    apply runs_bind_throw, runs_throw. }
  exact Hrun.
Qed.

(** X6.  A second delivery of the same event, for a meeting whose end is a
    valid date, is not recognised: the handler makes all eight calls again
    (a second meeting, a second mail) and overwrites the reservation's link
    with the new one; the slots stay as the first delivery left them. *)
Theorem webhook_redelivery (env env2 : Env) (req : WebhookRequest)
    (st : Store) (event : StripeEvent) (reservation : ReservationDoc)
    (slot : SlotDoc) (service : ServiceDoc) (endDate : Z)
    (meetLink meetLink2 : string) :
  let session := data_object event in
  let rid := metadata_reservationId session in
  let sid := metadata_slotId session in
  let first := app env (POST_stripe_webhook req) st in
  let second := app env2 (POST_stripe_webhook req) (final first) in
  stripe_webhooks_constructEvent env (raw_body req) (stripe_signature req)
    (STRIPE_WEBHOOK_SECRET env) = Normal event ->
  stripe_webhooks_constructEvent env2 (raw_body req) (stripe_signature req)
    (STRIPE_WEBHOOK_SECRET env2) = Normal event ->
  event_type event = "checkout.session.completed" ->
  db_reliable env -> db_reliable env2 ->
  reservations st !! rid = Some reservation ->
  slotId reservation = sid ->
  slots st !! sid = Some slot ->
  services st !! serviceId reservation = Some service ->
  meeting_end slot service = Some endDate ->
  calendar_events_insert env
    (meeting_event env slot service reservation endDate) = Normal meetLink ->
  calendar_events_insert env2
    (meeting_event env2 slot service reservation endDate)
    = Normal meetLink2 ->
  result second = Normal {| code := 200; body := JsonReceived |} /\
  calls (effects second)
  = checkout_calls env2 session reservation slot service slot endDate
      meetLink2 /\
  slots (final second) = slots (final first) /\
  reservations (final second)
  = <[rid := confirmed_reservation session meetLink2 reservation]>
      (reservations st).
Proof.
  intros session rid sid first second Hev Hev2 Hty Hdb Hdb2 Hr Hsl Hs Hsvc
    Hend Hcal Hcal2.
  assert (Hrs : slots st !! slotId reservation = Some slot)
    by (by rewrite Hsl).
  pose proof (webhook_checkout_run env req st event reservation slot slot
                service endDate meetLink Hev Hty Hdb Hr Hs Hsvc Hrs Hend Hcal)
    as Hrun1.
  cbn zeta in Hrun1. fold session rid sid in Hrun1. unfold runs in Hrun1.
  subst second first. cbn [app]. rewrite Hrun1. cbn [final].
  pose proof (webhook_checkout_run env2 req
                {| services := services st;
                   slots := <[sid := apply_slot_update booked_update slot]>
                              (slots st);
                   reservations :=
                     <[rid := apply_reservation_update
                                (meetingLink_update meetLink)
                                (apply_reservation_update
                                   (paid_update session) reservation)]>
                       (reservations st) |}
                event
                (apply_reservation_update (meetingLink_update meetLink)
                   (apply_reservation_update (paid_update session)
                      reservation))
                (apply_slot_update booked_update slot)
                (apply_slot_update booked_update slot)
                service endDate meetLink2 Hev2 Hty Hdb2) as Hrun2.
  cbn zeta in Hrun2. fold session rid sid in Hrun2.
  cbn [services slots reservations] in Hrun2.
  specialize (Hrun2 (lookup_insert_eq _ _ _) (lookup_insert_eq _ _ _) Hsvc).
  cbn [slotId apply_reservation_update] in Hrun2. rewrite Hsl in Hrun2.
  specialize (Hrun2 (lookup_insert_eq _ _ _) Hend Hcal2).
  unfold runs in Hrun2. rewrite Hrun2.
  cbn [result final effects services slots reservations].
  split_and!.
  - done.
  - by destruct (mailTransporter_sendMail env2 _) as [[]|?].
  - by rewrite insert_insert_eq.
  - by rewrite insert_insert_eq.
Qed.

(** ** The admin routes *)

(** X20.  DELETE /api/admin/slots/:slotId answers 200 whether or not the
    slot exists, removes that slot only, and leaves every reservation in
    place, also those that refer to the slot. *)
Theorem delete_admin_slots_leaves_reservations (env : Env) (id : Id)
    (st : Store) :
  db_fault env (Slot_findByIdAndDelete id) = None ->
  let run := delete_admin_slots env id st in
  result run = Normal {| code := 200; body := JsonMessage "Slot deleted." |} /\
  slots (final run) = delete id (slots st) /\
  reservations (final run) = reservations st /\
  services (final run) = services st.
Proof.
  intros Hdb. unfold delete_admin_slots, try_catch, bind,
    Slot.findByIdAndDelete, db_call, res_json, ret.
  rewrite Hdb. by cbn.
Qed.

Lemma delete_admin_slots_leaves_reservations_witness :
  let run := delete_admin_slots env_ok "s1" st_pending in
  result run = Normal {| code := 200; body := JsonMessage "Slot deleted." |} /\
  slots (final run) !! "s1" = None /\
  reservations (final run) !! "r1" = Some a_pending_reservation.
Proof.
  intros run.
  destruct (delete_admin_slots_leaves_reservations env_ok "s1" st_pending
              eq_refl) as (Hres & Hs & Hr & _).
  split; [exact Hres|]. fold run in Hs, Hr. rewrite Hs, Hr.
  split; reflexivity.
Defined.

(** X21.  DELETE /api/admin/reservation/:reservationId answers 200 whether
    or not the reservation exists, removes that reservation only, and leaves
    every slot as it was: the slot of the deleted reservation stays
    booked. *)
Theorem delete_admin_reservation_keeps_slot_booked (env : Env) (id : Id)
    (st : Store) :
  db_fault env (Reservation_findByIdAndDelete id) = None ->
  let run := delete_admin_reservation env id st in
  result run
  = Normal {| code := 200; body := JsonMessage "Reserva eliminada." |} /\
  reservations (final run) = delete id (reservations st) /\
  slots (final run) = slots st /\
  services (final run) = services st.
Proof.
  intros Hdb. unfold delete_admin_reservation, try_catch, bind,
    Reservation.findByIdAndDelete, db_call, res_json, ret.
  rewrite Hdb. by cbn.
Qed.

Lemma delete_admin_reservation_keeps_slot_booked_witness :
  let run := delete_admin_reservation env_ok "r1" st_pending in
  reservations (final run) !! "r1" = None /\
  slots (final run) !! "s1" = Some a_booked_slot.
Proof.
  intros run.
  destruct (delete_admin_reservation_keeps_slot_booked env_ok "r1"
              st_pending eq_refl) as (_ & Hr & Hs & _).
  fold run in Hs, Hr. rewrite Hs, Hr. split; reflexivity.
Defined.

(** X22.  PUT /api/admin/slots/:slotId sets the fields given in the body
    on that slot and returns it, and touches nothing else (it is the one
    route that can set a booked slot back to free); for an unknown id it
    answers 200 with [null] and changes nothing. *)
Theorem put_admin_slots_updates (env : Env) (id : Id) (u : SlotUpdate)
    (st : Store) :
  db_fault env (Slot_findByIdAndUpdate id u) = None ->
  let run := put_admin_slots env id u st in
  reservations (final run) = reservations st /\
  services (final run) = services st /\
  match slots st !! id with
  | Some s =>
      result run
      = Normal {| code := 200;
                  body := JsonSlot (Some (id, apply_slot_update u s)) |} /\
      slots (final run) = <[id := apply_slot_update u s]> (slots st)
  | None =>
      result run = Normal {| code := 200; body := JsonSlot None |} /\
      final run = st
  end.
Proof.
  intros Hdb. unfold put_admin_slots, try_catch, bind,
    Slot.findByIdAndUpdate, db_call, res_json, ret.
  rewrite Hdb. by destruct (slots st !! id).
Qed.

(** X23.  GET /api/admin/reservations returns as many entries as there are
    reservations: exactly the reservations of the store, each with its
    service and its slot, or [null] for one that is gone. *)
Theorem get_admin_reservations_lists_all (env : Env) (st : Store) :
  db_fault env Reservation_find_populate = None ->
  exists l,
    get_admin_reservations env st
    = {| result := Normal {| code := 200; body := JsonReservations l |};
         final := st;
         effects := [ECall (Db Reservation_find_populate) None] |} /\
    length l = size (reservations st) /\
    forall p,
      p ∈ l <->
      reservations st !! pr_id p = Some (pr_doc p) /\
      pr_service p = services st !! serviceId (pr_doc p) /\
      pr_slot p = slots st !! slotId (pr_doc p).
Proof.
  intros Hdb. eexists. split; [|split].
  - unfold get_admin_reservations, try_catch, bind,
      Reservation.find_populate, db_call, res_json, ret.
    rewrite Hdb. cbn. reflexivity.
  - rewrite length_map. apply length_map_to_list.
  - intros p. rewrite list_elem_of_In, in_map_iff. split.
    + intros ([id r] & <- & Hin). apply list_elem_of_In in Hin.
      apply elem_of_map_to_list in Hin. by cbn.
    + intros (Hr & Hsv & Hsl). exists (pr_id p, pr_doc p). split.
      * unfold populate. cbn. rewrite <- Hsv, <- Hsl. by destruct p.
      * apply list_elem_of_In, elem_of_map_to_list, Hr.
Qed.

(** ** Edge cases of the public routes *)

(** X24.  GET /api/slots with a date that does not parse is answered 500,
    not 400, and leaves the store as it was. *)
Theorem get_slots_unparsable_date (env : Env) (date : option string)
    (st : Store) :
  truthy date = true ->
  Date_parse env (str date +:+ "T00:00:00") = None \/
  Date_parse env (str date +:+ "T23:59:59") = None ->
  result (app env (GET_slots date) st)
  = Normal {| code := 500; body := JsonError "Error interno." |} /\
  final (app env (GET_slots date) st) = st.
Proof.
  intros Hd Hbad. cbn [app]. unfold get_slots. rewrite Hd. cbn [negb].
  unfold try_catch, bind, Slot.find_free_sorted, db_reject, await.
  destruct (Date_parse env (str date +:+ "T00:00:00")),
    (Date_parse env (str date +:+ "T23:59:59"));
    try (by destruct Hbad); by cbn.
Qed.

Lemma get_slots_unparsable_date_witness :
  result (app env_ok (GET_slots (Some "tomorrow")) st_open)
  = Normal {| code := 500; body := JsonError "Error interno." |} /\
  final (app env_ok (GET_slots (Some "tomorrow")) st_open) = st_open.
Proof.
  apply (get_slots_unparsable_date env_ok (Some "tomorrow") st_open eq_refl).
  left. reflexivity.
Defined.

(** X25.  POST /api/admin/slots with a start that does not parse as a date
    is answered 400 'Invalid slot data.', the error is logged and no slot is
    created. *)
Theorem post_admin_slots_unparsable_start (env : Env) (b : NewSlotBody)
    (st : Store) :
  truthy (new_start b) = true ->
  Date_parse env (str (new_start b)) = None ->
  post_admin_slots env b st
  = {| result :=
         Normal {| code := 400; body := JsonError "Invalid slot data." |};
       final := st;
       effects :=
         [ ECall (Db (Slot_create (str (new_start b)) free))
             (Some (CastError "Cast to date failed"));
           EConsoleError "" (CastError "Cast to date failed") ] |}.
Proof.
  intros Hs Hd. unfold post_admin_slots. rewrite Hs. cbn [negb].
  unfold try_catch, bind, Slot.create, db_reject, await. rewrite Hd.
  reflexivity.
Qed.

Lemma post_admin_slots_unparsable_start_witness :
  let b := {| new_start := Some "next monday"; new_status := None;
              new_serviceId := None; new_end := None |} in
  result (post_admin_slots env_ok b st_open)
  = Normal {| code := 400; body := JsonError "Invalid slot data." |}.
Proof.
  intros b.
  exact (f_equal result
           (post_admin_slots_unparsable_start env_ok b st_open
              eq_refl eq_refl)).
Defined.

(** A reservation request for a slot that is not free. *)
Lemma post_reservations_unavailable (env : Env) (b : ReservationBody)
    (st : Store) (slot : SlotDoc) :
  db_reliable env ->
  fields_present b = true ->
  slots st !! str (body_slotId b) = Some slot ->
  slot_status slot <> free ->
  runs (post_reservations env b) st
    (Normal {| code := 400;
               body := JsonError "Servicio o slot no disponible." |})
    st
    [ ECall (Db (Service_findById (str (body_serviceId b)))) None;
      ECall (Db (Slot_findById (str (body_slotId b)))) None ].
Proof.
  intros Hdb Hf Hs Hst.
  change [ ECall (Db (Service_findById (str (body_serviceId b)))) None;
           ECall (Db (Slot_findById (str (body_slotId b)))) None ]
    with (([ECall (Db (Service_findById (str (body_serviceId b)))) None]
           ++ [ECall (Db (Slot_findById (str (body_slotId b)))) None])
          ++ []).
  unfold post_reservations. apply runs_try_normal.
  rewrite fields_missing_eq, Hf. cbn [negb].
  eapply runs_bind_normal.
  { eapply runs_all2;
      [apply (Service_findById_runs env Hdb)
      |apply (Slot_findById_runs env Hdb)]. }
  rewrite Hs. destruct (services st !! _); [|apply runs_ret].
  rewrite bool_decide_eq_true_2 by done. apply runs_ret.
Qed.

(** X9.  After a reservation request has taken a free slot, a further
    request for the same slot is answered 400 and changes nothing, whoever
    makes it. *)
Theorem second_booking_is_rejected (env : Env) (b b2 : ReservationBody)
    (st : Store) (service : ServiceDoc) (slot : SlotDoc) :
  let first := app env (POST_reservations b) st in
  let second := app env (POST_reservations b2) (final first) in
  fields_present b = true ->
  services st !! str (body_serviceId b) = Some service ->
  slots st !! str (body_slotId b) = Some slot ->
  slot_status slot = free ->
  db_reliable env ->
  fields_present b2 = true ->
  body_slotId b2 = body_slotId b ->
  result second
  = Normal {| code := 400;
              body := JsonError "Servicio o slot no disponible." |} /\
  final second = final first.
Proof.
  intros first second Hf Hsvc Hs Hfree Hdb Hf2 Hsame.
  pose proof (post_reservations_run env b st service slot Hf Hsvc Hs Hfree
                Hdb) as Hrun1.
  cbn zeta in Hrun1. unfold runs in Hrun1.
  assert (Hslot : slots (final first) !! str (body_slotId b2)
                  = Some (booked_slot slot)).
  { subst first. cbn [app]. rewrite Hrun1, Hsame. cbn [final slots].
    apply lookup_insert_eq. }
  pose proof (post_reservations_unavailable env b2 (final first)
                (booked_slot slot) Hdb Hf2 Hslot) as Hrun2.
  unfold runs in Hrun2. subst second. cbn [app] in *.
  rewrite Hrun2 by done. done.
Qed.

Lemma second_booking_is_rejected_witness :
  let first := app env_ok (POST_reservations a_booking) st_open in
  let second := app env_ok (POST_reservations a_booking) (final first) in
  result second
  = Normal {| code := 400;
              body := JsonError "Servicio o slot no disponible." |} /\
  final second = final first.
Proof.
  exact (second_booking_is_rejected env_ok a_booking a_booking st_open
           a_service a_free_slot eq_refl eq_refl eq_refl eq_refl
           (fun _ => eq_refl) eq_refl eq_refl).
Defined.

(** ** The properties at concrete inputs *)

Lemma get_slots_free_between_witness :
  exists l,
    app env_ok (GET_slots (Some "2024-01-01")) st_day
    = {| result := Normal {| code := 200; body := JsonSlots l |};
         final := st_day;
         effects :=
           [ECall (Db (Slot_find_free_sorted (Some 1704067200000)
                         (Some 1704153599000))) None] |} /\
    Sorted Slot.by_start l /\
    forall id s,
      (id, s) ∈ l <->
      slots st_day !! id = Some s /\ slot_status s = free /\
      1704067200000 <= start s <= 1704153599000.
Proof.
  exact (get_slots_free_between env_ok (Some "2024-01-01") st_day
           1704067200000 1704153599000 eq_refl eq_refl eq_refl eq_refl).
Defined.

Lemma webhook_meeting_failure_witness :
  result (app env_calendar_down
            (POST_stripe_webhook (signed "checkout.session.completed"))
            st_pending)
  = Throw (Error "calendar unavailable").
Proof.
  exact (f_equal result
           (webhook_meeting_failure env_calendar_down
              (signed "checkout.session.completed") st_pending
              {| event_id := "evt_1";
                 event_type := "checkout.session.completed";
                 data_object := a_session |}
              a_pending_reservation a_booked_slot a_service 1704106800000
              (Error "calendar unavailable")
              eq_refl eq_refl (fun _ => eq_refl) eq_refl eq_refl eq_refl
              eq_refl eq_refl)).
Defined.

Lemma webhook_invalid_meeting_time_witness :
  let run :=
    app env_ok (POST_stripe_webhook (signed "checkout.session.completed"))
      st_no_duration in
  result run = Throw (RangeError "Invalid time value") /\
  calls (effects run) =
    [ Db (Reservation_findByIdAndUpdate "r1" (paid_update a_session));
      Db (Slot_findByIdAndUpdate "s1" booked_update);
      Db (Slot_findById "s1");
      Db (Service_findById "v1") ].
Proof.
  intros run.
  pose proof (webhook_invalid_meeting_time env_ok
                (signed "checkout.session.completed") st_no_duration
                {| event_id := "evt_1";
                   event_type := "checkout.session.completed";
                   data_object := a_session |}
                a_pending_reservation a_booked_slot a_service_without_duration
                eq_refl eq_refl (fun _ => eq_refl) eq_refl eq_refl eq_refl
                eq_refl) as H.
  fold run in H. rewrite H. split; reflexivity.
Defined.

Lemma webhook_missing_reservation_books_slot_then_throws_witness :
  let run :=
    app env_ok (POST_stripe_webhook (signed "checkout.session.completed"))
      {| services := {["v1" := a_service]};
         slots := {["s1" := a_free_slot]};
         reservations := ∅ |} in
  result run
  = Throw (TypeError "Cannot read properties of null (reading 'serviceId')")
  /\ slots (final run) = <["s1" := a_booked_slot]> {["s1" := a_free_slot]}.
Proof.
  intros run.
  pose proof (webhook_missing_reservation_books_slot_then_throws env_ok
                (signed "checkout.session.completed")
                {| services := {["v1" := a_service]};
                   slots := {["s1" := a_free_slot]};
                   reservations := ∅ |}
                {| event_id := "evt_1";
                   event_type := "checkout.session.completed";
                   data_object := a_session |}
                a_free_slot eq_refl eq_refl (fun _ => eq_refl) eq_refl
                eq_refl) as H.
  fold run in H. rewrite H. split; reflexivity.
Defined.

Lemma webhook_missing_slot_marks_paid_then_throws_witness :
  let run :=
    app env_ok (POST_stripe_webhook (signed "checkout.session.completed"))
      st_slot_deleted in
  result run
  = Throw (TypeError "Cannot read properties of null (reading 'start')") /\
  reservations (final run)
  = <["r1" := paid_reservation a_session a_pending_reservation]>
      (reservations st_slot_deleted).
Proof.
  intros run.
  pose proof (webhook_missing_slot_marks_paid_then_throws env_ok
                (signed "checkout.session.completed") st_slot_deleted
                {| event_id := "evt_1";
                   event_type := "checkout.session.completed";
                   data_object := a_session |}
                a_pending_reservation eq_refl eq_refl (fun _ => eq_refl)
                eq_refl eq_refl) as H.
  fold run in H. rewrite H. split; reflexivity.
Defined.

Lemma webhook_redelivery_witness :
  let req := signed "checkout.session.completed" in
  let first := app env_ok (POST_stripe_webhook req) st_pending in
  let second := app env_later (POST_stripe_webhook req) (final first) in
  result second = Normal {| code := 200; body := JsonReceived |} /\
  reservations (final second)
  = <["r1" := confirmed_reservation a_session "https://meet.example/xyz"
                a_pending_reservation]> (reservations st_pending).
Proof.
  intros req first second.
  destruct (webhook_redelivery env_ok env_later req st_pending
              {| event_id := "evt_1";
                 event_type := "checkout.session.completed";
                 data_object := a_session |}
              a_pending_reservation a_booked_slot a_service 1704106800000
              "https://meet.example/abc" "https://meet.example/xyz"
              eq_refl eq_refl eq_refl (fun _ => eq_refl) (fun _ => eq_refl)
              eq_refl eq_refl eq_refl eq_refl eq_refl eq_refl eq_refl)
    as (Hres & _ & _ & Hr).
  split; [exact Hres | exact Hr].
Defined.

Lemma book_then_pay_witness :
  let req := signed "checkout.session.completed" in
  let booked_ := final (app env_shop (POST_reservations a_booking) st_open) in
  let run := app env_shop (POST_stripe_webhook req) booked_ in
  result run = Normal {| code := 200; body := JsonReceived |} /\
  slots (final run) = <["s1" := a_booked_slot]> (slots st_open) /\
  reservations (final run)
  = <["0" := confirmed_reservation the_booking_session
               "https://meet.example/abc"
               (pending_reservation env_shop a_booking)]>
      (reservations st_open).
Proof.
  intros req booked_ run.
  destruct (book_then_pay env_shop a_booking st_open a_service a_free_slot
              the_booking_session req
              {| event_id := "evt_2";
                 event_type := "checkout.session.completed";
                 data_object := the_booking_session |}
              1704106800000 "https://meet.example/abc"
              eq_refl eq_refl eq_refl eq_refl (fun _ => eq_refl) eq_refl
              eq_refl eq_refl eq_refl eq_refl eq_refl eq_refl eq_refl)
    as (Hres & Hs & Hr & _).
  split; [exact Hres|]. split; [exact Hs | exact Hr].
Defined.

Lemma read_only_routes_keep_store_witness :
  final (app env_ok (GET_slots (Some "2024-01-01")) st_day) = st_day.
Proof.
  exact (read_only_routes_keep_store env_ok (GET_slots (Some "2024-01-01"))
           st_day eq_refl).
Defined.

Lemma no_route_cancels_witness :
  exists r, reservations st_cancelled !! "r1" = Some r /\ status r = cancelled.
Proof.
  exact (no_route_cancels env_ok
           (POST_stripe_webhook (signed "payment_intent.succeeded"))
           st_cancelled "r1" a_cancelled_reservation eq_refl eq_refl).
Defined.

Lemma get_slots_summary_counts_witness :
  exists l,
    app env_ok GET_slots_summary st_day
    = {| result := Normal {| code := 200; body := JsonSummary l |};
         final := st_day; effects := [ECall (Db Slot_aggregate) None] |} /\
    NoDup l.*1 /\
    forall day n,
      (day, n) ∈ l <->
      n = length (free_on_day st_day day) /\ n <> 0%nat.
Proof. exact (get_slots_summary_counts env_ok st_day eq_refl). Defined.

(** On [st_day] the summary is one line: two free slots on day 19723. *)
Lemma get_slots_summary_on_st_day :
  result (app env_ok GET_slots_summary st_day)
  = Normal {| code := 200; body := JsonSummary [(19723, 2%nat)] |}.
Proof. vm_compute. reflexivity. Qed.

Lemma put_admin_slots_updates_witness :
  let u := {| set_slot_serviceId := None; set_start := None;
              set_end := None; set_slot_status := Some free |} in
  (result (put_admin_slots env_ok "s1" u st_pending)
   = Normal {| code := 200; body := JsonSlot (Some ("s1", a_free_slot)) |} /\
   slots (final (put_admin_slots env_ok "s1" u st_pending))
   = <["s1" := a_free_slot]> (slots st_pending)) /\
  (result (put_admin_slots env_ok "nobody" u st_pending)
   = Normal {| code := 200; body := JsonSlot None |} /\
   final (put_admin_slots env_ok "nobody" u st_pending) = st_pending).
Proof.
  intros u. split.
  - exact (proj2 (proj2 (put_admin_slots_updates env_ok "s1" u st_pending
                           eq_refl))).
  - exact (proj2 (proj2 (put_admin_slots_updates env_ok "nobody" u
                           st_pending eq_refl))).
Defined.

Lemma get_admin_reservations_lists_all_witness :
  exists l,
    get_admin_reservations env_ok st_slot_deleted
    = {| result := Normal {| code := 200; body := JsonReservations l |};
         final := st_slot_deleted;
         effects := [ECall (Db Reservation_find_populate) None] |} /\
    length l = size (reservations st_slot_deleted) /\
    forall p,
      p ∈ l <->
      reservations st_slot_deleted !! pr_id p = Some (pr_doc p) /\
      pr_service p = services st_slot_deleted !! serviceId (pr_doc p) /\
      pr_slot p = slots st_slot_deleted !! slotId (pr_doc p).
Proof.
  exact (get_admin_reservations_lists_all env_ok st_slot_deleted eq_refl).
Defined.

(** The reservation whose slot was deleted is listed with [slotId: null]. *)
Lemma get_admin_reservations_on_deleted_slot :
  result (get_admin_reservations env_ok st_slot_deleted)
  = Normal {| code := 200;
              body := JsonReservations
                        [ {| pr_id := "r1";
                             pr_doc := a_pending_reservation;
                             pr_service := Some a_service;
                             pr_slot := None |} ] |}.
Proof. vm_compute. reflexivity. Qed.
